(* ===== verification/_CoqProject ===== *)
-Q . S2P
Prelude.v
JsString.v
JsDate.v
DateFacts.v
DateParse.v
MemoStore.v
Json.v
JsonParse.v
Grid.v
App.v
Navigation.v
Page.v
Title.v
Header.v
DateRange.v
Markup.v
Commit.v
