(* ===== verification/Prelude.v ===== *)
(** * A verified model of the calendar-and-memo widget [src/src/App.jsx]

    The program is one React function component, [Calendar], in
    [src/src/App.jsx].  It keeps four pieces of state ([currentDate],
    [selectedDate], [memo], the draft, and [memos], an object from date
    keys to memo texts), renders a month grid with [renderCalendar]
    (lines 71-103), and reacts to seven user events through
    [handlePreviousMonth], [handleNextMonth], [handleDateClick],
    [handleMemoChange], [handleSaveMemo], [handleEditMemo] and
    [handleDeleteMemo] (lines 23-61).  Two effects connect [memos] with
    [localStorage]: one loads it on mount (lines 11-16), one writes
    [JSON.stringify(memos)] whenever [memos] changes (lines 18-21).  The
    grid and the handlers meet in the date keys: each cell's key is
    [dateIterator.toISOString().slice(0, 10)], a click selects that key,
    and memos are stored under the selected key.  The header shows the
    displayed month with [toLocaleString] (line 109), and the grid's
    children are seven static weekday headers and the date cells, whose
    [className] is a template of the cell's flags (lines 91, 113-122).

    ** Files, in dependency order

    - [Prelude] (this file): JavaScript strings as lists of UTF-16 code
      units ([jsstr]), [===] and truthiness, the scope [js_scope], the
      hint databases [js] and [js_rw], the tactic [range_check] (a
      bounded universal statement checked by [vm_compute] over a list),
      and generic lemmas on integer ranges ([zseq]), lists and periodic
      predicates.
    - [JsString] (Module [JsString]): decimal printing, [padStart],
      [slice] and the fixed-width digit strings of [toISOString].
    - [JsDate] (Module [JsDate]): the ECMA-262 date arithmetic the
      component calls ([DayFromYear], [YearFromTime], [MakeDay],
      [MakeDate], [new Date(y, m, d)] with its two-digit-year rule,
      [getFullYear], [getMonth], [getDate], [getDay], [setDate],
      [toISOString]) for a constant local offset [tz] (a Section
      variable).  [year_of_day] inverts [DayFromYear]; it is proved
      correct for every day by 400-year periodicity and one [vm_compute]
      pass over the 146097 days of a period.
    - [DateFacts] (Module [DateFacts]): month tables, the round trip
      [MakeDay] / (year, month, date) of a day, weekday facts, the fields
      of a local midnight, [setDate(getDate() + 1)] as one day's step,
      and the injectivity of the [YYYY-MM-DD] key for years 0-9999.
    - [DateParse] (Module [DateParse]): [Date.parse] on the date-only
      forms [YYYY], [YYYY-MM], [YYYY-MM-DD] (UTC midnight), and the
      parse of a key back to its day.
    - [MemoStore]: the interface [MemoStore] / [MemoStoreLaws] (a
      typeclass: get, set, delete and their laws) that the grid uses to
      read memos, and Module [JsObject], the JavaScript object of
      [memos] as an association list in property order (array-index keys
      first, then insertion order) with spread, computed-key assignment
      and [delete]; it implements the interface and refines a stdpp
      [gmap] ([to_map]).
    - [Json] (Module [Json]): [JSON.stringify] of a string-valued object.
    - [JsonParse] (Module [JsonParse]): [JSON.parse] over the whole JSON
      grammar, a recursive-descent parser with fuel, and the memo object
      a parsed value denotes; it terminates on every text and reads back
      what [JSON.stringify] wrote.
    - [Grid] (Module [Grid]): [renderCalendar]: the days of the grid
      ([grid_first] .. [grid_end], lines 74-79), the loop body
      [make_cell] (lines 85-97) building one [cell] record per pushed
      [div] (key, day number and the [other-month], [selected],
      [has-memo], [sun], [sat] classes), the [while] loop
      [calendar_loop] with fuel, and [renderCalendar] itself, with the
      [TimeClip] of every [Date] it builds and of each [setDate] step:
      an Invalid Date makes the loop's comparison false.
    - [App] (Module [App]): the component's state as a record (the four
      hooks and the stored entry), the handlers one definition each, the
      saving effect [persist_memos], the render guards that make an
      event possible ([viewer_shown], [editor_shown], [date_clickable]),
      [dispatch] (guard, handler, effect), mounting with a stored entry
      ([mount], both effects; [initial] is mounting with no entry), the
      states [reachable] from a start state (a session starts from a
      state [mount] produced), and runs of events.
    - [Navigation] (Module [Navigation]): the month buttons over whole
      sessions, counted as a month index [12 * year + month].
    - [Page] (Module [Page]): the page seen from the controller: the
      memo dot of a cell against the memo viewer.
    - [Header] (Module [Header]): the month header, ECMA-402's
      [FormatDateTimePattern] on the host locale's year-month pattern and
      month names (a parameter [loc]; CLDR data for [en_US] and [ko_KR]).
    - [DateRange] (Module [DateRange]): Invalid Date along a session: the
      date value the code holds ([option Z]) under the month buttons with
      [TimeClip], where it agrees with [App]'s unclipped [currentDate],
      and the header and grid on an Invalid Date.
    - [Markup] (Module [Markup]): the [className] template of a date
      cell, the DOM's class-list parser, the weekday headers and the
      children of [.calendar-grid].
    - [Commit] (Module [Commit]): the mount as React 18 runs it, in
      ExtLib's state-and-error monad: the first render, the loading and
      saving effects in declaration order (each a sequence of
      [localStorage] and [setMemos] calls), the batched re-render and the
      saving effect it triggers, with [React.StrictMode]'s second run of
      the effects as a flag; the world records every write to
      [localStorage] in order.
    - [Title] (Module [Title]): [formatDate] (lines 63-69) and the title
      of the memo editor (line 133).

    ** What is proved

    - The grid: [renderCalendar] terminates; for the months from May
      -271821 to August 275760 it yields exactly the days from the Sunday
      on or before the first of the month to the Saturday on or after its
      last day, and outside them no cell, since one of the dates it builds
      is an Invalid Date ([Grid.render_calendar_days]); whole weeks,
      4 to 6 of them; the days of the month once each and in order; the
      weekday columns; the keys, which are UTC dates: east of Greenwich
      each cell carries the previous day's key ([Grid.grid_keys]); keys
      distinct and at most one selected cell for years 1-9998, and all
      keys of a month equal outside years 0-9999.
    - The handlers: saving, deleting, editing, selecting and navigating
      on every branch, including the two-digit-year rule of
      [new Date(y, m)] and the draft that survives a click; invariants of
      every session (storage in sync, memo keys in property order; from an
      empty storage, memo keys are dates); the memo object as a [gmap]
      ([MemoStore]).
    - Persistence: reloading the page brings back exactly the memos of
      any state of any session ([App.reload_restores_memos], through the
      round trip of [JSON.parse] and [JSON.stringify] and the property
      order of the object), and mounting crashes exactly when the stored
      entry is not valid JSON or is [null] ([App.mount_crash]).
    - Sessions: the month buttons reach every month from year 100 to
      September 275760, with the code's date valid all the way
      ([DateRange.navigation_reaches], a liveness property), but the
      displayed year never drops below 99 ([Navigation.year_floor]); the
      memo dot of the selected cell agrees with the memo viewer
      ([Page.dot_iff_viewer]).
    - Mounting step by step: without StrictMode it ends as [App.mount]
      says ([Commit.commit_refines_mount]); it writes ["{}"] before the
      loaded memos ([Commit.mount_writes]); a malformed entry stays in
      [localStorage] and crashes every later mount, while [null] is
      replaced by ["{}"] ([Commit.crash_recovery]); under StrictMode every
      mount erases the stored memos ([Commit.strict_mode_erases]).
    - The month header: for a locale that separates the year from the
      month by a literal and has distinct month names, the header
      identifies the displayed month ([Header.header_identifies_month]),
      so clicks on ">" always change it ([Header.next_presses_header]).
    - The range of dates: [new Date(y, m)] is valid exactly from May
      -271821 to September 275760 ([DateFacts.month_start_clip],
      [DateRange.buttons_clip]); the date ">" builds, when valid, is the
      model's ([DateRange.next_month_steps]); clicking ">" past September
      275760 gives an Invalid Date for good
      ([DateRange.next_presses_clip]); the grid is empty from September
      275760 on ([Grid.render_calendar_days], [Grid.grid_range_ends]).
    - The markup: a cell's class list is exactly its flags' classes
      ([Markup.class_list_of_cell]), and every date cell carries the
      weekday class of the header above it in DOM order
      ([Markup.header_columns]).
    - The title: for the cell of a day, the editor's title names that
      day at UTC+0 and the day before at every other offset
      ([Title.title_of_cell]).
    - Concrete runs: the scenarios of the specification, and the
      findings at concrete inputs (Seoul keys, year 10000, year 99).

    ** Bounds and fuel

    The [while] loop is a [Fixpoint] with fuel [calendar_fuel = 64]; a
    grid has at most 42 cells ([Grid.grid_size_bounds]), so the fuel is
    never exhausted, which [Grid.render_calendar_days] states.  The ECMA
    limit of 8.64e15 ms ([JsDate.TimeClip]) is applied in [renderCalendar]
    and, in [DateRange], to the month buttons, which are the only way the
    component changes its date.  [App] keeps [currentDate] unclipped; the
    theorems of [DateRange] show it agrees with the code while the date is
    valid, and the theorems on grids state the month range they need.  The local offset [tz] is a constant; theorems on keys assume
    it is less than one day in absolute value.  [JSON.parse] gets one
    unit of fuel per code unit of the text plus one; every parsing call
    consumes input, so the fuel never runs out
    ([JsonParse.parse_terminates]).

    ** Not modelled

    Daylight-saving changes of the offset; the host's locale data, which
    is a parameter of the month header (only its shape is assumed, by
    [Header.locale_wf]); the layout rules of [css/style.css], which is
    not in the repository (the column alignment is stated in DOM order);
    the rest of the static markup (buttons, textarea attributes);
    [Date.parse] on strings other than the date-only forms
    (implementation-specific, and never given a key); the states after
    mounting with a stored value that is valid JSON but not an object of
    strings (a number, an array, an object with non-string members),
    which [mount] reports as [Unmodelled]; React's batching beyond "each
    handler runs to completion, then the effect". *)

From Stdlib Require Import ZArith Lia List Bool.
Import ListNotations.

Open Scope Z_scope.

(** A JavaScript string value: the list of its UTF-16 code units. *)
Abbreviation jsstr := (list Z).

Declare Scope js_scope.
Delimit Scope js_scope with js.

(** Strict equality [===] on string values. *)
Fixpoint str_eqb (a b : jsstr) : bool :=
  match a, b with
  | [], [] => true
  | x :: a', y :: b' => (x =? y) && str_eqb a' b'
  | _, _ => false
  end.

Notation "a === b" := (str_eqb a b) (at level 70, no associativity) : js_scope.

(** JavaScript truthiness of a string-or-undefined value ([undefined] and
    [""] are falsy). *)
Definition truthy (v : option jsstr) : bool :=
  match v with
  | Some (_ :: _) => true
  | _ => false
  end.

(** [a === b] where [a] is a string or [null]. *)
Definition strict_eq_opt (a : option jsstr) (b : jsstr) : bool :=
  match a with
  | Some a' => str_eqb a' b
  | None => false
  end.

(** A UTF-16 code unit, and a string made of them. *)
Definition unit_ok (c : Z) : bool := (0 <=? c) && (c <? 65536).

Definition units_ok (s : jsstr) : bool := forallb unit_ok s.

(** The integers [a, a + 1, ..., a + n - 1]. *)
Definition zseq (a : Z) (n : nat) : list Z := map (fun i => a + Z.of_nat i) (seq 0 n).

Create HintDb js.
Create Rewrite HintDb js_rw.

(** ** Reflection of bounded checks *)

(** [all_range f lo n] evaluates [f] on [lo, lo + n). *)
Fixpoint all_range (f : Z -> bool) (lo : Z) (n : nat) : bool :=
  match n with
  | O => true
  | S n' => f lo && all_range f (lo + 1) n'
  end.

Lemma str_eqb_eq a b : str_eqb a b = true <-> a = b.
Proof.
  revert b; induction a as [|x a IH]; intros [|y b]; simpl;
    try (split; congruence).
  rewrite andb_true_iff, Z.eqb_eq, IH. split; [intros [-> ->]|intros [= -> ->]]; auto.
Qed.

Lemma str_eqb_refl a : str_eqb a a = true.
Proof. now apply str_eqb_eq. Qed.

Lemma str_eqb_neq a b : str_eqb a b = false <-> a <> b.
Proof. rewrite <- str_eqb_eq. destruct (str_eqb a b); split; congruence. Qed.

Lemma str_eqb_sym a b : str_eqb a b = str_eqb b a.
Proof.
  destruct (str_eqb a b) eqn:E, (str_eqb b a) eqn:E'; auto;
    rewrite ?str_eqb_eq, ?str_eqb_neq in *; congruence.
Qed.

#[export] Hint Rewrite str_eqb_refl : js_rw.

Lemma all_range_spec f lo n :
  all_range f lo n = true -> forall z, lo <= z < lo + Z.of_nat n -> f z = true.
Proof.
  revert lo; induction n as [|n IH]; intros lo H z Hz; simpl in *; [lia|].
  apply andb_true_iff in H as [H1 H2].
  destruct (Z.eq_dec z lo) as [->|Hne]; [exact H1|].
  apply (IH (lo + 1)); [exact H2|lia].
Qed.

Lemma zseq_S a n : zseq a (S n) = a :: zseq (a + 1) n.
Proof.
  unfold zseq. cbn [seq map]. f_equal; [lia|].
  rewrite <- seq_shift, map_map. apply map_ext. intros i. lia.
Qed.

Lemma map_zseq_shift {A} (f : Z -> A) a n :
  map f (zseq (a + 1) n) = map (fun x => f (x + 1)) (zseq a n).
Proof. unfold zseq. rewrite !map_map. apply map_ext. intros i. f_equal. lia. Qed.

Lemma map_zseq_0 {A} (f : Z -> A) a n :
  map f (zseq a n) = map (fun i => f (a + i)) (zseq 0 n).
Proof. unfold zseq. rewrite !map_map. apply map_ext. intros i. f_equal. Qed.

Lemma zseq_app a n m : zseq a (n + m) = zseq a n ++ zseq (a + Z.of_nat n) m.
Proof.
  revert a; induction n as [|n IH]; intros a; [simpl; now rewrite Z.add_0_r|].
  cbn [Nat.add]. rewrite !zseq_S, IH. cbn [app]. do 3 f_equal. lia.
Qed.

Lemma nth_error_zseq a n i : (i < n)%nat -> nth_error (zseq a n) i = Some (a + Z.of_nat i).
Proof.
  intros Hi. unfold zseq. rewrite nth_error_map, nth_error_seq.
  destruct (Nat.ltb_spec i n); [reflexivity|lia].
Qed.

Lemma in_zseq a n x : In x (zseq a n) <-> a <= x < a + Z.of_nat n.
Proof.
  unfold zseq. rewrite in_map_iff. split.
  - intros (i & <- & Hi). apply in_seq in Hi. lia.
  - intros Hx. exists (Z.to_nat (x - a)). split; [lia|]. apply in_seq. lia.
Qed.

Lemma NoDup_zseq a n : NoDup (zseq a n).
Proof.
  unfold zseq. apply NoDup_map_NoDup_ForallPairs; [|apply seq_NoDup].
  intros x y _ _ E. lia.
Qed.

Lemma zseq_shift_0 a n : zseq a n = map (fun i => a + i) (zseq 0 n).
Proof. unfold zseq. rewrite map_map. apply map_ext. intros i. lia. Qed.

Lemma length_zseq a n : length (zseq a n) = n.
Proof. unfold zseq. now rewrite length_map, length_seq. Qed.

(** ** Lists *)

Lemma firstn_app_long {A} n (l1 l2 : list A) :
  (n <= length l1)%nat -> firstn n (l1 ++ l2) = firstn n l1.
Proof.
  intros H. rewrite firstn_app. replace (n - length l1)%nat with 0%nat by lia.
  now rewrite app_nil_r.
Qed.

Lemma app_inj_length {A} (a1 a2 b1 b2 : list A) :
  length a1 = length a2 -> a1 ++ b1 = a2 ++ b2 -> a1 = a2 /\ b1 = b2.
Proof.
  revert a2; induction a1 as [|x a1 IH]; intros [|y a2] Hl E; simpl in *;
    try discriminate; [auto|].
  injection E as -> E. injection Hl as Hl. destruct (IH a2 Hl E) as [-> ->]. auto.
Qed.

Lemma filter_map_comm {A B} (p : B -> bool) (f : A -> B) l :
  filter p (map f l) = map f (filter (fun x => p (f x)) l).
Proof. induction l as [|x l IH]; simpl; [reflexivity|]. destruct (p (f x)); simpl; now rewrite IH. Qed.

Lemma some_inj {A} (a b : A) : Some a = Some b -> a = b.
Proof. congruence. Qed.

Lemma existsb_map {A B} (p : B -> bool) (f : A -> B) l :
  existsb p (map f l) = existsb (fun x => p (f x)) l.
Proof. induction l as [|x l IH]; simpl; [reflexivity|]. now rewrite IH. Qed.

Lemma filter_all_false {A} (p : A -> bool) l :
  (forall x, In x l -> p x = false) -> filter p l = [].
Proof.
  induction l as [|x l IH]; intros H; simpl; [reflexivity|].
  rewrite H by now left. apply IH. intros y Hy. apply H. now right.
Qed.

Lemma filter_all_true {A} (p : A -> bool) l :
  (forall x, In x l -> p x = true) -> filter p l = l.
Proof.
  induction l as [|x l IH]; intros H; simpl; [reflexivity|].
  rewrite H by now left. f_equal. apply IH. intros y Hy. apply H. now right.
Qed.

(** When [f] is injective on [l] (its image has no duplicates), at most one
    element of [l] has the image [k]. *)
Lemma NoDup_filter_key {A} (f : A -> jsstr) k l :
  NoDup (map f l) -> (length (filter (fun x => str_eqb k (f x)) l) <= 1)%nat.
Proof.
  induction l as [|x l IH]; intros Hd; cbn; [lia|].
  inversion Hd as [|? ? Hn Hd']; subst.
  destruct (str_eqb k (f x)) eqn:E; cbn; [|exact (IH Hd')].
  apply str_eqb_eq in E as ->.
  rewrite filter_all_false; [cbn; lia|].
  intros y Hy. apply str_eqb_neq. intros Ey. apply Hn. rewrite Ey. now apply in_map.
Qed.

(** A predicate invariant under shifts by [p] holds everywhere once it holds
    on one period [0, p). *)
Lemma periodic_all (p : Z) (P : Z -> Prop) :
  0 < p -> (forall z, P z -> P (z + p)) -> (forall z, P (z + p) -> P z) ->
  (forall r, 0 <= r < p -> P r) -> forall z, P z.
Proof.
  intros Hp Hup Hdown Hbase z.
  rewrite (Z.div_mod z p) by lia.
  assert (Hr : 0 <= z mod p < p) by (apply Z.mod_pos_bound; lia).
  generalize (z / p) as q. intros q.
  induction q using Z.peano_ind.
  - rewrite Z.mul_0_r, Z.add_0_l. now apply Hbase.
  - replace (p * Z.succ q + z mod p) with (p * q + z mod p + p) by lia. now apply Hup.
  - apply Hdown. now replace (p * Z.pred q + z mod p + p) with (p * q + z mod p) by lia.
Qed.

(** Shifting the dividend by a multiple of the divisor. *)
Lemma div_shift a k c : 0 < c -> (a + k * c) / c = a / c + k.
Proof. intros Hc. apply Z.div_add; lia. Qed.

Lemma mod_shift a k c : 0 < c -> (a + k * c) mod c = a mod c.
Proof. intros Hc. apply Z.mod_add; lia. Qed.

(** [range_check] closes [forall z, lo <= z < hi -> f z = true] by
    evaluating [f] on the whole range. *)
Ltac range_check :=
  lazymatch goal with
  | |- forall z, ?lo <= z < ?hi -> @?e z = true =>
      let z := fresh "z" in let Hz := fresh "Hz" in
      intros z Hz;
      apply (all_range_spec e lo (Z.to_nat (hi - lo))); [vm_compute; reflexivity | lia]
  end.
