(* ===== verification/JsString.v ===== *)
(** * JavaScript string values

    A string is the list of its UTF-16 code units ([jsstr], from
    [Prelude]).  This file holds the string operations the component uses:
    [Number.prototype.toString] on integers (through template literals),
    [ToZeroPaddedDecimalString] (used by [Date.prototype.toISOString]),
    [String.prototype.slice], and the conversion of ASCII literals.  It also
    proves that zero-padded decimal fields can be read back, which is what
    makes date keys injective. *)

From Stdlib Require Import ZArith Lia List Bool String Ascii.
From Stdlib Require Import DecimalN.
From S2P Require Import Prelude.
Import ListNotations.

Open Scope Z_scope.

Module JsString.

(** An ASCII literal as a string value. *)
Fixpoint of_ascii (s : String.string) : jsstr :=
  match s with
  | EmptyString => []
  | String c s' => Z.of_nat (nat_of_ascii c) :: of_ascii s'
  end.

(** The code unit of the decimal digit [d], for [0 <= d <= 9]. *)
Definition digit_unit (d : Z) : Z := 48 + d.

Fixpoint uint_units (u : Decimal.uint) : jsstr :=
  match u with
  | Decimal.Nil => []
  | Decimal.D0 u' => 48 :: uint_units u'
  | Decimal.D1 u' => 49 :: uint_units u'
  | Decimal.D2 u' => 50 :: uint_units u'
  | Decimal.D3 u' => 51 :: uint_units u'
  | Decimal.D4 u' => 52 :: uint_units u'
  | Decimal.D5 u' => 53 :: uint_units u'
  | Decimal.D6 u' => 54 :: uint_units u'
  | Decimal.D7 u' => 55 :: uint_units u'
  | Decimal.D8 u' => 56 :: uint_units u'
  | Decimal.D9 u' => 57 :: uint_units u'
  end.

(** [Number::toString(n)] for an integral number [n]: the shortest decimal
    representation, with a leading ["-"] when negative. *)
Definition number_to_string (n : Z) : jsstr :=
  if n <? 0 then 45 :: uint_units (N.to_uint (Z.to_N (- n)))
  else uint_units (N.to_uint (Z.to_N n)).

(** [StringPad(s, w, "0", start)]. *)
Definition pad_start (w : nat) (s : jsstr) : jsstr :=
  repeat 48 (w - List.length s) ++ s.

(** [ToZeroPaddedDecimalString(n, w)] for [n >= 0]. *)
Definition zero_padded (n : Z) (w : nat) : jsstr :=
  pad_start w (number_to_string n).

(** [s.slice(a, b)] for [0 <= a <= b]: indices past the end are clamped. *)
Definition slice (a b : nat) (s : jsstr) : jsstr :=
  firstn (b - a) (skipn a s).

(** The last [w] decimal digits of [n], most significant first. *)
Fixpoint fixed_digits (w : nat) (n : Z) : jsstr :=
  match w with
  | O => []
  | S w' => fixed_digits w' (n / 10) ++ [digit_unit (n mod 10)]
  end.

(** Reading a string of decimal digits back; [None] on any other unit. *)
Definition read_digits (s : jsstr) : option Z :=
  fold_left
    (fun acc c =>
       match acc with
       | Some v => if (48 <=? c) && (c <=? 57) then Some (10 * v + (c - 48)) else None
       | None => None
       end) s (Some 0).

Lemma length_fixed_digits w n : List.length (fixed_digits w n) = w.
Proof.
  revert n; induction w as [|w IH]; intros n; simpl; [reflexivity|].
  rewrite length_app, IH; simpl; lia.
Qed.

Lemma fold_digits_none s :
  fold_left
    (fun acc c =>
       match acc with
       | Some v => if (48 <=? c) && (c <=? 57) then Some (10 * v + (c - 48)) else None
       | None => None
       end) s None = None.
Proof. induction s; simpl; auto. Qed.

Lemma read_digits_fixed w n :
  0 <= n -> read_digits (fixed_digits w n) = Some (n mod 10 ^ Z.of_nat w).
Proof.
  unfold read_digits. revert n; induction w as [|w IH]; intros n Hn.
  - simpl. now rewrite Z.mod_1_r.
  - simpl fixed_digits. rewrite fold_left_app, IH by (apply Z.div_pos; lia).
    cbn [fold_left]. unfold digit_unit.
    assert (0 <= n mod 10 < 10) by (apply Z.mod_pos_bound; lia).
    replace ((48 <=? 48 + n mod 10) && (48 + n mod 10 <=? 57)) with true
      by (symmetry; apply andb_true_iff; split; apply Z.leb_le; lia).
    f_equal. rewrite Nat2Z.inj_succ, Z.pow_succ_r by lia.
    rewrite Z.rem_mul_r by lia. lia.
Qed.

(** Two fixed-width digit strings are equal only if the numbers agree
    modulo [10 ^ w]. *)
Lemma fixed_digits_inj w a b :
  0 <= a < 10 ^ Z.of_nat w -> 0 <= b < 10 ^ Z.of_nat w ->
  fixed_digits w a = fixed_digits w b -> a = b.
Proof.
  intros Ha Hb E. apply (f_equal read_digits) in E.
  rewrite !read_digits_fixed in E by lia.
  rewrite !Z.mod_small in E by lia. congruence.
Qed.

Lemma length_pad_start w s : (w <= List.length (pad_start w s))%nat.
Proof. unfold pad_start. rewrite length_app, repeat_length. lia. Qed.

Lemma length_zero_padded n w : (w <= List.length (zero_padded n w))%nat.
Proof. apply length_pad_start. Qed.

(** For small numbers, [ToZeroPaddedDecimalString] is the fixed-width digit
    string; checked on every number of the range. *)
Lemma zero_padded_2 n : 0 <= n < 100 -> zero_padded n 2 = fixed_digits 2 n.
Proof.
  intros Hn. apply str_eqb_eq. revert n Hn.
  range_check.
Qed.

Lemma zero_padded_3 n : 0 <= n < 1000 -> zero_padded n 3 = fixed_digits 3 n.
Proof.
  intros Hn. apply str_eqb_eq. revert n Hn.
  range_check.
Qed.

Lemma zero_padded_4 n : 0 <= n < 10000 -> zero_padded n 4 = fixed_digits 4 n.
Proof.
  intros Hn. apply str_eqb_eq. revert n Hn.
  range_check.
Qed.

(** ** Decimal strings of non-negative integers

    [Number::toString] of a non-negative integer is a non-empty string of
    decimal digits, and different numbers print differently.  A digit
    string followed by a non-digit can be told apart from any other such
    concatenation: the printed number ends where the digits end. *)

Definition is_digit (c : Z) : bool := (48 <=? c) && (c <=? 57).

(** The first unit of [s], if any, is not a digit. *)
Definition head_nondigit (s : jsstr) : bool :=
  match s with
  | c :: _ => negb (is_digit c)
  | [] => true
  end.

Lemma uint_units_digits u : forallb is_digit (uint_units u) = true.
Proof. induction u; cbn [uint_units forallb]; rewrite ?IHu; reflexivity. Qed.

Lemma uint_units_inj u v : uint_units u = uint_units v -> u = v.
Proof.
  revert v; induction u; intros [] H; cbn [uint_units] in H; try discriminate;
    try reflexivity; injection H as H; f_equal; auto.
Qed.

Lemma uint_units_nil u : uint_units u = [] -> u = Decimal.Nil.
Proof. destruct u; cbn; congruence. Qed.

Lemma number_to_string_nonneg n :
  0 <= n -> number_to_string n = uint_units (N.to_uint (Z.to_N n)).
Proof. intros Hn. unfold number_to_string. now replace (n <? 0) with false by (symmetry; apply Z.ltb_ge; lia). Qed.

Lemma number_to_string_digits n : 0 <= n -> forallb is_digit (number_to_string n) = true.
Proof. intros Hn. rewrite number_to_string_nonneg by exact Hn. apply uint_units_digits. Qed.

Lemma number_to_string_nonempty n : 0 <= n -> number_to_string n <> [].
Proof.
  intros Hn E. rewrite number_to_string_nonneg in E by exact Hn.
  apply uint_units_nil in E. pose proof (DecimalN.Unsigned.of_to (Z.to_N n)) as F.
  rewrite E in F. cbn in F. rewrite <- F in E. discriminate.
Qed.

Lemma number_to_string_inj a b :
  0 <= a -> 0 <= b -> number_to_string a = number_to_string b -> a = b.
Proof.
  intros Ha Hb E. rewrite !number_to_string_nonneg in E by assumption.
  apply uint_units_inj, DecimalN.Unsigned.to_uint_inj in E. now apply Z2N.inj.
Qed.

Lemma digits_prefix_inj a b a' b' :
  forallb is_digit a = true -> forallb is_digit a' = true ->
  head_nondigit b = true -> head_nondigit b' = true ->
  a ++ b = a' ++ b' -> a = a' /\ b = b'.
Proof.
  revert a'; induction a as [|x a IH]; intros [|y a'] Da Da' Hb Hb' E; cbn in E.
  - auto.
  - subst b. cbn in Da', Hb. apply andb_true_iff in Da' as [Dy _]. now rewrite Dy in Hb.
  - subst b'. cbn in Da, Hb'. apply andb_true_iff in Da as [Dx _]. now rewrite Dx in Hb'.
  - injection E as <- E. cbn in Da, Da'. apply andb_true_iff in Da as [_ Da], Da' as [_ Da'].
    destruct (IH a' Da Da' Hb Hb' E) as [-> ->]. auto.
Qed.

End JsString.
