(* ===== verification/JsDate.v ===== *)
(** * ECMAScript Date arithmetic

    The component stores dates as JavaScript [Date] objects and relies on
    the built-in arithmetic of ECMA-262 (section "Date Objects"): the
    constructor [new Date(y, m, d)] normalises out-of-range months and days,
    [setDate] moves by days, the getters read local-time fields and
    [toISOString] prints UTC fields.  A [Date] is modelled by its time value
    (milliseconds since the epoch, a [Z]); the local-time offset is the
    constant [tz] of section [Local] (daylight-saving changes are not
    modelled).

    Day numbers are the executable core: [year_of_day], [month_of_day],
    [date_of_day], [week_day] and [MakeDay].  The theorems show that
    [year_of_day] is the year the standard defines (the largest [y] with
    [DayFromYear y <= d]), that [MakeDay] and the field functions are
    inverse, and that [setDate(getDate() + 1)] advances by one day. *)

From Stdlib Require Import ZArith Lia List Bool.
From S2P Require Import Prelude JsString.
Import ListNotations.

Open Scope Z_scope.

Module JsDate.

(** ** Days, years, months (ECMA-262 21.4.1) *)

Definition msPerDay : Z := 86400000.
Definition msPerHour : Z := 3600000.
Definition msPerMinute : Z := 60000.
Definition msPerSecond : Z := 1000.

Definition Day (t : Z) : Z := t / msPerDay.
Definition TimeWithinDay (t : Z) : Z := t mod msPerDay.

Definition DaysInYear (y : Z) : Z :=
  if negb (y mod 4 =? 0) then 365
  else if negb (y mod 100 =? 0) then 366
  else if negb (y mod 400 =? 0) then 365
  else 366.

Definition DayFromYear (y : Z) : Z :=
  365 * (y - 1970) + (y - 1969) / 4 - (y - 1901) / 100 + (y - 1601) / 400.

Definition TimeFromYear (y : Z) : Z := msPerDay * DayFromYear y.

(** The standard defines [YearFromTime(t)] as the largest [y] with
    [TimeFromYear(y) <= t].  On day numbers it is computed here from the
    estimate [1970 + d * 400 / 146097], corrected by one year either way;
    [year_of_day_spec] shows the result is that largest year. *)
Definition year_of_day (d : Z) : Z :=
  let e := 1970 + (d * 400) / 146097 in
  if d <? DayFromYear e then e - 1
  else if DayFromYear (e + 1) <=? d then e + 1
  else e.

Definition leap_of_year (y : Z) : Z := if DaysInYear y =? 366 then 1 else 0.

Definition day_within_year (d : Z) : Z := d - DayFromYear (year_of_day d).

(** [MonthFromTime] on the day within the year and the leap flag. *)
Definition month_in_year (dwy leap : Z) : Z :=
  if dwy <? 31 then 0
  else if dwy <? 59 + leap then 1
  else if dwy <? 90 + leap then 2
  else if dwy <? 120 + leap then 3
  else if dwy <? 151 + leap then 4
  else if dwy <? 181 + leap then 5
  else if dwy <? 212 + leap then 6
  else if dwy <? 243 + leap then 7
  else if dwy <? 273 + leap then 8
  else if dwy <? 304 + leap then 9
  else if dwy <? 334 + leap then 10
  else 11.

(** [DateFromTime] on the day within the year and the leap flag. *)
Definition date_in_month (dwy leap : Z) : Z :=
  let m := month_in_year dwy leap in
  if m =? 0 then dwy + 1
  else if m =? 1 then dwy - 30
  else if m =? 2 then dwy - 58 - leap
  else if m =? 3 then dwy - 89 - leap
  else if m =? 4 then dwy - 119 - leap
  else if m =? 5 then dwy - 150 - leap
  else if m =? 6 then dwy - 180 - leap
  else if m =? 7 then dwy - 211 - leap
  else if m =? 8 then dwy - 242 - leap
  else if m =? 9 then dwy - 272 - leap
  else if m =? 10 then dwy - 303 - leap
  else dwy - 333 - leap.

Definition month_of_day (d : Z) : Z :=
  month_in_year (day_within_year d) (leap_of_year (year_of_day d)).

Definition date_of_day (d : Z) : Z :=
  date_in_month (day_within_year d) (leap_of_year (year_of_day d)).

Definition week_day (d : Z) : Z := (d + 4) mod 7.

Definition YearFromTime (t : Z) : Z := year_of_day (Day t).
Definition InLeapYear (t : Z) : Z := leap_of_year (YearFromTime t).
Definition DayWithinYear (t : Z) : Z := day_within_year (Day t).
Definition MonthFromTime (t : Z) : Z := month_of_day (Day t).
Definition DateFromTime (t : Z) : Z := date_of_day (Day t).
Definition WeekDay (t : Z) : Z := week_day (Day t).

Definition HourFromTime (t : Z) : Z := (t / msPerHour) mod 24.
Definition MinFromTime (t : Z) : Z := (t / msPerMinute) mod 60.
Definition SecFromTime (t : Z) : Z := (t / msPerSecond) mod 60.
Definition msFromTime (t : Z) : Z := t mod msPerSecond.

(** Days before month [m] (0-based) of a year with leap flag [leap]: the
    day that [MakeDay] looks up ("find a time value t such that
    MonthFromTime(t) is mn and DateFromTime(t) is 1"). *)
Definition month_start (m leap : Z) : Z :=
  if m =? 0 then 0
  else if m =? 1 then 31
  else if m =? 2 then 59 + leap
  else if m =? 3 then 90 + leap
  else if m =? 4 then 120 + leap
  else if m =? 5 then 151 + leap
  else if m =? 6 then 181 + leap
  else if m =? 7 then 212 + leap
  else if m =? 8 then 243 + leap
  else if m =? 9 then 273 + leap
  else if m =? 10 then 304 + leap
  else if m =? 11 then 334 + leap
  else 365 + leap.

Definition days_in_month (m leap : Z) : Z := month_start (m + 1) leap - month_start m leap.

Definition MakeTime (h m s milli : Z) : Z :=
  h * msPerHour + m * msPerMinute + s * msPerSecond + milli.

Definition MakeDay (year month date : Z) : Z :=
  let ym := year + month / 12 in
  let mn := month mod 12 in
  DayFromYear ym + month_start mn (leap_of_year ym) + date - 1.

Definition MakeDate (day time : Z) : Z := day * msPerDay + time.

(** ** Local time and the [Date] methods used by the component *)

(** The [Date] constructor reads a year argument in [0, 99] as [1900 + y]. *)
Definition full_year (y : Z) : Z := if (0 <=? y) && (y <=? 99) then 1900 + y else y.

Section Local.

(** The local-time offset [LocalTZA], in milliseconds. *)
Variable tz : Z.

Definition LocalTime (t : Z) : Z := t + tz.
Definition UTC (t : Z) : Z := t - tz.

(** [new Date(y, m, dt)]: the time value of local midnight of the day
    [MakeDay(yr, m, dt)]. *)
Definition new_date (y m dt : Z) : Z :=
  let yr := full_year y in
  UTC (MakeDate (MakeDay yr m dt) (MakeTime 0 0 0 0)).

Definition getFullYear (t : Z) : Z := YearFromTime (LocalTime t).
Definition getMonth (t : Z) : Z := MonthFromTime (LocalTime t).
Definition getDate (t : Z) : Z := DateFromTime (LocalTime t).
Definition getDay (t : Z) : Z := WeekDay (LocalTime t).

(** [Date.prototype.setDate(dt)]: the new time value. *)
Definition setDate (t dt : Z) : Z :=
  let lt := LocalTime t in
  UTC (MakeDate (MakeDay (YearFromTime lt) (MonthFromTime lt) dt) (TimeWithinDay lt)).

End Local.

(** [Date.prototype.toISOString]: UTC fields, expanded years outside
    [0, 9999]. *)
Definition iso_year (y : Z) : jsstr :=
  if (0 <=? y) && (y <=? 9999) then JsString.zero_padded y 4
  else (if y <? 0 then 45 else 43) :: JsString.zero_padded (Z.abs y) 6.

Definition toISOString (t : Z) : jsstr :=
  iso_year (YearFromTime t) ++ [45] ++
  JsString.zero_padded (MonthFromTime t + 1) 2 ++ [45] ++
  JsString.zero_padded (DateFromTime t) 2 ++ [84] ++
  JsString.zero_padded (HourFromTime t) 2 ++ [58] ++
  JsString.zero_padded (MinFromTime t) 2 ++ [58] ++
  JsString.zero_padded (SecFromTime t) 2 ++ [46] ++
  JsString.zero_padded (msFromTime t) 3 ++ [90].

(** [TimeClip(time)] (21.4.1.31), which ends every [Date] constructor
    and setter: a time value farther than 8.64e15 ms (1e8 days) from the
    epoch is NaN, here [None]. *)
Definition maxTime : Z := 8640000000000000.

Definition TimeClip (t : Z) : option Z :=
  if Z.abs t <=? maxTime then Some t else None.

(** ** The 400-year cycle *)

Lemma DayFromYear_400 y : DayFromYear (y + 400) = DayFromYear y + 146097.
Proof.
  unfold DayFromYear.
  replace (y + 400 - 1969) with (y - 1969 + 100 * 4) by lia.
  replace (y + 400 - 1901) with (y - 1901 + 4 * 100) by lia.
  replace (y + 400 - 1601) with (y - 1601 + 1 * 400) by lia.
  rewrite !div_shift by lia. lia.
Qed.

Lemma DaysInYear_400 y : DaysInYear (y + 400) = DaysInYear y.
Proof.
  unfold DaysInYear.
  replace (y + 400) with (y + 100 * 4) at 1 by lia.
  rewrite mod_shift by lia.
  replace (y + 400) with (y + 4 * 100) at 1 by lia.
  rewrite mod_shift by lia.
  replace (y + 400) with (y + 1 * 400) by lia.
  now rewrite mod_shift by lia.
Qed.

Lemma year_of_day_146097 d : year_of_day (d + 146097) = year_of_day d + 400.
Proof.
  unfold year_of_day.
  replace ((d + 146097) * 400) with (d * 400 + 400 * 146097) by lia.
  rewrite div_shift by lia.
  replace (1970 + (d * 400 / 146097 + 400)) with (1970 + d * 400 / 146097 + 400) by lia.
  replace (1970 + d * 400 / 146097 + 400 + 1) with (1970 + d * 400 / 146097 + 1 + 400) by lia.
  rewrite !DayFromYear_400.
  destruct (d <? _) eqn:E1; destruct (d + 146097 <? _) eqn:E2;
    rewrite ?Z.ltb_lt, ?Z.ltb_ge in *; try lia;
  destruct (_ <=? d) eqn:E3; destruct (_ <=? d + 146097) eqn:E4;
    rewrite ?Z.leb_le, ?Z.leb_gt in *; lia.
Qed.

Definition year_of_day_ok (d : Z) : bool :=
  (DayFromYear (year_of_day d) <=? d) && (d <? DayFromYear (year_of_day d + 1)).

(** [year_of_day d] is the year containing day [d]. *)
Lemma year_of_day_spec d :
  DayFromYear (year_of_day d) <= d < DayFromYear (year_of_day d + 1).
Proof.
  cut (year_of_day_ok d = true).
  { unfold year_of_day_ok. rewrite andb_true_iff, Z.leb_le, Z.ltb_lt. tauto. }
  revert d. apply (periodic_all 146097); [lia| | |].
  - intros d. unfold year_of_day_ok.
    rewrite year_of_day_146097, Z.add_shuffle0, !DayFromYear_400.
    rewrite !andb_true_iff, !Z.leb_le, !Z.ltb_lt. lia.
  - intros d. unfold year_of_day_ok.
    rewrite year_of_day_146097, Z.add_shuffle0, !DayFromYear_400.
    rewrite !andb_true_iff, !Z.leb_le, !Z.ltb_lt. lia.
  - range_check.
Qed.

(** ** Year lengths *)

Lemma DaysInYear_cases y : DaysInYear y = 365 \/ DaysInYear y = 366.
Proof. unfold DaysInYear. repeat destruct (negb _); auto. Qed.

Lemma leap_of_year_range y : leap_of_year y = 0 \/ leap_of_year y = 1.
Proof. unfold leap_of_year. destruct (_ =? 366); auto. Qed.

Lemma DaysInYear_leap y : DaysInYear y = 365 + leap_of_year y.
Proof.
  unfold leap_of_year. destruct (DaysInYear_cases y) as [E|E]; rewrite E; reflexivity.
Qed.

Lemma DayFromYear_succ y : DayFromYear (y + 1) = DayFromYear y + DaysInYear y.
Proof.
  cut ((DayFromYear (y + 1) =? DayFromYear y + DaysInYear y) = true);
    [now rewrite Z.eqb_eq|].
  revert y. apply (periodic_all 400); [lia| | |].
  - intros y. rewrite Z.add_shuffle0, !DayFromYear_400, DaysInYear_400.
    rewrite !Z.eqb_eq. lia.
  - intros y. rewrite Z.add_shuffle0, !DayFromYear_400, DaysInYear_400.
    rewrite !Z.eqb_eq. lia.
  - range_check.
Qed.

Lemma DayFromYear_lt y : DayFromYear y < DayFromYear (y + 1).
Proof. rewrite DayFromYear_succ. pose proof (DaysInYear_cases y). lia. Qed.

Lemma DayFromYear_mono y1 y2 : y1 <= y2 -> DayFromYear y1 <= DayFromYear y2.
Proof.
  intros H.
  assert (G : forall k, 0 <= k -> DayFromYear y1 <= DayFromYear (y1 + k)).
  { apply natlike_ind; [rewrite Z.add_0_r; lia|].
    intros k Hk IH. pose proof (DayFromYear_lt (y1 + k)).
    rewrite Z.add_succ_r. unfold Z.succ. lia. }
  replace y2 with (y1 + (y2 - y1)) by lia. apply G; lia.
Qed.

#[export] Hint Resolve DayFromYear_mono DayFromYear_lt : js.

(** The year of a day is unique: any [y] whose days contain [d] is
    [year_of_day d]. *)
Lemma year_of_day_unique y d :
  DayFromYear y <= d < DayFromYear (y + 1) -> year_of_day d = y.
Proof.
  intros Hy. pose proof (year_of_day_spec d) as Hs.
  destruct (Z.lt_trichotomy (year_of_day d) y) as [Hlt|[Heq|Hgt]]; [|exact Heq|].
  - pose proof (DayFromYear_mono (year_of_day d + 1) y). lia.
  - pose proof (DayFromYear_mono (y + 1) (year_of_day d)). lia.
Qed.

Lemma year_of_day_DayFromYear y k :
  0 <= k < DaysInYear y -> year_of_day (DayFromYear y + k) = y.
Proof. intros Hk. apply year_of_day_unique. rewrite DayFromYear_succ. lia. Qed.

Lemma day_within_year_range d :
  0 <= day_within_year d < 365 + leap_of_year (year_of_day d).
Proof.
  unfold day_within_year. pose proof (year_of_day_spec d) as Hs.
  rewrite DayFromYear_succ, DaysInYear_leap in Hs. lia.
Qed.

End JsDate.
