(* ===== verification/DateFacts.v ===== *)
(** * Facts about the Date arithmetic

    Round trips between day numbers and (year, month, date) fields,
    month lengths, week days, the effect of [setDate(getDate() + 1)] and of
    the local-time offset, and the shape of the ISO date prefix.  These are
    the lemmas the calendar grid ([Grid]) is proved with. *)

From Stdlib Require Import ZArith Lia List Bool.
From S2P Require Import Prelude JsString JsDate.
Import ListNotations.
Import JsDate.

Open Scope Z_scope.

Module DateFacts.

(** ** Months within a year *)

Definition month_date_ok (leap dwy : Z) : bool :=
  let m := month_in_year dwy leap in
  let dt := date_in_month dwy leap in
  (0 <=? m) && (m <? 12) && (1 <=? dt) && (dt <=? days_in_month m leap) &&
  (month_start m leap + dt - 1 =? dwy).

Definition month_start_ok (leap k : Z) : bool :=
  let m := k / 31 in
  let dt := k mod 31 + 1 in
  implb (dt <=? days_in_month m leap)
    ((month_in_year (month_start m leap + dt - 1) leap =? m) &&
     (date_in_month (month_start m leap + dt - 1) leap =? dt)).

Definition month_len_ok (leap m : Z) : bool :=
  (28 <=? days_in_month m leap) && (days_in_month m leap <=? 31) &&
  (0 <=? month_start m leap) && (month_start (m + 1) leap <=? 365 + leap).

Ltac leap_cases leap :=
  match goal with
  | H : leap = 0 \/ leap = 1 |- _ => destruct H as [->| ->]
  end.

Lemma month_lengths leap m :
  leap = 0 \/ leap = 1 -> 0 <= m < 12 ->
  28 <= days_in_month m leap <= 31 /\ 0 <= month_start m leap /\
  month_start (m + 1) leap <= 365 + leap.
Proof.
  intros Hl Hm.
  assert (H : month_len_ok leap m = true) by (leap_cases leap; revert m Hm; range_check).
  unfold month_len_ok in H. rewrite !andb_true_iff, !Z.leb_le in H. lia.
Qed.

(** The day within a year splits into a month and a date inside it. *)
Lemma month_date_split leap dwy :
  leap = 0 \/ leap = 1 -> 0 <= dwy < 365 + leap ->
  0 <= month_in_year dwy leap < 12 /\
  1 <= date_in_month dwy leap <= days_in_month (month_in_year dwy leap) leap /\
  month_start (month_in_year dwy leap) leap + date_in_month dwy leap - 1 = dwy.
Proof.
  intros Hl Hd.
  assert (H : month_date_ok leap dwy = true).
  { leap_cases leap; revert dwy Hd; range_check. }
  unfold month_date_ok in H.
  rewrite !andb_true_iff, !Z.leb_le, Z.ltb_lt, Z.eqb_eq in H. lia.
Qed.

(** Conversely, a month and a date inside it give back that month and
    date. *)
Lemma month_date_join leap m dt :
  leap = 0 \/ leap = 1 -> 0 <= m < 12 -> 1 <= dt <= days_in_month m leap ->
  month_in_year (month_start m leap + dt - 1) leap = m /\
  date_in_month (month_start m leap + dt - 1) leap = dt.
Proof.
  intros Hl Hm Hdt.
  pose proof (month_lengths leap m Hl Hm) as Hlen.
  assert (Hc : month_start_ok leap (m * 31 + (dt - 1)) = true).
  { generalize (m * 31 + (dt - 1)) (ltac:(lia) : 0 <= m * 31 + (dt - 1) < 372).
    leap_cases leap; range_check. }
  unfold month_start_ok in Hc.
  replace ((m * 31 + (dt - 1)) / 31) with m in Hc
    by (apply Z.div_unique with (dt - 1); lia).
  replace ((m * 31 + (dt - 1)) mod 31) with (dt - 1) in Hc
    by (apply Z.mod_unique with m; lia).
  replace (dt - 1 + 1) with dt in Hc by lia.
  rewrite (proj2 (Z.leb_le dt _) (proj2 Hdt)) in Hc.
  simpl in Hc. rewrite andb_true_iff, !Z.eqb_eq in Hc. exact Hc.
Qed.

(** ** Day numbers and (year, month, date) *)

Lemma MakeDay_small y m dt :
  0 <= m < 12 ->
  MakeDay y m dt = DayFromYear y + month_start m (leap_of_year y) + dt - 1.
Proof.
  intros Hm. unfold MakeDay.
  rewrite (Z.div_small m 12), (Z.mod_small m 12) by lia. now rewrite Z.add_0_r.
Qed.

(** [MakeDay] moves linearly in its date argument. *)
Lemma MakeDay_date y m dt : MakeDay y m dt = MakeDay y m 1 + (dt - 1).
Proof. unfold MakeDay. lia. Qed.

Lemma month_of_day_range d : 0 <= month_of_day d < 12.
Proof.
  unfold month_of_day.
  apply month_date_split; [apply leap_of_year_range|apply day_within_year_range].
Qed.

Lemma date_of_day_range d :
  1 <= date_of_day d <= days_in_month (month_of_day d) (leap_of_year (year_of_day d)).
Proof.
  unfold date_of_day, month_of_day.
  apply month_date_split; [apply leap_of_year_range|apply day_within_year_range].
Qed.

(** Round trip from a day number to its fields and back. *)
Lemma MakeDay_of_day d :
  MakeDay (year_of_day d) (month_of_day d) (date_of_day d) = d.
Proof.
  rewrite MakeDay_small by apply month_of_day_range.
  unfold month_of_day, date_of_day.
  destruct (month_date_split (leap_of_year (year_of_day d)) (day_within_year d))
    as (_ & _ & E); [apply leap_of_year_range|apply day_within_year_range|].
  unfold day_within_year in *. lia.
Qed.

(** Round trip from valid fields to a day number and back. *)
Lemma fields_of_MakeDay y m dt :
  0 <= m < 12 -> 1 <= dt <= days_in_month m (leap_of_year y) ->
  year_of_day (MakeDay y m dt) = y /\ month_of_day (MakeDay y m dt) = m /\
  date_of_day (MakeDay y m dt) = dt.
Proof.
  intros Hm Hdt. rewrite MakeDay_small by exact Hm.
  pose proof (leap_of_year_range y) as Hl.
  pose proof (month_lengths _ m Hl Hm) as Hlen.
  assert (Hy : year_of_day (DayFromYear y + month_start m (leap_of_year y) + dt - 1) = y).
  { replace (DayFromYear y + month_start m (leap_of_year y) + dt - 1)
      with (DayFromYear y + (month_start m (leap_of_year y) + dt - 1)) by lia.
    apply year_of_day_DayFromYear. rewrite DaysInYear_leap.
    unfold days_in_month in *. lia. }
  unfold month_of_day, date_of_day, day_within_year. rewrite Hy.
  replace (DayFromYear y + month_start m (leap_of_year y) + dt - 1 - DayFromYear y)
    with (month_start m (leap_of_year y) + dt - 1) by lia.
  destruct (month_date_join _ m dt Hl Hm Hdt). auto.
Qed.

(** [MakeDay] normalises an out-of-range month into the following or
    preceding years. *)
Lemma fields_of_MakeDay_1 y m :
  year_of_day (MakeDay y m 1) = y + m / 12 /\ month_of_day (MakeDay y m 1) = m mod 12 /\
  date_of_day (MakeDay y m 1) = 1.
Proof.
  replace (MakeDay y m 1) with (MakeDay (y + m / 12) (m mod 12) 1).
  - pose proof (Z.mod_pos_bound m 12 ltac:(lia)).
    apply fields_of_MakeDay; [lia|].
    pose proof (month_lengths (leap_of_year (y + m / 12)) (m mod 12)
                  (leap_of_year_range _) ltac:(lia)). lia.
  - unfold MakeDay. rewrite (Z.div_small (m mod 12) 12), Z.mod_mod by (try apply Z.mod_pos_bound; lia).
    now rewrite Z.add_0_r.
Qed.

Lemma div_mod_12_succ m :
  (m + 1) / 12 = (if m mod 12 =? 11 then m / 12 + 1 else m / 12) /\
  (m + 1) mod 12 = (if m mod 12 =? 11 then 0 else m mod 12 + 1).
Proof.
  destruct (Z.eqb_spec (m mod 12) 11); Z.div_mod_to_equations; lia.
Qed.

(** The first day of the next month is [days_in_month] days later. *)
Lemma MakeDay_next_month y m :
  MakeDay y (m + 1) 1 =
  MakeDay y m 1 + days_in_month (m mod 12) (leap_of_year (y + m / 12)).
Proof.
  unfold MakeDay. destruct (div_mod_12_succ m) as [Hq Hr]. rewrite Hq, Hr.
  pose proof (Z.mod_pos_bound m 12 ltac:(lia)).
  destruct (Z.eqb_spec (m mod 12) 11) as [E|E].
  - rewrite E. rewrite Z.add_assoc, DayFromYear_succ, DaysInYear_leap.
    unfold days_in_month, month_start. simpl. lia.
  - unfold days_in_month. lia.
Qed.

Lemma days_in_month_bounds y m :
  28 <= days_in_month (m mod 12) (leap_of_year y) <= 31.
Proof.
  apply month_lengths; [apply leap_of_year_range|apply Z.mod_pos_bound; lia].
Qed.

(** Any day between the first of month [m] and the first of the next one
    belongs to month [m] (normalised). *)
Lemma fields_in_month y m d :
  MakeDay y m 1 <= d < MakeDay y (m + 1) 1 ->
  year_of_day d = y + m / 12 /\ month_of_day d = m mod 12 /\
  date_of_day d = d - MakeDay y m 1 + 1.
Proof.
  intros Hd. rewrite MakeDay_next_month in Hd.
  assert (E : MakeDay y m 1 = MakeDay (y + m / 12) (m mod 12) 1).
  { unfold MakeDay. rewrite (Z.div_small (m mod 12) 12), Z.mod_mod
      by (try apply Z.mod_pos_bound; lia). now rewrite Z.add_0_r. }
  assert (Ed : MakeDay (y + m / 12) (m mod 12) (d - MakeDay y m 1 + 1) = d)
    by (rewrite MakeDay_date, <- E; lia).
  destruct (fields_of_MakeDay (y + m / 12) (m mod 12) (d - MakeDay y m 1 + 1))
    as (A & B & C); [apply Z.mod_pos_bound; lia|lia|].
  rewrite Ed in A, B, C. auto.
Qed.

(** Bounding the year of a day by the years whose first days bound it. *)
Lemma year_of_day_bounds y1 y2 d :
  DayFromYear y1 <= d < DayFromYear y2 -> y1 <= year_of_day d < y2.
Proof.
  intros Hd. pose proof (year_of_day_spec d) as Hs. split.
  - destruct (Z.le_gt_cases y1 (year_of_day d)) as [|Hlt]; [assumption|].
    pose proof (DayFromYear_mono (year_of_day d + 1) y1). lia.
  - destruct (Z.le_gt_cases y2 (year_of_day d)) as [Hle|]; [|assumption].
    pose proof (DayFromYear_mono y2 (year_of_day d)). lia.
Qed.

(** ** Week days *)

Lemma week_day_range d : 0 <= week_day d < 7.
Proof. unfold week_day. apply Z.mod_pos_bound. lia. Qed.

(** Subtracting the week day lands on a Sunday. *)
Lemma week_day_sunday d : week_day (d - week_day d) = 0.
Proof. unfold week_day. Z.div_mod_to_equations. lia. Qed.

(** Adding [6 - week_day d] lands on a Saturday. *)
Lemma week_day_saturday d : week_day (d + (6 - week_day d)) = 6.
Proof. unfold week_day. Z.div_mod_to_equations. lia. Qed.

(** Counting from a Sunday, the week day is the offset modulo seven. *)
Lemma week_day_offset d k : week_day d = 0 -> week_day (d + k) = k mod 7.
Proof. unfold week_day. intros H. Z.div_mod_to_equations. lia. Qed.

Lemma week_day_succ d : week_day (d + 1) = (week_day d + 1) mod 7.
Proof. unfold week_day. rewrite Z.add_mod_idemp_l by lia. f_equal. lia. Qed.

(** ** Time values, local time and the [Date] methods *)

Lemma Day_MakeDate d r : 0 <= r < msPerDay -> Day (MakeDate d r) = d.
Proof.
  intros Hr. unfold Day, MakeDate.
  rewrite Z.add_comm, div_shift by (unfold msPerDay; lia).
  rewrite Z.div_small by exact Hr. lia.
Qed.

Lemma TimeWithinDay_MakeDate d r : 0 <= r < msPerDay -> TimeWithinDay (MakeDate d r) = r.
Proof.
  intros Hr. unfold TimeWithinDay, MakeDate.
  rewrite Z.add_comm, mod_shift by (unfold msPerDay; lia). now apply Z.mod_small.
Qed.

Lemma full_year_id y : ~ (0 <= y <= 99) -> full_year y = y.
Proof.
  intros H. unfold full_year.
  destruct (0 <=? y) eqn:E1, (y <=? 99) eqn:E2; cbn [andb]; rewrite ?Z.leb_le, ?Z.leb_gt in *;
    lia.
Qed.

Lemma full_year_large y : ~ (0 <= full_year y <= 99).
Proof.
  unfold full_year.
  destruct (0 <=? y) eqn:E1, (y <=? 99) eqn:E2; cbn [andb]; rewrite ?Z.leb_le, ?Z.leb_gt in *;
    lia.
Qed.

Section Local.

Variable tz : Z.

(** [new Date(y, m, dt)] is local midnight of day [MakeDay(full_year y, m, dt)]. *)
Lemma local_new_date y m dt :
  LocalTime tz (new_date tz y m dt) = MakeDate (MakeDay (full_year y) m dt) 0.
Proof. unfold LocalTime, new_date, UTC, MakeTime, MakeDate. cbv zeta. lia. Qed.

Lemma day_new_date y m dt :
  Day (LocalTime tz (new_date tz y m dt)) = MakeDay (full_year y) m dt.
Proof. rewrite local_new_date. apply Day_MakeDate. unfold msPerDay. lia. Qed.

Lemma new_date_eq y m dt :
  new_date tz y m dt = UTC tz (MakeDate (MakeDay (full_year y) m dt) 0).
Proof. unfold new_date, MakeTime, MakeDate, UTC. cbv zeta. lia. Qed.

(** Rebuilding a date from its own fields and a shifted date: the
    pattern [new Date(d.getFullYear(), d.getMonth(), d.getDate() + k)]. *)
Lemma new_date_fields x k :
  ~ (0 <= year_of_day x <= 99) ->
  new_date tz (year_of_day x) (month_of_day x) (date_of_day x + k) = UTC tz (MakeDate (x + k) 0).
Proof.
  intros Hy. rewrite new_date_eq, full_year_id by exact Hy.
  rewrite MakeDay_date. pose proof (MakeDay_of_day x) as E. rewrite MakeDay_date in E.
  do 2 f_equal. lia.
Qed.

(** The getters on local midnight of day [d]. *)
Lemma local_midnight_day d : Day (LocalTime tz (UTC tz (MakeDate d 0))) = d.
Proof.
  unfold LocalTime, UTC. replace (MakeDate d 0 - tz + tz) with (MakeDate d 0) by lia.
  apply Day_MakeDate. unfold msPerDay. lia.
Qed.

Lemma getFullYear_midnight d : getFullYear tz (UTC tz (MakeDate d 0)) = year_of_day d.
Proof. unfold getFullYear, YearFromTime. now rewrite local_midnight_day. Qed.

Lemma getMonth_midnight d : getMonth tz (UTC tz (MakeDate d 0)) = month_of_day d.
Proof. unfold getMonth, MonthFromTime. now rewrite local_midnight_day. Qed.

Lemma getDate_midnight d : getDate tz (UTC tz (MakeDate d 0)) = date_of_day d.
Proof. unfold getDate, DateFromTime. now rewrite local_midnight_day. Qed.

Lemma getDay_midnight d : getDay tz (UTC tz (MakeDate d 0)) = week_day d.
Proof. unfold getDay, WeekDay. now rewrite local_midnight_day. Qed.

(** [d.setDate(d.getDate() + 1)] moves [d] exactly one day forward. *)
Lemma setDate_next t : setDate tz t (getDate tz t + 1) = t + msPerDay.
Proof.
  unfold setDate, getDate, YearFromTime, MonthFromTime, DateFromTime.
  rewrite MakeDay_date.
  pose proof (MakeDay_of_day (Day (LocalTime tz t))) as E. rewrite MakeDay_date in E.
  unfold UTC, MakeDate, TimeWithinDay, Day, LocalTime in *.
  pose proof (Z.div_mod (t + tz) msPerDay ltac:(unfold msPerDay; lia)). nia.
Qed.

End Local.

#[export] Hint Rewrite getFullYear_midnight getMonth_midnight getDate_midnight
  getDay_midnight : js_rw.

(** ** The ISO date prefix

    [toISOString().slice(0, 10)] is the component's key for a day.  It is
    computed from the UTC fields of the time value. *)

(** The first ten characters of the ISO string of any time on UTC day [d]. *)
Definition day_key (d : Z) : jsstr :=
  firstn 10 (iso_year (year_of_day d) ++ [45] ++
             JsString.zero_padded (month_of_day d + 1) 2 ++ [45] ++
             JsString.zero_padded (date_of_day d) 2).

Lemma length_iso_year y : (4 <= length (iso_year y))%nat.
Proof.
  unfold iso_year. destruct (_ && _); [apply JsString.length_zero_padded|].
  cbn [length]. pose proof (JsString.length_zero_padded (Z.abs y) 6). lia.
Qed.

Lemma length_iso_year_expanded y : ~ (0 <= y <= 9999) -> (7 <= length (iso_year y))%nat.
Proof.
  intros Hy. unfold iso_year.
  replace ((0 <=? y) && (y <=? 9999)) with false
    by (symmetry; apply andb_false_iff; rewrite !Z.leb_gt; lia).
  cbn [length]. pose proof (JsString.length_zero_padded (Z.abs y) 6). lia.
Qed.

Lemma slice_toISOString t : JsString.slice 0 10 (toISOString t) = day_key (Day t).
Proof.
  unfold JsString.slice, day_key. cbn [Nat.sub skipn].
  destruct (ltac:(eexists; unfold toISOString; rewrite <- !app_assoc; reflexivity) :
    exists r, toISOString t =
      (iso_year (YearFromTime t) ++ [45] ++ JsString.zero_padded (MonthFromTime t + 1) 2 ++
       [45] ++ JsString.zero_padded (DateFromTime t) 2) ++ r) as [r ->].
  apply firstn_app_long. rewrite !length_app.
  pose proof (length_iso_year (year_of_day (Day t))).
  pose proof (JsString.length_zero_padded (month_of_day (Day t) + 1) 2).
  pose proof (JsString.length_zero_padded (date_of_day (Day t)) 2). cbn [length]. lia.
Qed.

(** For years [0] to [9999] the key is [YYYY-MM-DD]. *)
Lemma day_key_digits d :
  0 <= year_of_day d <= 9999 ->
  day_key d = JsString.fixed_digits 4 (year_of_day d) ++ [45] ++
              JsString.fixed_digits 2 (month_of_day d + 1) ++ [45] ++
              JsString.fixed_digits 2 (date_of_day d).
Proof.
  intros Hy. unfold day_key, iso_year.
  replace ((0 <=? year_of_day d) && (year_of_day d <=? 9999)) with true
    by (symmetry; apply andb_true_iff; rewrite !Z.leb_le; lia).
  pose proof (month_of_day_range d). pose proof (date_of_day_range d).
  pose proof (month_lengths (leap_of_year (year_of_day d)) (month_of_day d)
                (leap_of_year_range _) (month_of_day_range d)).
  rewrite JsString.zero_padded_4, !JsString.zero_padded_2 by lia.
  apply firstn_all2. rewrite !length_app, !JsString.length_fixed_digits. reflexivity.
Qed.

(** Keys of days in years [0] to [9999] identify the day. *)
Lemma day_key_inj d1 d2 :
  0 <= year_of_day d1 <= 9999 -> 0 <= year_of_day d2 <= 9999 ->
  day_key d1 = day_key d2 -> d1 = d2.
Proof.
  intros H1 H2 E. rewrite !day_key_digits in E by assumption.
  pose proof (month_of_day_range d1). pose proof (month_of_day_range d2).
  pose proof (date_of_day_range d1). pose proof (date_of_day_range d2).
  pose proof (month_lengths _ _ (leap_of_year_range (year_of_day d1)) (month_of_day_range d1)).
  pose proof (month_lengths _ _ (leap_of_year_range (year_of_day d2)) (month_of_day_range d2)).
  apply app_inj_length in E as [Ey E]; [|now rewrite !JsString.length_fixed_digits].
  apply app_inj_length in E as [_ E]; [|reflexivity].
  apply app_inj_length in E as [Em E]; [|now rewrite !JsString.length_fixed_digits].
  apply app_inj_length in E as [_ Ed]; [|reflexivity].
  apply JsString.fixed_digits_inj in Ey, Em, Ed; cbn in *; try lia.
  rewrite <- (MakeDay_of_day d1), <- (MakeDay_of_day d2). f_equal; lia.
Qed.

(** Outside years [0] to [9999] the expanded year takes seven characters,
    so the key stops after the month: all days of a month share it. *)
Lemma day_key_expanded d :
  ~ (0 <= year_of_day d <= 9999) ->
  day_key d = firstn 10 (iso_year (year_of_day d) ++ [45] ++
                         JsString.zero_padded (month_of_day d + 1) 2).
Proof.
  intros Hy. unfold day_key.
  replace (iso_year (year_of_day d) ++ [45] ++ JsString.zero_padded (month_of_day d + 1) 2 ++
           [45] ++ JsString.zero_padded (date_of_day d) 2)
    with ((iso_year (year_of_day d) ++ [45] ++ JsString.zero_padded (month_of_day d + 1) 2) ++
          [45] ++ JsString.zero_padded (date_of_day d) 2) by (now rewrite <- !app_assoc).
  apply firstn_app_long. rewrite !length_app.
  pose proof (length_iso_year_expanded _ Hy).
  pose proof (JsString.length_zero_padded (month_of_day d + 1) 2). cbn [length]. lia.
Qed.

(** The UTC day of local midnight of day [d]: the day before east of
    Greenwich, the same day at Greenwich and west of it. *)
Definition utc_shift (tz : Z) : Z := if 0 <? tz then 1 else 0.

Lemma day_utc_midnight tz d :
  - msPerDay < tz < msPerDay -> Day (UTC tz (MakeDate d 0)) = d - utc_shift tz.
Proof.
  intros Htz. unfold Day, UTC, MakeDate, utc_shift. unfold msPerDay in *.
  destruct (Z.ltb_spec 0 tz); Z.div_mod_to_equations; lia.
Qed.

(** ** The range of valid months *)

(** The first and last month indices [12 * year + month] whose first day
    is a valid date. *)
Definition first_index : Z := -271821 * 12 + 4.
Definition last_index : Z := 275760 * 12 + 8.

(** ** The first day of a month, by month index *)

(** The day number of the first of the month with index [i]. *)
Definition first_day (i : Z) : Z := MakeDay 0 i 1.

Lemma MakeDay_index y m : MakeDay y m 1 = first_day (y * 12 + m).
Proof.
  unfold first_day, MakeDay. replace (y * 12 + m) with (m + y * 12) by lia.
  rewrite Z.div_add, Z.mod_add by lia. now replace (0 + (m / 12 + y)) with (y + m / 12) by lia.
Qed.

Lemma first_day_succ i : first_day i + 28 <= first_day (i + 1) <= first_day i + 31.
Proof.
  unfold first_day. rewrite MakeDay_next_month.
  pose proof (days_in_month_bounds (0 + i / 12) i). lia.
Qed.

Lemma first_day_grows i k : first_day i + 28 * Z.of_nat k <= first_day (i + Z.of_nat k).
Proof.
  induction k as [|k IH]; [replace (i + Z.of_nat 0) with i by lia; lia|].
  rewrite Nat2Z.inj_succ, <- Z.add_1_r, Z.add_assoc.
  pose proof (first_day_succ (i + Z.of_nat k)). lia.
Qed.

Lemma first_day_lt i j : i < j -> first_day i + 28 <= first_day j.
Proof.
  intros H. replace j with (i + Z.of_nat (Z.to_nat (j - i))) by lia.
  pose proof (first_day_grows i (Z.to_nat (j - i))). lia.
Qed.

Lemma first_day_le i j : i <= j -> first_day i <= first_day j.
Proof.
  intros H. destruct (Z.eq_dec i j) as [->|N]; [lia|].
  pose proof (first_day_lt i j ltac:(lia)). lia.
Qed.

(** The first days around the two ends of the range, computed. *)
Lemma first_day_ends :
  first_day (first_index - 1) = -100000019 /\ first_day first_index = -99999989 /\
  first_day last_index = 99999988 /\ first_day (last_index + 1) = 100000018.
Proof. repeat split; vm_compute; reflexivity. Qed.

Lemma new_date_first_day tz y m :
  new_date tz y m 1 = first_day (full_year y * 12 + m) * msPerDay - tz.
Proof. rewrite new_date_eq, <- MakeDay_index. unfold UTC, MakeDate. lia. Qed.

Lemma TimeClip_some t t' : TimeClip t = Some t' -> t' = t.
Proof. unfold TimeClip. destruct (Z.abs t <=? maxTime); congruence. Qed.

(** [new Date(y, m)] is valid exactly from May -271821 to September
    275760. *)
Lemma month_start_clip tz y m :
  - msPerDay < tz < msPerDay ->
  TimeClip (new_date tz y m 1) =
  if (first_index <=? full_year y * 12 + m) && (full_year y * 12 + m <=? last_index)
  then Some (new_date tz y m 1) else None.
Proof.
  intros Htz. unfold TimeClip. rewrite new_date_first_day.
  set (i := full_year y * 12 + m). destruct first_day_ends as (A & B & C & D).
  unfold msPerDay, maxTime in *.
  destruct (Z.leb_spec first_index i), (Z.leb_spec i last_index); cbn [andb].
  - pose proof (first_day_le first_index i ltac:(lia)). pose proof (first_day_le i last_index ltac:(lia)).
    replace (Z.abs _ <=? _) with true by (symmetry; apply Z.leb_le; lia). reflexivity.
  - pose proof (first_day_le (last_index + 1) i ltac:(lia)).
    replace (Z.abs _ <=? _) with false by (symmetry; apply Z.leb_gt; lia). reflexivity.
  - pose proof (first_day_le i (first_index - 1) ltac:(lia)).
    replace (Z.abs _ <=? _) with false by (symmetry; apply Z.leb_gt; lia). reflexivity.
  - unfold first_index, last_index in *. lia.
Qed.

End DateFacts.
