(* ===== verification/DateParse.v ===== *)
(** * [Date.parse] on date-only strings

    [formatDate] (src/src/App.jsx, lines 63-69) calls [new Date(dateString)]
    on a date key, which parses the string with [Date.parse].  ECMA-262
    ("Date Time String Format") fixes the meaning of the date-only forms
    [YYYY], [YYYY-MM] and [YYYY-MM-DD], with [YYYY] also written as a sign
    and six digits: they denote UTC midnight.  Values out of range give
    [NaN]; every other string falls to implementation-specific heuristics,
    which are not modelled ([PUnknown]).  A day number up to 31 is
    accepted by the format; the keys the component builds are always
    real dates. *)

From Stdlib Require Import ZArith Lia List Bool.
From S2P Require Import Prelude JsString JsDate DateFacts.
Import ListNotations JsDate DateFacts.

Open Scope Z_scope.

Module DateParse.

(** The result of [Date.parse]. *)
Inductive parsed :=
| PTime (t : Z)
| PNaN
| PUnknown.

Definition digit_value (c : Z) : option Z :=
  if (48 <=? c) && (c <=? 57) then Some (c - 48) else None.

Definition digits2 (a b : Z) : option Z :=
  match digit_value a, digit_value b with
  | Some x, Some y => Some (x * 10 + y)
  | _, _ => None
  end.

Definition digits4 (a b c d : Z) : option Z :=
  match digits2 a b, digits2 c d with
  | Some x, Some y => Some (x * 100 + y)
  | _, _ => None
  end.

(** [YYYY] or [+YYYYYY] / [-YYYYYY] ([-000000] is not allowed). *)
Definition parse_year (s : jsstr) : option (Z * jsstr) :=
  match s with
  | a :: b :: c :: d :: r =>
      match digits4 a b c d with
      | Some v => Some (v, r)
      | None =>
          match r with
          | e :: f :: g :: r' =>
              if (a =? 43) || (a =? 45) then
                match digits2 b c, digits2 d e, digits2 f g with
                | Some x, Some y, Some z =>
                    let v := x * 10000 + y * 100 + z in
                    if (a =? 45) && (v =? 0) then None
                    else Some (if a =? 45 then - v else v, r')
                | _, _, _ => None
                end
              else None
          | _ => None
          end
      end
  | _ => None
  end.

(** [TimeClip]. *)
Definition clip (t : Z) : parsed :=
  if Z.abs t <=? 8640000000000000 then PTime t else PNaN.

Definition date_value (y m dt : Z) : parsed :=
  if (1 <=? m) && (m <=? 12) && (1 <=? dt) && (dt <=? 31)
  then clip (MakeDate (MakeDay y (m - 1) dt) 0)
  else PNaN.

Definition date_parse (s : jsstr) : parsed :=
  match parse_year s with
  | None => PUnknown
  | Some (y, r) =>
      match r with
      | [] => date_value y 1 1
      | h :: m1 :: m2 :: r2 =>
          if h =? 45 then
            match digits2 m1 m2 with
            | Some m =>
                match r2 with
                | [] => date_value y m 1
                | [h2; d1; d2] =>
                    if h2 =? 45 then
                      match digits2 d1 d2 with
                      | Some dt => date_value y m dt
                      | None => PUnknown
                      end
                    else PUnknown
                | _ => PUnknown
                end
            | None => PUnknown
            end
          else PUnknown
      | _ => PUnknown
      end
  end.

(** ** Reading a key back *)

Definition fixed2_ok (n : Z) : bool :=
  match JsString.fixed_digits 2 n with
  | [a; b] => match digits2 a b with Some v => v =? n | None => false end
  | _ => false
  end.

Definition fixed4_ok (n : Z) : bool :=
  match JsString.fixed_digits 4 n with
  | [a; b; c; d] => match digits4 a b c d with Some v => v =? n | None => false end
  | _ => false
  end.

Lemma fixed2_read n :
  0 <= n < 100 -> exists a b, JsString.fixed_digits 2 n = [a; b] /\ digits2 a b = Some n.
Proof.
  intros Hn. assert (H : fixed2_ok n = true) by (revert n Hn; range_check).
  unfold fixed2_ok in H. destruct (JsString.fixed_digits 2 n) as [|a [|b [|]]]; try discriminate.
  exists a, b. split; [reflexivity|]. destruct (digits2 a b); [|discriminate].
  apply Z.eqb_eq in H. now subst.
Qed.

Lemma fixed4_read n :
  0 <= n < 10000 ->
  exists a b c d, JsString.fixed_digits 4 n = [a; b; c; d] /\ digits4 a b c d = Some n.
Proof.
  intros Hn. assert (H : fixed4_ok n = true) by (revert n Hn; range_check).
  unfold fixed4_ok in H.
  destruct (JsString.fixed_digits 4 n) as [|a [|b [|c [|d [|]]]]]; try discriminate.
  exists a, b, c, d. split; [reflexivity|]. destruct (digits4 a b c d); [|discriminate].
  apply Z.eqb_eq in H. now subst.
Qed.

Lemma day_bounds x :
  0 <= year_of_day x <= 9999 -> DayFromYear 0 <= x < DayFromYear 10000.
Proof.
  intros Hy. pose proof (year_of_day_spec x) as Hs.
  pose proof (DayFromYear_mono 0 (year_of_day x)).
  pose proof (DayFromYear_mono (year_of_day x + 1) 10000). lia.
Qed.

(** The key of a day of the years 0 to 9999 parses back to the UTC
    midnight of that day. *)
Lemma date_parse_day_key x :
  0 <= year_of_day x <= 9999 -> date_parse (day_key x) = PTime (x * msPerDay).
Proof.
  intros Hy. rewrite day_key_digits by exact Hy.
  pose proof (month_of_day_range x) as Hm. pose proof (date_of_day_range x) as Hd.
  pose proof (days_in_month_bounds (year_of_day x) (month_of_day x)) as Hb.
  rewrite Z.mod_small in Hb by exact Hm.
  destruct (fixed4_read (year_of_day x) ltac:(lia)) as (a & b & c & d & -> & E4).
  destruct (fixed2_read (month_of_day x + 1) ltac:(lia)) as (m1 & m2 & -> & E2).
  destruct (fixed2_read (date_of_day x) ltac:(lia)) as (d1 & d2 & -> & E2').
  unfold date_parse, parse_year. cbn [app]. rewrite E4. cbn [Z.eqb Pos.eqb].
  rewrite E2, E2'. unfold date_value.
  replace ((1 <=? month_of_day x + 1) && (month_of_day x + 1 <=? 12) && (1 <=? date_of_day x) &&
           (date_of_day x <=? 31)) with true
    by (symmetry; rewrite !andb_true_iff, !Z.leb_le; lia).
  replace (month_of_day x + 1 - 1) with (month_of_day x) by lia.
  rewrite MakeDay_of_day. unfold clip, MakeDate.
  pose proof (day_bounds x Hy) as Hx.
  replace (DayFromYear 0) with (-719528) in Hx by reflexivity.
  replace (DayFromYear 10000) with 2932897 in Hx by reflexivity.
  rewrite (proj2 (Z.leb_le _ _)) by (unfold msPerDay; lia). f_equal. lia.
Qed.

End DateParse.
