(* ===== verification/MemoStore.v ===== *)
(** * The memo store: a JavaScript object used as a dictionary

    [memos] in [src/src/App.jsx] is a plain object mapping date keys to memo
    texts.  The component reads it with [memos[k]], writes it with
    [{ ...prevMemos, [selectedDate]: memo }] ([handleSaveMemo]) and removes a
    key with [delete updatedMemos[selectedDate]] on a copy
    ([handleDeleteMemo]).

    - [MemoStore] and [MemoStoreLaws] are the interface the rest of the
      development relies on: stores with [get], [set] and [del] and their
      laws.
    - [JsObject] implements it with the object's own properties as a list
      in the order [OrdinaryOwnPropertyKeys] enumerates them (array-index
      keys ascending, then the other keys in insertion order), which is the
      order [JSON.stringify] writes them in.  [JsObject.to_map] relates it to
      a finite map of stdpp, and the refinement lemmas show that [get],
      [set] and [del] are lookup, insert and delete on that map.
    - [StoreFacts] derives, from the interface alone, the facts the
      component's handlers need. *)

From Stdlib Require Import ZArith Lia List Bool Permutation.
From stdpp Require Import base gmap fin_maps.
From S2P Require Import Prelude JsString.
Import ListNotations.

Open Scope Z_scope.

(** ** The interface *)

(** The operations a memo store offers to the component. *)
Class MemoStore (t : Type) := {
  ms_empty : t;
  ms_get : t -> jsstr -> option jsstr;
  ms_set : t -> jsstr -> jsstr -> t;
  ms_del : t -> jsstr -> t
}.

(** What the component may assume of them. *)
Class MemoStoreLaws (t : Type) `{MemoStore t} := {
  ms_get_empty : forall k, ms_get ms_empty k = None;
  ms_get_set_eq : forall o k v, ms_get (ms_set o k v) k = Some v;
  ms_get_set_ne : forall o k k' v, k <> k' -> ms_get (ms_set o k v) k' = ms_get o k';
  ms_get_del_eq : forall o k, ms_get (ms_del o k) k = None;
  ms_get_del_ne : forall o k k', k <> k' -> ms_get (ms_del o k) k' = ms_get o k'
}.

(** ** Plain objects *)

Module JsObject.

(** Own data properties, in enumeration order. *)
Definition t := list (jsstr * jsstr).

Definition empty : t := [].

(** [CanonicalNumericIndexString] restricted to array indices: the
    canonical decimal string of an integer in [0, 2^32 - 2]. *)
Definition array_index (k : jsstr) : option Z :=
  match JsString.read_digits k with
  | Some n =>
      if (n <? 4294967295) && str_eqb (JsString.number_to_string n) k then Some n
      else None
  | None => None
  end.

(** [o[k]] on an own property; [None] is [undefined]. *)
Fixpoint get (o : t) (k : jsstr) : option jsstr :=
  match o with
  | [] => None
  | (k', v') :: o' => if str_eqb k' k then Some v' else get o' k
  end.

Fixpoint has (o : t) (k : jsstr) : bool :=
  match o with
  | [] => false
  | (k', _) :: o' => str_eqb k' k || has o' k
  end.

(** Writing an existing property keeps its position. *)
Fixpoint update (o : t) (k v : jsstr) : t :=
  match o with
  | [] => []
  | (k', v') :: o' => if str_eqb k' k then (k', v) :: o' else (k', v') :: update o' k v
  end.

(** A new array-index key goes before the first larger index key and
    before every other key. *)
Fixpoint insert_index (o : t) (k v : jsstr) (n : Z) : t :=
  match o with
  | [] => [(k, v)]
  | (k', v') :: o' =>
      match array_index k' with
      | Some n' => if n <? n' then (k, v) :: o else (k', v') :: insert_index o' k v n
      | None => (k, v) :: o
      end
  end.

(** [CreateDataProperty(o, k, v)] on an extensible plain object, as done by
    the computed member [[k]: v] of an object literal. *)
Definition set (o : t) (k v : jsstr) : t :=
  if has o k then update o k v
  else match array_index k with
       | Some n => insert_index o k v n
       | None => o ++ [(k, v)]
       end.

(** [delete o[k]]. *)
Definition del (o : t) (k : jsstr) : t :=
  List.filter (fun p => negb (str_eqb (fst p) k)) o.

(** [{ ...o }]: [CopyDataProperties] into a fresh object enumerates the
    own keys in order and recreates them in that order. *)
Definition spread (o : t) : t := o.

(** The finite map an object denotes. *)
Definition to_map (o : t) : gmap jsstr jsstr := list_to_map o.

Lemma get_to_map o k : get o k = to_map o !! k.
Proof.
  unfold to_map. induction o as [|[k' v'] o IH]; cbn [get].
  - now rewrite list_to_map_nil, lookup_empty.
  - rewrite list_to_map_cons. destruct (str_eqb k' k) eqn:E.
    + apply str_eqb_eq in E as ->. now rewrite lookup_insert_eq.
    + apply str_eqb_neq in E. rewrite lookup_insert_ne by exact E. exact IH.
Qed.

Lemma has_get o k : has o k = true <-> get o k <> None.
Proof.
  induction o as [|[k' v'] o IH]; simpl; [split; congruence|].
  destruct (str_eqb k' k); simpl; [split; congruence|exact IH].
Qed.

Lemma get_update o k k' v :
  get (update o k v) k' = if str_eqb k k' && has o k then Some v else get o k'.
Proof.
  induction o as [|[k0 v0] o IH]; simpl.
  - now rewrite andb_false_r.
  - destruct (str_eqb k0 k) eqn:E; simpl.
    + apply str_eqb_eq in E as ->. rewrite andb_true_r. now destruct (str_eqb k k').
    + rewrite IH. destruct (str_eqb k0 k') eqn:E'; [|reflexivity].
      apply str_eqb_eq in E' as ->. rewrite str_eqb_neq in E.
      destruct (str_eqb k k') eqn:E2; [apply str_eqb_eq in E2; congruence|reflexivity].
Qed.

Lemma get_insert_index o k v n k' :
  has o k = false ->
  get (insert_index o k v n) k' = if str_eqb k k' then Some v else get o k'.
Proof.
  induction o as [|[k0 v0] o IH]; intros Hn; simpl in *; [reflexivity|].
  apply orb_false_iff in Hn as [Hk0 Hn].
  destruct (array_index k0); [destruct (n <? z)|]; simpl; try reflexivity.
  rewrite IH by exact Hn. destruct (str_eqb k0 k') eqn:E1; [|reflexivity].
  apply str_eqb_eq in E1 as ->. now rewrite str_eqb_sym, Hk0.
Qed.

Lemma get_app o1 o2 k :
  get (o1 ++ o2) k = match get o1 k with Some v => Some v | None => get o2 k end.
Proof.
  induction o1 as [|[k0 v0] o1 IH]; simpl; [reflexivity|].
  destruct (str_eqb k0 k); [reflexivity|exact IH].
Qed.

Lemma get_set o k v k' :
  get (set o k v) k' = if str_eqb k k' then Some v else get o k'.
Proof.
  unfold set. destruct (has o k) eqn:Hh.
  - now rewrite get_update, Hh, andb_true_r.
  - destruct (array_index k).
    + now apply get_insert_index.
    + rewrite get_app. destruct (get o k') eqn:E; simpl; [|reflexivity].
      destruct (str_eqb k k') eqn:E2; [|reflexivity].
      apply str_eqb_eq in E2 as <-. exfalso.
      assert (has o k = true) by (apply has_get; congruence). congruence.
Qed.

Lemma get_del o k k' :
  get (del o k) k' = if str_eqb k k' then None else get o k'.
Proof.
  unfold del. induction o as [|[k0 v0] o IH]; cbn [List.filter get fst];
    [now destruct (str_eqb k k')|].
  destruct (str_eqb k0 k) eqn:E; cbn [negb get]; rewrite IH.
  - apply str_eqb_eq in E as ->. now destruct (str_eqb k k').
  - destruct (str_eqb k0 k') eqn:E1; [|reflexivity].
    apply str_eqb_eq in E1 as ->. now rewrite str_eqb_sym, E.
Qed.

Lemma get_empty k : get empty k = None.
Proof. reflexivity. Qed.

Lemma get_set_eq o k v : get (set o k v) k = Some v.
Proof. now rewrite get_set, str_eqb_refl. Qed.

Lemma get_set_ne o k k' v : k <> k' -> get (set o k v) k' = get o k'.
Proof. intros H. rewrite get_set. apply str_eqb_neq in H. now rewrite H. Qed.

Lemma get_del_eq o k : get (del o k) k = None.
Proof. now rewrite get_del, str_eqb_refl. Qed.

Lemma get_del_ne o k k' : k <> k' -> get (del o k) k' = get o k'.
Proof. intros H. rewrite get_del. apply str_eqb_neq in H. now rewrite H. Qed.

(** ** Refinement: objects denote finite maps *)

Lemma to_map_ext o1 o2 : (forall k, get o1 k = get o2 k) -> to_map o1 = to_map o2.
Proof. intros H. apply map_eq. intros k. rewrite <- !get_to_map. apply H. Qed.

Lemma to_map_set o k v : to_map (set o k v) = <[k:=v]> (to_map o).
Proof.
  apply map_eq. intros k'. rewrite <- get_to_map, get_set, lookup_insert, get_to_map.
  destruct (str_eqb k k') eqn:E; case_decide; try reflexivity;
    rewrite ?str_eqb_eq, ?str_eqb_neq in E; congruence.
Qed.

Lemma to_map_del o k : to_map (del o k) = delete k (to_map o).
Proof.
  apply map_eq. intros k'. rewrite <- get_to_map, get_del, lookup_delete, get_to_map.
  destruct (str_eqb k k') eqn:E; case_decide; try reflexivity;
    rewrite ?str_eqb_eq, ?str_eqb_neq in E; congruence.
Qed.

(** ** Removing an absent key *)

Lemma del_absent o k : has o k = false -> del o k = o.
Proof.
  unfold del. induction o as [|[k0 v0] o IH]; intros Hn; cbn [List.filter fst]; [reflexivity|].
  cbn [has] in Hn. apply orb_false_iff in Hn as [Hk Hn].
  rewrite Hk. cbn [negb]. now rewrite IH.
Qed.

Lemma del_insert_index o k v n : has o k = false -> del (insert_index o k v n) k = o.
Proof.
  induction o as [|[k0 v0] o IH]; intros Hn; cbn [insert_index].
  - unfold del. cbn. now rewrite str_eqb_refl.
  - cbn [has] in Hn. apply orb_false_iff in Hn as [Hk Hn].
    assert (Hc : del ((k, v) :: (k0, v0) :: o) k = (k0, v0) :: o).
    { unfold del. cbn [List.filter fst]. rewrite str_eqb_refl. cbn [negb].
      apply (del_absent ((k0, v0) :: o)). cbn [has]. now rewrite Hk, Hn. }
    destruct (array_index k0); [destruct (n <? z)|]; try exact Hc.
    unfold del in *. cbn [List.filter fst]. rewrite Hk. cbn [negb]. now rewrite IH.
Qed.

(** Saving a memo under a fresh key and then deleting it gives back the
    very same object, property order included. *)
Lemma del_set_fresh o k v : has o k = false -> del (set o k v) k = o.
Proof.
  intros Hn. unfold set. rewrite Hn. destruct (array_index k).
  - now apply del_insert_index.
  - unfold del. rewrite List.filter_app. cbn [List.filter fst].
    rewrite str_eqb_refl. cbn [negb]. rewrite app_nil_r. now apply del_absent.
Qed.

(** ** Keys of an object *)

Definition keys (o : t) : list jsstr := map fst o.

Lemma has_In o k : has o k = true <-> In k (keys o).
Proof.
  unfold keys. induction o as [|[k0 v0] o IH]; simpl; [split; [discriminate|tauto]|].
  rewrite orb_true_iff, IH, str_eqb_eq. split; intros [H|H]; auto.
Qed.

Lemma keys_update o k v : keys (update o k v) = keys o.
Proof.
  unfold keys. induction o as [|[k0 v0] o IH]; simpl; [reflexivity|].
  destruct (str_eqb k0 k); simpl; [reflexivity|]. now rewrite IH.
Qed.

Lemma keys_insert_index o k v n : Permutation (keys (insert_index o k v n)) (k :: keys o).
Proof.
  unfold keys. induction o as [|[k0 v0] o IH]; cbn [insert_index]; [reflexivity|].
  destruct (array_index k0); [destruct (n <? z)|]; try reflexivity.
  cbn [map fst]. rewrite IH. apply perm_swap.
Qed.

Lemma keys_set_perm o k v :
  has o k = false -> Permutation (keys (set o k v)) (k :: keys o).
Proof.
  intros Hn. unfold set. rewrite Hn. destruct (array_index k).
  - apply keys_insert_index.
  - unfold keys. rewrite map_app. cbn [map fst]. symmetry. apply Permutation_cons_append.
Qed.

(** Objects never hold two properties with the same key, and writing or
    deleting keeps it so. *)
Lemma set_NoDup o k v : List.NoDup (keys o) -> List.NoDup (keys (set o k v)).
Proof.
  intros Hd. destruct (has o k) eqn:Hh.
  - unfold set. rewrite Hh, keys_update. exact Hd.
  - rewrite (keys_set_perm o k v Hh). constructor; [|exact Hd].
    intros Hin. apply has_In in Hin. congruence.
Qed.

Lemma keys_del o k : keys (del o k) = List.filter (fun k' => negb (str_eqb k' k)) (keys o).
Proof.
  unfold keys, del. induction o as [|[k0 v0] o IH]; simpl; [reflexivity|].
  destruct (str_eqb k0 k); simpl; now rewrite IH.
Qed.

Lemma del_NoDup o k : List.NoDup (keys o) -> List.NoDup (keys (del o k)).
Proof. intros Hd. rewrite keys_del. now apply List.NoDup_filter. Qed.

Lemma in_keys_set o k v k' : In k' (keys (set o k v)) -> k' = k \/ In k' (keys o).
Proof.
  intros Hin. destruct (has o k) eqn:Hh.
  - unfold set in Hin. rewrite Hh, keys_update in Hin. now right.
  - rewrite (keys_set_perm o k v Hh) in Hin. destruct Hin as [<-|Hin]; auto.
Qed.

Lemma in_keys_del o k k' : In k' (keys (del o k)) -> In k' (keys o).
Proof. rewrite keys_del, filter_In. tauto. Qed.

(** ** Property order and rebuilding an object

    [JSON.parse] creates the properties of an object one by one
    ([CreateDataProperty]), in the order of the text: [rebuild].  An
    object is [ordered] when its keys are in the order property creation
    can produce: array-index keys ascending and before every other key,
    no key twice. *)

Definition before (k k' : jsstr) : bool :=
  match array_index k, array_index k' with
  | Some n, Some n' => n <? n'
  | Some _, None => true
  | None, Some _ => false
  | None, None => negb (str_eqb k k')
  end.

Fixpoint ordered_keys (ks : list jsstr) : bool :=
  match ks with
  | [] => true
  | k :: ks' => forallb (before k) ks' && ordered_keys ks'
  end.

Definition ordered (o : t) : bool := ordered_keys (keys o).

Definition rebuild (ps : list (jsstr * jsstr)) : t :=
  fold_left (fun o p => set o (fst p) (snd p)) ps empty.

Lemma array_index_inj k k' n : array_index k = Some n -> array_index k' = Some n -> k = k'.
Proof.
  unfold array_index. intros H1 H2.
  destruct (JsString.read_digits k) as [n1|]; [|discriminate].
  destruct (JsString.read_digits k') as [n2|]; [|discriminate].
  destruct (n1 <? 4294967295) eqn:A1, (str_eqb (JsString.number_to_string n1) k) eqn:B1;
    cbn [andb] in H1; try discriminate.
  destruct (n2 <? 4294967295) eqn:A2, (str_eqb (JsString.number_to_string n2) k') eqn:B2;
    cbn [andb] in H2; try discriminate.
  apply str_eqb_eq in B1, B2. congruence.
Qed.

Lemma before_neq k k' : before k k' = true -> k <> k'.
Proof.
  unfold before. intros H <-. destruct (array_index k); [rewrite Z.ltb_irrefl in H; discriminate|].
  rewrite str_eqb_refl in H. discriminate.
Qed.

Lemma before_trans_index k k' k'' n :
  array_index k = Some n -> before k k' = true -> before k' k'' = true -> before k k'' = true.
Proof.
  unfold before. intros Hk. rewrite Hk.
  destruct (array_index k'), (array_index k''); rewrite ?Z.ltb_lt; intros; lia || discriminate || reflexivity.
Qed.

Lemma forallb_keys_filter {A} (p q : A -> bool) (ks : list A) :
  forallb p ks = true -> forallb p (List.filter q ks) = true.
Proof.
  rewrite !forallb_forall. intros H x Hx. apply filter_In in Hx as [Hx _]. auto.
Qed.

Lemma ordered_keys_filter q ks : ordered_keys ks = true -> ordered_keys (List.filter q ks) = true.
Proof.
  induction ks as [|k ks IH]; cbn [ordered_keys List.filter]; [reflexivity|].
  rewrite andb_true_iff. intros [Hf Ho].
  destruct (q k); cbn [ordered_keys]; [rewrite forallb_keys_filter by exact Hf|]; rewrite IH; auto.
Qed.

Lemma ordered_del o k : ordered o = true -> ordered (del o k) = true.
Proof. unfold ordered. rewrite keys_del. apply ordered_keys_filter. Qed.

Lemma ordered_app o k v :
  ordered (o ++ [(k, v)]) = true <-> ordered o = true /\ forallb (fun k' => before k' k) (keys o) = true.
Proof.
  unfold ordered, keys. induction o as [|[k0 v0] o IH]; cbn [map app ordered_keys forallb fst].
  - intuition reflexivity.
  - rewrite !andb_true_iff, IH, map_app, forallb_app. cbn [map fst forallb]. rewrite !andb_true_iff.
    tauto.
Qed.

Lemma has_before o k : forallb (fun k' => before k' k) (keys o) = true -> has o k = false.
Proof.
  intros H. destruct (has o k) eqn:E; [|reflexivity].
  apply has_In in E. rewrite forallb_forall in H. apply H in E. now apply before_neq in E.
Qed.

(** Creating a key that comes after every existing one appends it. *)
Lemma set_last o k v :
  forallb (fun k' => before k' k) (keys o) = true -> set o k v = o ++ [(k, v)].
Proof.
  intros H. unfold set. rewrite (has_before o k H).
  destruct (array_index k) as [n|] eqn:Ek; [|reflexivity].
  induction o as [|[k0 v0] o IH]; intros; [reflexivity|].
  cbn [keys map fst forallb] in H. apply andb_true_iff in H as [H0 H].
  cbn [insert_index app]. unfold before in H0. rewrite Ek in H0.
  destruct (array_index k0) as [n0|]; [|discriminate].
  apply Z.ltb_lt in H0. rewrite (proj2 (Z.ltb_ge n n0)) by lia. f_equal. exact (IH H).
Qed.

Lemma rebuild_app ps k v : rebuild (ps ++ [(k, v)]) = set (rebuild ps) k v.
Proof. unfold rebuild. now rewrite fold_left_app. Qed.

(** Rebuilding an ordered object property by property gives it back. *)
Lemma rebuild_ordered o : ordered o = true -> rebuild o = o.
Proof.
  induction o as [|[k v] o IH] using rev_ind; intros Ho; [reflexivity|].
  apply ordered_app in Ho as [Ho Hb].
  rewrite rebuild_app, (IH Ho). exact (set_last o k v Hb).
Qed.

Lemma forallb_perm {A} (p : A -> bool) l l' :
  Permutation l l' -> forallb p l = forallb p l'.
Proof.
  intros HP. apply Bool.eq_true_iff_eq. rewrite !forallb_forall.
  split; intros H x Hx; apply H; [apply (Permutation_in _ (Permutation_sym HP))|apply (Permutation_in _ HP)];
    exact Hx.
Qed.

Lemma ordered_insert_index o k v n :
  array_index k = Some n -> has o k = false -> ordered o = true ->
  ordered (insert_index o k v n) = true.
Proof.
  unfold ordered. intros Ek. induction o as [|[k0 v0] o IH]; intros Hn Ho; [reflexivity|].
  cbn [has] in Hn. apply orb_false_iff in Hn as [Hk0 Hn].
  cbn [keys map fst ordered_keys] in Ho. apply andb_true_iff in Ho as [Hf Ho].
  assert (Hnew : before k k0 = true ->
                 ordered_keys (keys ((k, v) :: (k0, v0) :: o)) = true).
  { intros Hb. cbn [keys map fst ordered_keys forallb]. rewrite Hb, Hf, Ho. cbn [andb].
    rewrite andb_true_r. rewrite forallb_forall in Hf |- *. intros x Hx.
    exact (before_trans_index k k0 x n Ek Hb (Hf x Hx)). }
  cbn [insert_index]. destruct (array_index k0) as [n0|] eqn:E0.
  - destruct (Z.ltb_spec n n0).
    + apply Hnew. unfold before. rewrite Ek, E0. now apply Z.ltb_lt.
    + assert (n0 <> n) by (intros ->; apply str_eqb_neq in Hk0; apply Hk0; exact (array_index_inj _ _ _ E0 Ek)).
      cbn [keys map fst ordered_keys]. fold (keys (insert_index o k v n)).
      rewrite (forallb_perm _ _ _ (keys_insert_index o k v n)). cbn [forallb].
      fold (keys o) in Hf. rewrite Hf, (IH Hn Ho). unfold before. rewrite E0, Ek. rewrite !andb_true_r. apply Z.ltb_lt. lia.
  - apply Hnew. unfold before. now rewrite Ek, E0.
Qed.

(** Writing a property keeps an object ordered. *)
Lemma ordered_set o k v : ordered o = true -> ordered (set o k v) = true.
Proof.
  intros Ho. unfold set. destruct (has o k) eqn:Hh.
  - unfold ordered. now rewrite keys_update.
  - destruct (array_index k) as [n|] eqn:Ek; [exact (ordered_insert_index o k v n Ek Hh Ho)|].
    apply ordered_app. split; [exact Ho|]. apply forallb_forall. intros k' Hk'.
    unfold before. rewrite Ek. destruct (array_index k'); [reflexivity|].
    apply Bool.negb_true_iff, str_eqb_neq. intros ->. apply has_In in Hk'. congruence.
Qed.

(** Whatever the text, the object [JSON.parse] creates is ordered. *)
Lemma ordered_rebuild ps : ordered (rebuild ps) = true.
Proof.
  induction ps as [|[k v] ps IH] using rev_ind; [reflexivity|].
  rewrite rebuild_app. now apply ordered_set.
Qed.

Lemma ordered_NoDup o : ordered o = true -> List.NoDup (keys o).
Proof.
  unfold ordered. induction (keys o) as [|k ks IH]; intros H; [constructor|].
  cbn [ordered_keys] in H. apply andb_true_iff in H as [Hf H]. constructor; [|exact (IH H)].
  intros Hin. rewrite forallb_forall in Hf. exact (before_neq k k (Hf k Hin) eq_refl).
Qed.

(** ** Objects of UTF-16 strings *)

Definition valid (o : t) : bool := forallb (fun p => units_ok (fst p) && units_ok (snd p)) o.

Lemma valid_update o k v : valid o = true -> units_ok v = true -> valid (update o k v) = true.
Proof.
  induction o as [|[k0 v0] o IH]; intros Ho Hv; [reflexivity|].
  cbn [update]. unfold valid in *. cbn [forallb fst snd] in *.
  apply andb_true_iff in Ho as [H0 Ho]. apply andb_true_iff in H0 as [Hk0 Hv0].
  destruct (str_eqb k0 k); cbn [forallb fst snd]; rewrite Hk0.
  - now rewrite Hv, Ho.
  - now rewrite Hv0, IH.
Qed.

Lemma valid_insert_index o k v n :
  valid o = true -> units_ok k = true -> units_ok v = true -> valid (insert_index o k v n) = true.
Proof.
  intros Ho Hk Hv. assert (Hn : valid ((k, v) :: o) = true)
    by (unfold valid in *; cbn [forallb fst snd]; now rewrite Hk, Hv, Ho).
  induction o as [|[k0 v0] o IH]; cbn [insert_index]; [exact Hn|].
  unfold valid in Ho. cbn [forallb fst snd] in Ho. apply andb_true_iff in Ho as [H0 Ho].
  destruct (array_index k0); [destruct (n <? z)|]; try exact Hn.
  unfold valid. cbn [forallb fst snd]. rewrite H0. apply IH; [exact Ho|].
  unfold valid. cbn [forallb fst snd]. now rewrite Hk, Hv, Ho.
Qed.

Lemma valid_set o k v :
  valid o = true -> units_ok k = true -> units_ok v = true -> valid (set o k v) = true.
Proof.
  intros Ho Hk Hv. unfold set. destruct (has o k); [now apply valid_update|].
  destruct (array_index k); [now apply valid_insert_index|].
  unfold valid in *. rewrite forallb_app. cbn [forallb fst snd]. now rewrite Hk, Hv, Ho.
Qed.

Lemma valid_del o k : valid o = true -> valid (del o k) = true.
Proof. unfold valid, del. apply forallb_keys_filter. Qed.

Lemma valid_get o k v : valid o = true -> get o k = Some v -> units_ok v = true.
Proof.
  induction o as [|[k0 v0] o IH]; cbn [get]; [discriminate|].
  unfold valid. cbn [forallb fst snd]. rewrite !andb_true_iff. intros ((_ & Hv0) & Ho).
  destruct (str_eqb k0 k); [intros [= <-]; exact Hv0|exact (IH Ho)].
Qed.

End JsObject.

#[export] Instance JsObject_store : MemoStore JsObject.t := {
  ms_empty := JsObject.empty;
  ms_get := JsObject.get;
  ms_set := JsObject.set;
  ms_del := JsObject.del
}.

#[export] Instance JsObject_laws : MemoStoreLaws JsObject.t := {
  ms_get_empty := JsObject.get_empty;
  ms_get_set_eq := JsObject.get_set_eq;
  ms_get_set_ne := JsObject.get_set_ne;
  ms_get_del_eq := JsObject.get_del_eq;
  ms_get_del_ne := JsObject.get_del_ne
}.
