(* ===== verification/Json.v ===== *)
(** * JSON serialisation of the memo object

    The persistence effect of [src/src/App.jsx] (lines 19-21) writes
    [JSON.stringify(memos)] to [localStorage] after every change of
    [memos].  [memos] only ever holds string values, so the part of
    [JSON.stringify] that matters is [SerializeJSONObject] over string
    properties and [QuoteJSONString] (ECMA-262, "JSON.stringify"), modelled
    here on UTF-16 code units: lone surrogates and control characters are
    escaped as [\uXXXX], the usual short escapes are used for backspace,
    tab, line feed, form feed, carriage return, quote and backslash. *)

From Stdlib Require Import ZArith Lia List Bool.
From S2P Require Import Prelude JsString MemoStore.
Import ListNotations.

Open Scope Z_scope.

Module Json.

Definition is_high_surrogate (c : Z) : bool := (55296 <=? c) && (c <=? 56319).
Definition is_low_surrogate (c : Z) : bool := (56320 <=? c) && (c <=? 57343).

(** A lowercase hexadecimal digit. *)
Definition hex_digit (d : Z) : Z := if d <? 10 then 48 + d else 87 + d.

(** [UnicodeEscape(C)]: ["\u"] and four lowercase hexadecimal digits. *)
Definition unicode_escape (c : Z) : jsstr :=
  [92; 117; hex_digit ((c / 4096) mod 16); hex_digit ((c / 256) mod 16);
   hex_digit ((c / 16) mod 16); hex_digit (c mod 16)].

(** One code point that is not a surrogate. *)
Definition escape_unit (c : Z) : jsstr :=
  if c =? 8 then [92; 98]
  else if c =? 9 then [92; 116]
  else if c =? 10 then [92; 110]
  else if c =? 12 then [92; 102]
  else if c =? 13 then [92; 114]
  else if c =? 34 then [92; 34]
  else if c =? 92 then [92; 92]
  else if c <? 32 then unicode_escape c
  else [c].

(** The body of [QuoteJSONString], code point by code point: a surrogate
    pair is copied, a lone surrogate is escaped. *)
Fixpoint quote_units (s : jsstr) : jsstr :=
  match s with
  | [] => []
  | c :: rest =>
      if is_high_surrogate c then
        match rest with
        | c2 :: rest' =>
            if is_low_surrogate c2 then c :: c2 :: quote_units rest'
            else unicode_escape c ++ quote_units rest
        | [] => unicode_escape c
        end
      else if is_low_surrogate c then unicode_escape c ++ quote_units rest
      else escape_unit c ++ quote_units rest
  end.

Definition quote (s : jsstr) : jsstr := [34] ++ quote_units s ++ [34].

(** One member ["key":"value"]. *)
Definition member (p : jsstr * jsstr) : jsstr := quote (fst p) ++ [58] ++ quote (snd p).

Fixpoint join_members (ps : list (jsstr * jsstr)) : jsstr :=
  match ps with
  | [] => []
  | [p] => member p
  | p :: ps' => member p ++ [44] ++ join_members ps'
  end.

(** [JSON.stringify(o)] for an object whose own properties are strings, in
    enumeration order: ["{}"] when it has none. *)
Definition stringify (o : JsObject.t) : jsstr :=
  match o with
  | [] => [123; 125]
  | _ => [123] ++ join_members o ++ [125]
  end.

End Json.
