(* ===== verification/JsonParse.v ===== *)
(** * [JSON.parse]

    The loading effect of [src/src/App.jsx] (lines 11-16) passes the
    stored entry to [JSON.parse] and hands the result to [setMemos].  This
    file models [JSON.parse] (ECMA-262 "JSON.parse", on the JSON grammar of
    ECMA-404) on UTF-16 code units: a recursive-descent parser over all
    JSON values, with fuel, whose number values keep their lexeme (only
    their validity matters here); and the conversion of a parsed value to
    the object model of [MemoStore.JsObject] when it is an object whose
    members are all strings, creating the properties in text order as
    [CreateDataProperty] does. *)

From Stdlib Require Import ZArith Lia List Bool.
From S2P Require Import Prelude JsString MemoStore Json.
Import ListNotations.

Open Scope Z_scope.

Module JsonParse.

#[local] Set Warnings "-register-all".

(** JSON values; a number is kept as its lexeme. *)
Inductive json :=
| JNull
| JBool (b : bool)
| JNumber (lexeme : list Z)
| JString (s : jsstr)
| JArray (elems : list json)
| JObject (members : list (jsstr * json)).

(** The result of a parsing function: a value and the rest of the input,
    a syntax error, or exhausted fuel. *)
Inductive res :=
| Ok (v : json) (rest : list Z)
| Err
| NoFuel.

Definition is_ws (c : Z) : bool := (c =? 9) || (c =? 10) || (c =? 13) || (c =? 32).

Fixpoint skip_ws (s : list Z) : list Z :=
  match s with
  | c :: r => if is_ws c then skip_ws r else s
  | [] => []
  end.

Definition is_digit (c : Z) : bool := (48 <=? c) && (c <=? 57).

Definition hex_value (c : Z) : option Z :=
  if (48 <=? c) && (c <=? 57) then Some (c - 48)
  else if (65 <=? c) && (c <=? 70) then Some (c - 55)
  else if (97 <=? c) && (c <=? 102) then Some (c - 87)
  else None.

Definition hex4 (a b c d : Z) : option Z :=
  match hex_value a, hex_value b, hex_value c, hex_value d with
  | Some x, Some y, Some z, Some w => Some (((x * 16 + y) * 16 + z) * 16 + w)
  | _, _, _, _ => None
  end.

(** The code unit a one-letter escape [\e] stands for. *)
Definition simple_escape (e : Z) : option Z :=
  if e =? 34 then Some 34 else if e =? 92 then Some 92 else if e =? 47 then Some 47
  else if e =? 98 then Some 8 else if e =? 102 then Some 12 else if e =? 110 then Some 10
  else if e =? 114 then Some 13 else if e =? 116 then Some 9 else None.

Definition cons_fst (c : Z) (r : option (jsstr * list Z)) : option (jsstr * list Z) :=
  match r with
  | Some (str, rest) => Some (c :: str, rest)
  | None => None
  end.

(** The code units of a JSON string after its opening quote, through the
    closing quote: the string's value and the rest of the input.  A raw
    control character (below [0x20]) is a syntax error. *)
Fixpoint string_body (s : list Z) : option (jsstr * list Z) :=
  match s with
  | [] => None
  | c :: r =>
      if c =? 34 then Some ([], r)
      else if c =? 92 then
        match r with
        | e :: r' =>
            if e =? 117 then
              match r' with
              | h1 :: h2 :: h3 :: h4 :: r'' =>
                  match hex4 h1 h2 h3 h4 with
                  | Some u => cons_fst u (string_body r'')
                  | None => None
                  end
              | _ => None
              end
            else
              match simple_escape e with
              | Some u => cons_fst u (string_body r')
              | None => None
              end
        | [] => None
        end
      else if c <? 32 then None
      else cons_fst c (string_body r)
  end.

(** ** Numbers: [-? (0 | [1-9][0-9]* ) (. [0-9]+)? ([eE] [+-]? [0-9]+)?] *)

Fixpoint span_digits (s : list Z) : list Z * list Z :=
  match s with
  | c :: r =>
      if is_digit c then let (ds, rest) := span_digits r in (c :: ds, rest) else ([], s)
  | [] => ([], [])
  end.

Definition digits1 (s : list Z) : option (list Z * list Z) :=
  match span_digits s with
  | ([], _) => None
  | (ds, rest) => Some (ds, rest)
  end.

Definition number_int (s : list Z) : option (list Z * list Z) :=
  match s with
  | c :: r =>
      if c =? 48 then Some ([c], r)
      else if is_digit c then let (ds, rest) := span_digits r in Some (c :: ds, rest)
      else None
  | [] => None
  end.

Definition number_frac (s : list Z) : option (list Z * list Z) :=
  match s with
  | c :: r =>
      if c =? 46 then
        match digits1 r with
        | Some (ds, rest) => Some (c :: ds, rest)
        | None => None
        end
      else Some ([], s)
  | [] => Some ([], [])
  end.

(** The optional sign of an exponent. *)
Definition exp_sign (s : list Z) : list Z * list Z :=
  match s with
  | d :: r => if (d =? 43) || (d =? 45) then ([d], r) else ([], s)
  | [] => ([], [])
  end.

Definition number_exp (s : list Z) : option (list Z * list Z) :=
  match s with
  | c :: r =>
      if (c =? 101) || (c =? 69) then
        let (sg, r1) := exp_sign r in
        match digits1 r1 with
        | Some (ds, rest) => Some (c :: sg ++ ds, rest)
        | None => None
        end
      else Some ([], s)
  | [] => Some ([], [])
  end.

Definition number_unsigned (s : list Z) : option (list Z * list Z) :=
  match number_int s with
  | Some (i, s2) =>
      match number_frac s2 with
      | Some (f, s3) =>
          match number_exp s3 with
          | Some (e, s4) => Some (i ++ f ++ e, s4)
          | None => None
          end
      | None => None
      end
  | None => None
  end.

Definition number (s : list Z) : option (list Z * list Z) :=
  match s with
  | c :: r =>
      if c =? 45 then
        match number_unsigned r with
        | Some (u, rest) => Some (c :: u, rest)
        | None => None
        end
      else number_unsigned s
  | [] => None
  end.

(** [s] starts with [p]: the rest. *)
Fixpoint prefix (p s : list Z) : option (list Z) :=
  match p, s with
  | [], _ => Some s
  | c :: p', d :: s' => if c =? d then prefix p' s' else None
  | _ :: _, [] => None
  end.

Definition literal (p : list Z) (v : json) (s : list Z) : res :=
  match prefix p s with
  | Some r => Ok v r
  | None => Err
  end.

(** ** Values

    One unit of fuel per call; every call consumes at least one code unit
    before the next, so [S (length text)] units are enough
    ([parse_terminates]).  [parse_members] starts at the opening quote of
    a member's key; [parse_elements] follows an array element. *)

Fixpoint parse_value (fuel : nat) (s : list Z) : res :=
  match fuel with
  | O => NoFuel
  | S f =>
      match skip_ws s with
      | [] => Err
      | c :: r =>
          if c =? 123 then
            match skip_ws r with
            | d :: r' => if d =? 125 then Ok (JObject []) r' else parse_members f (d :: r') []
            | [] => Err
            end
          else if c =? 91 then
            match skip_ws r with
            | d :: r' =>
                if d =? 93 then Ok (JArray []) r'
                else
                  match parse_value f (d :: r') with
                  | Ok v r1 => parse_elements f r1 [v]
                  | Err => Err
                  | NoFuel => NoFuel
                  end
            | [] => Err
            end
          else if c =? 34 then
            match string_body r with
            | Some (str, r') => Ok (JString str) r'
            | None => Err
            end
          else if c =? 116 then literal [114; 117; 101] (JBool true) r
          else if c =? 102 then literal [97; 108; 115; 101] (JBool false) r
          else if c =? 110 then literal [117; 108; 108] JNull r
          else if (c =? 45) || is_digit c then
            match number (c :: r) with
            | Some (lex, r') => Ok (JNumber lex) r'
            | None => Err
            end
          else Err
      end
  end
with parse_members (fuel : nat) (s : list Z) (acc : list (jsstr * json)) : res :=
  match fuel with
  | O => NoFuel
  | S f =>
      match s with
      | c :: r =>
          if c =? 34 then
            match string_body r with
            | Some (key, r1) =>
                match skip_ws r1 with
                | d :: r2 =>
                    if d =? 58 then
                      match parse_value f r2 with
                      | Ok v r3 =>
                          match skip_ws r3 with
                          | e :: r4 =>
                              if e =? 44 then parse_members f (skip_ws r4) (acc ++ [(key, v)])
                              else if e =? 125 then Ok (JObject (acc ++ [(key, v)])) r4
                              else Err
                          | [] => Err
                          end
                      | Err => Err
                      | NoFuel => NoFuel
                      end
                    else Err
                | [] => Err
                end
            | None => Err
            end
          else Err
      | [] => Err
      end
  end
with parse_elements (fuel : nat) (s : list Z) (acc : list json) : res :=
  match fuel with
  | O => NoFuel
  | S f =>
      match skip_ws s with
      | e :: r =>
          if e =? 44 then
            match parse_value f r with
            | Ok v r1 => parse_elements f r1 (acc ++ [v])
            | Err => Err
            | NoFuel => NoFuel
            end
          else if e =? 93 then Ok (JArray acc) r
          else Err
      | [] => Err
      end
  end.


(** ** Every call consumes input *)

(** A result that ran out of fuel is no progress; a value must have
    consumed part of [s]. *)
Definition progress (s : list Z) (x : res) : Prop :=
  match x with
  | Ok _ r => (length r < length s)%nat
  | Err => True
  | NoFuel => False
  end.

Lemma progress_weaken s s' x : (length s' <= length s)%nat -> progress s' x -> progress s x.
Proof. destruct x; cbn; lia || auto. Qed.

Lemma skip_ws_le s : (length (skip_ws s) <= length s)%nat.
Proof. induction s as [|c r IH]; cbn; [lia|]. destruct (is_ws c); cbn; lia. Qed.

Lemma cons_fst_some c x str r :
  cons_fst c x = Some (str, r) -> exists str', x = Some (str', r).
Proof. destruct x as [[? ?]|]; cbn; [intros [= _ <-]; eauto|discriminate]. Qed.

Lemma string_body_lt s str r : string_body s = Some (str, r) -> (length r < length s)%nat.
Proof.
  revert str r. induction s as [s IH] using (induction_ltof1 _ (@length Z)); unfold ltof in IH.
  intros str r. destruct s as [|c s]; cbn [string_body]; [discriminate|].
  destruct (c =? 34); [intros [= _ <-]; cbn; lia|].
  destruct (c =? 92).
  - destruct s as [|e s]; [discriminate|]. destruct (e =? 117).
    + destruct s as [|h1 [|h2 [|h3 [|h4 s]]]]; try discriminate.
      destruct (hex4 h1 h2 h3 h4); [|discriminate].
      intros H. apply cons_fst_some in H as [str' H]. apply IH in H; cbn in *; lia.
    + destruct (simple_escape e); [|discriminate].
      intros H. apply cons_fst_some in H as [str' H]. apply IH in H; cbn in *; lia.
  - destruct (c <? 32); [discriminate|].
    intros H. apply cons_fst_some in H as [str' H]. apply IH in H; cbn in *; lia.
Qed.

Lemma span_digits_app s ds r : span_digits s = (ds, r) -> s = ds ++ r.
Proof.
  revert ds r. induction s as [|c s IH]; cbn; intros ds r; [intros [= <- <-]; reflexivity|].
  destruct (is_digit c); [|intros [= <- <-]; reflexivity].
  destruct (span_digits s) as [ds' r']. intros [= <- <-]. cbn. f_equal. now apply IH.
Qed.

Lemma digits1_app s ds r : digits1 s = Some (ds, r) -> s = ds ++ r.
Proof.
  unfold digits1. destruct (span_digits s) as [[|d ds'] r'] eqn:E; [discriminate|].
  intros [= <- <-]. now apply span_digits_app.
Qed.

Lemma number_int_app s i r : number_int s = Some (i, r) -> s = i ++ r /\ i <> [].
Proof.
  unfold number_int. destruct s as [|c s]; [discriminate|].
  destruct (c =? 48); [intros [= <- <-]; split; [reflexivity|discriminate]|].
  destruct (is_digit c); [|discriminate].
  destruct (span_digits s) as [ds rest] eqn:Es. intros [= <- <-].
  split; [|discriminate]. cbn. f_equal. now apply span_digits_app.
Qed.

Lemma number_frac_app s f r : number_frac s = Some (f, r) -> s = f ++ r.
Proof.
  unfold number_frac. destruct s as [|c s]; [intros [= <- <-]; reflexivity|].
  destruct (c =? 46); [|intros [= <- <-]; reflexivity].
  destruct (digits1 s) as [[ds rest]|] eqn:Ed; [|discriminate]. intros [= <- <-].
  cbn. f_equal. now apply digits1_app.
Qed.

Lemma exp_sign_app s sg r : exp_sign s = (sg, r) -> s = sg ++ r.
Proof.
  unfold exp_sign. destruct s as [|d s]; [intros [= <- <-]; reflexivity|].
  destruct ((d =? 43) || (d =? 45)); intros [= <- <-]; reflexivity.
Qed.

Lemma number_exp_app s e r : number_exp s = Some (e, r) -> s = e ++ r.
Proof.
  unfold number_exp. destruct s as [|c s]; [intros [= <- <-]; reflexivity|].
  destruct ((c =? 101) || (c =? 69)); [|intros [= <- <-]; reflexivity].
  destruct (exp_sign s) as [sg r1] eqn:Es.
  destruct (digits1 r1) as [[ds rest]|] eqn:Ed; [|discriminate]. intros [= <- <-].
  rewrite (exp_sign_app _ _ _ Es), (digits1_app _ _ _ Ed). cbn. now rewrite app_assoc.
Qed.

Lemma number_unsigned_app s u r : number_unsigned s = Some (u, r) -> s = u ++ r /\ u <> [].
Proof.
  unfold number_unsigned.
  destruct (number_int s) as [[i s2]|] eqn:Ei; [|discriminate].
  destruct (number_frac s2) as [[f s3]|] eqn:Ef; [|discriminate].
  destruct (number_exp s3) as [[e s4]|] eqn:Ee; [|discriminate].
  intros [= <- <-]. apply number_int_app in Ei as [-> Hi].
  rewrite (number_frac_app _ _ _ Ef), (number_exp_app _ _ _ Ee), !app_assoc.
  split; [reflexivity|]. destruct i; [congruence|discriminate].
Qed.

Lemma number_lt s lex r : number s = Some (lex, r) -> (length r < length s)%nat.
Proof.
  unfold number. destruct s as [|c s]; [discriminate|].
  assert (Hu : forall s u r, number_unsigned s = Some (u, r) -> (length r < length s)%nat).
  { intros s' u r' H. apply number_unsigned_app in H as [-> Hne].
    rewrite length_app. destruct u; [congruence|cbn; lia]. }
  destruct (c =? 45).
  - destruct (number_unsigned s) as [[u rest]|] eqn:E; [|discriminate].
    intros [= _ <-]. apply Hu in E. cbn. lia.
  - apply Hu.
Qed.

Lemma prefix_app p s r : prefix p s = Some r -> s = p ++ r.
Proof.
  revert s. induction p as [|c p IH]; intros s; cbn; [congruence|].
  destruct s as [|d s]; [discriminate|]. destruct (Z.eqb_spec c d); [|discriminate].
  intros H. subst d. cbn. f_equal. now apply IH.
Qed.

Lemma literal_progress c p v r : progress (c :: r) (literal p v r).
Proof.
  unfold literal. destruct (prefix p r) as [r'|] eqn:E; [|exact I].
  apply prefix_app in E. cbn. rewrite E, length_app. lia.
Qed.


(** With fuel above the length of the input, no parsing function runs
    out of fuel, and each value consumes part of the input. *)
Lemma parse_progress n :
  (forall s, (length s < n)%nat -> progress s (parse_value n s)) /\
  (forall s acc, (length s < n)%nat -> progress s (parse_members n s acc)) /\
  (forall s acc, (length s < n)%nat -> progress s (parse_elements n s acc)).
Proof.
  induction n as [|f (IHv & IHm & IHe)]; [repeat split; intros; lia|].
  split; [|split].
  - intros s Hs. cbn [parse_value]. pose proof (skip_ws_le s) as Hw.
    destruct (skip_ws s) as [|c r]; [exact I|]. cbn [length] in Hw.
    destruct (c =? 123).
    { pose proof (skip_ws_le r) as Hr. destruct (skip_ws r) as [|d r']; [exact I|].
      destruct (d =? 125); [cbn in *; lia|].
      apply (progress_weaken _ (d :: r')); [lia|]. apply IHm. lia. }
    destruct (c =? 91).
    { pose proof (skip_ws_le r) as Hr. destruct (skip_ws r) as [|d r']; [exact I|].
      destruct (d =? 93); [cbn in *; lia|].
      pose proof (IHv (d :: r') ltac:(cbn in *; lia)) as Hv.
      destruct (parse_value f (d :: r')) as [v r1| |]; [|exact I|contradiction].
      cbn in *. apply (progress_weaken _ r1); [lia|]. apply IHe. lia. }
    destruct (c =? 34).
    { destruct (string_body r) as [[str r']|] eqn:E; [|exact I].
      apply string_body_lt in E. cbn. lia. }
    destruct (c =? 116); [apply (progress_weaken _ (c :: r)); [cbn; lia|apply literal_progress]|].
    destruct (c =? 102); [apply (progress_weaken _ (c :: r)); [cbn; lia|apply literal_progress]|].
    destruct (c =? 110); [apply (progress_weaken _ (c :: r)); [cbn; lia|apply literal_progress]|].
    destruct ((c =? 45) || is_digit c); [|exact I].
    destruct (number (c :: r)) as [[lex r']|] eqn:E; [|exact I].
    apply number_lt in E. cbn in *. lia.
  - intros s acc Hs. cbn [parse_members]. destruct s as [|c r]; [exact I|].
    destruct (c =? 34); [|exact I].
    destruct (string_body r) as [[key r1]|] eqn:Eb; [|exact I]. apply string_body_lt in Eb.
    pose proof (skip_ws_le r1) as H1. destruct (skip_ws r1) as [|d r2]; [exact I|].
    destruct (d =? 58); [|exact I].
    pose proof (IHv r2 ltac:(cbn in *; lia)) as Hv.
    destruct (parse_value f r2) as [v r3| |]; [|exact I|contradiction]. cbn in Hv.
    pose proof (skip_ws_le r3) as H3. destruct (skip_ws r3) as [|e r4]; [exact I|].
    destruct (e =? 44).
    + pose proof (skip_ws_le r4) as H4.
      apply (progress_weaken _ (skip_ws r4)); [cbn in *; lia|]. apply IHm. cbn in *; lia.
    + destruct (e =? 125); [cbn in *; lia|exact I].
  - intros s acc Hs. cbn [parse_elements]. pose proof (skip_ws_le s) as Hw.
    destruct (skip_ws s) as [|e r]; [exact I|]. cbn [length] in Hw.
    destruct (e =? 44).
    + pose proof (IHv r ltac:(lia)) as Hv.
      destruct (parse_value f r) as [v r1| |]; [|exact I|contradiction]. cbn in Hv.
      apply (progress_weaken _ r1); [lia|]. apply IHe. lia.
    + destruct (e =? 93); [cbn; lia|exact I].
Qed.


(** ** Parsing what [JSON.stringify] wrote *)

Lemma hex4_escape c :
  0 <= c < 65536 ->
  match hex4 (Json.hex_digit ((c / 4096) mod 16)) (Json.hex_digit ((c / 256) mod 16))
             (Json.hex_digit ((c / 16) mod 16)) (Json.hex_digit (c mod 16)) with
  | Some u => u =? c
  | None => false
  end = true.
Proof. revert c. range_check. Qed.

Lemma string_body_escape c r :
  0 <= c < 65536 -> string_body (Json.unicode_escape c ++ r) = cons_fst c (string_body r).
Proof.
  intros Hc. pose proof (hex4_escape c Hc) as H. unfold Json.unicode_escape.
  cbn [app string_body Z.eqb Pos.eqb]. cbn [andb negb].
  destruct (hex4 _ _ _ _) as [u|]; [|discriminate]. apply Z.eqb_eq in H. now subst u.
Qed.

Lemma string_body_raw c r :
  32 <= c -> c <> 34 -> c <> 92 -> string_body (c :: r) = cons_fst c (string_body r).
Proof.
  intros H1 H2 H3. cbn [string_body].
  rewrite (proj2 (Z.eqb_neq c 34) H2), (proj2 (Z.eqb_neq c 92) H3), (proj2 (Z.ltb_ge c 32) H1).
  reflexivity.
Qed.

Lemma string_body_escape_unit c r :
  0 <= c < 65536 -> string_body (Json.escape_unit c ++ r) = cons_fst c (string_body r).
Proof.
  intros Hc. unfold Json.escape_unit.
  destruct (Z.eqb_spec c 8); [subst; reflexivity|].
  destruct (Z.eqb_spec c 9); [subst; reflexivity|].
  destruct (Z.eqb_spec c 10); [subst; reflexivity|].
  destruct (Z.eqb_spec c 12); [subst; reflexivity|].
  destruct (Z.eqb_spec c 13); [subst; reflexivity|].
  destruct (Z.eqb_spec c 34); [subst; reflexivity|].
  destruct (Z.eqb_spec c 92); [subst; reflexivity|].
  destruct (Z.ltb_spec c 32); [now apply string_body_escape|].
  apply string_body_raw; assumption.
Qed.

(** The body of [QuoteJSONString] reads back as the string it quoted,
    surrogates included. *)
Lemma string_body_quote s r :
  units_ok s = true -> string_body (Json.quote_units s ++ 34 :: r) = Some (s, r).
Proof.
  revert r. induction s as [s IH] using (induction_ltof1 _ (@length Z)); unfold ltof in IH.
  intros r Hs. destruct s as [|c s]; [reflexivity|].
  unfold units_ok in Hs. cbn [forallb] in Hs. apply andb_true_iff in Hs as [Hc Hs].
  unfold unit_ok in Hc. apply andb_true_iff in Hc as [Hc1 Hc2].
  apply Z.leb_le in Hc1. apply Z.ltb_lt in Hc2.
  cbn [Json.quote_units].
  destruct (Json.is_high_surrogate c) eqn:Eh.
  - unfold Json.is_high_surrogate in Eh. apply andb_true_iff in Eh as [Eh1 Eh2].
    apply Z.leb_le in Eh1. apply Z.leb_le in Eh2.
    destruct s as [|c2 s].
    + rewrite string_body_escape by lia. reflexivity.
    + cbn [forallb] in Hs. apply andb_true_iff in Hs as [Hc' Hs].
      destruct (Json.is_low_surrogate c2) eqn:El.
      * unfold Json.is_low_surrogate in El. apply andb_true_iff in El as [El1 El2].
        apply Z.leb_le in El1. apply Z.leb_le in El2.
        cbn [app]. rewrite string_body_raw, string_body_raw by lia.
        rewrite (IH s) by (cbn; lia || exact Hs). reflexivity.
      * rewrite <- app_assoc, string_body_escape by lia.
        rewrite (IH (c2 :: s)) by first [cbn [length]; lia | unfold units_ok; cbn [forallb]; now rewrite Hc', Hs]. reflexivity.
  - destruct (Json.is_low_surrogate c).
    + rewrite <- app_assoc, string_body_escape by lia. rewrite (IH s) by (cbn; lia || exact Hs).
      reflexivity.
    + rewrite <- app_assoc, string_body_escape_unit by lia. rewrite (IH s) by (cbn; lia || exact Hs).
      reflexivity.
Qed.

(** The outcome of [JSON.parse(text)]: a value, or the [SyntaxError] it
    throws. *)
Inductive outcome :=
| Parsed (v : json)
| SyntaxError
| OutOfFuel.

Definition parse (text : list Z) : outcome :=
  match parse_value (S (length text)) text with
  | Ok v rest =>
      match skip_ws rest with
      | [] => Parsed v
      | _ :: _ => SyntaxError
      end
  | Err => SyntaxError
  | NoFuel => OutOfFuel
  end.

(** ** The memo object of a parsed value *)

Fixpoint string_members (ms : list (jsstr * json)) : option (list (jsstr * jsstr)) :=
  match ms with
  | [] => Some []
  | (k, JString v) :: ms' => option_map (cons (k, v)) (string_members ms')
  | _ :: _ => None
  end.

(** An object whose members are all strings, with its properties created
    in text order (a repeated key keeps its first position and its last
    value); [None] for any other value. *)
Definition to_memos (v : json) : option JsObject.t :=
  match v with
  | JObject ms => option_map JsObject.rebuild (string_members ms)
  | _ => None
  end.

(** [JSON.parse] never runs out of fuel: on every text it returns a value
    or throws a [SyntaxError]. *)
Theorem parse_terminates text : parse text <> OutOfFuel.
Proof.
  unfold parse. pose proof (proj1 (parse_progress (S (length text))) text ltac:(lia)) as H.
  destruct (parse_value _ text) as [v r| |]; [|discriminate|contradiction].
  destruct (skip_ws r); discriminate.
Qed.

(** A property [k: v] of the memo object as a parsed member. *)
Definition conv (p : jsstr * jsstr) : jsstr * json := (fst p, JString (snd p)).

Lemma member_units k v rest :
  Json.member (k, v) ++ rest =
  34 :: Json.quote_units k ++ 34 :: 58 :: 34 :: Json.quote_units v ++ 34 :: rest.
Proof. unfold Json.member, Json.quote. cbn [fst snd]. now rewrite <- !app_assoc. Qed.

(** One member [k: v] followed by [rest]. *)
Lemma parse_member_step f k v rest acc :
  units_ok k = true -> units_ok v = true ->
  parse_members (S (S f)) (Json.member (k, v) ++ rest) acc =
  match skip_ws rest with
  | e :: r4 =>
      if e =? 44 then parse_members (S f) (skip_ws r4) (acc ++ [(k, JString v)])
      else if e =? 125 then Ok (JObject (acc ++ [(k, JString v)])) r4
      else Err
  | [] => Err
  end.
Proof.
  intros Hk Hv. rewrite member_units. cbn [parse_members Z.eqb Pos.eqb].
  rewrite string_body_quote by exact Hk. cbn [skip_ws is_ws Z.eqb Pos.eqb orb].
  cbn [parse_value skip_ws is_ws Z.eqb Pos.eqb orb].
  rewrite string_body_quote by exact Hv. reflexivity.
Qed.

Lemma join_members_head p ps : exists t, Json.join_members (p :: ps) = 34 :: t.
Proof. destruct ps; cbn [Json.join_members]; rewrite ?member_units; eexists; reflexivity. Qed.

Lemma valid_cons p o :
  JsObject.valid (p :: o) = true <->
  units_ok (fst p) = true /\ units_ok (snd p) = true /\ JsObject.valid o = true.
Proof. unfold JsObject.valid. cbn [forallb]. rewrite !andb_true_iff. tauto. Qed.

(** The members [JSON.stringify] writes for a non-empty object, then the
    closing brace. *)
Lemma parse_members_join o acc r f :
  o <> [] -> JsObject.valid o = true -> (length o <= f)%nat ->
  parse_members (S f) (Json.join_members o ++ 125 :: r) acc = Ok (JObject (acc ++ map conv o)) r.
Proof.
  revert acc f. induction o as [|[k v] ps IH]; intros acc f Hne Hv Hf; [congruence|].
  apply valid_cons in Hv as (Hk & Hvv & Hv). cbn [fst snd] in Hk, Hvv.
  destruct f as [|f]; [cbn in Hf; lia|].
  destruct ps as [|p' ps].
  - cbn [Json.join_members]. rewrite parse_member_step by assumption.
    cbn [skip_ws is_ws Z.eqb Pos.eqb orb]. reflexivity.
  - change (Json.join_members ((k, v) :: p' :: ps))
      with (Json.member (k, v) ++ [44] ++ Json.join_members (p' :: ps)).
    rewrite <- !app_assoc. rewrite parse_member_step by assumption.
    cbn [app skip_ws is_ws Z.eqb Pos.eqb orb].
    destruct (join_members_head p' ps) as [t Ht]. rewrite Ht. cbn [app skip_ws is_ws Z.eqb Pos.eqb orb].
    rewrite app_comm_cons, <- Ht, IH by (discriminate || assumption || (cbn in *; lia)).
    cbn [map]. now rewrite <- app_assoc.
Qed.

Lemma join_members_length o : (length o <= length (Json.join_members o))%nat.
Proof.
  induction o as [|p [|p' ps] IH]; [cbn; lia| |].
  - destruct p as [k v]. pose proof (f_equal (@length Z) (member_units k v [])) as E.
    rewrite app_nil_r in E. cbn [Json.join_members]. rewrite E. cbn. lia.
  - change (Json.join_members (p :: p' :: ps)) with (Json.member p ++ [44] ++ Json.join_members (p' :: ps)).
    rewrite !length_app. cbn [length] in *. lia.
Qed.

(** [JSON.parse] reads back what [JSON.stringify] wrote for a memo object:
    an object with the same members, as strings, in the same order. *)
Lemma parse_stringify_eq o :
  JsObject.valid o = true -> parse (Json.stringify o) = Parsed (JObject (map conv o)).
Proof.
  intros Hv. destruct o as [|p ps]; [reflexivity|].
  unfold parse, Json.stringify. cbn [length app].
  cbn [parse_value skip_ws is_ws Z.eqb Pos.eqb orb].
  destruct (join_members_head p ps) as [t Ht]. rewrite Ht.
  cbn [app skip_ws is_ws Z.eqb Pos.eqb orb]. rewrite app_comm_cons, <- Ht.
  rewrite parse_members_join by (discriminate || assumption ||
    (pose proof (join_members_length (p :: ps)); rewrite length_app; cbn [length] in *; lia)).
  reflexivity.
Qed.

Lemma string_members_conv o : string_members (map conv o) = Some o.
Proof. induction o as [|[k v] o IH]; [reflexivity|]. cbn. now rewrite IH. Qed.

Lemma stringify_cons o : exists t, Json.stringify o = 123 :: t.
Proof. destruct o; eexists; reflexivity. Qed.

(** Reading back an ordered object of code units gives the object itself. *)
Lemma to_memos_stringify o :
  JsObject.valid o = true -> JsObject.ordered o = true ->
  parse (Json.stringify o) = Parsed (JObject (map conv o)) /\ to_memos (JObject (map conv o)) = Some o.
Proof.
  intros Hv Ho. split; [now apply parse_stringify_eq|].
  cbn [to_memos]. rewrite string_members_conv. cbn [option_map]. f_equal. now apply JsObject.rebuild_ordered.
Qed.

Lemma to_memos_ordered v o : to_memos v = Some o -> JsObject.ordered o = true.
Proof.
  destruct v; cbn [to_memos]; try discriminate.
  destruct (string_members members); cbn [option_map]; [|discriminate].
  intros [= <-]. apply JsObject.ordered_rebuild.
Qed.

End JsonParse.
