(* ===== verification/Grid.v ===== *)
(** * The calendar grid: [renderCalendar]

    [renderCalendar] (src/src/App.jsx, lines 71-103) reads the displayed
    year and month from [currentDate], builds [firstDay] and [lastDay] of
    that month, widens them to the Sunday before ([startDate]) and the
    Saturday after ([endDate]), and walks [dateIterator] from [startDate] to
    [endDate] one [setDate(getDate() + 1)] at a time, pushing one cell per
    day.  A cell carries the React key [formattedDate] (the first ten
    characters of [toISOString()], used for selection and memo lookup), the
    day of the month, and the CSS flags [other-month], [selected],
    [has-memo], [sun] and [sat].

    Every [Date] the function builds, and each [setDate] step, ends with
    [TimeClip]: a date value is [option Z], [None] for an Invalid Date,
    and NaN propagates through the getters into [new Date(...)].  The
    loop's [dateIterator <= endDate] is false when either side is NaN, so
    an invalid [startDate] or [endDate] gives an empty grid.  For an
    offset within one day this happens exactly outside the months from
    May -271821 to August 275760 ([grid_valid_range]).

    The loop is modelled with fuel ([calendar_loop]); [calendar_fuel] is
    enough because a grid has at most 42 days ([grid_size_bounds]).  The
    memo lookup goes through the [MemoStore] interface. *)

From Stdlib Require Import ZArith Lia List Bool.
From Stdlib Require String.
Import String.StringSyntax.
Delimit Scope string_scope with string.
From S2P Require Import Prelude JsString JsDate DateFacts MemoStore.
Import ListNotations JsDate DateFacts.

Open Scope Z_scope.

Module Grid.

(** One [<div className="calendar-date ...">] of the grid. *)
Record cell := mk_cell {
  cell_key : jsstr;
  cell_day : Z;
  cell_other_month : bool;
  cell_selected : bool;
  cell_has_memo : bool;
  cell_sun : bool;
  cell_sat : bool
}.

(** ** The days a grid covers

    For the year and month read from [currentDate]: the day numbers of the
    month's first and last day, of the first cell (the Sunday on or before
    the first) and of the last cell (the Saturday on or after the last). *)

Definition grid_first (year month : Z) : Z := MakeDay (full_year year) month 1.
Definition grid_last (year month : Z) : Z := MakeDay (full_year year) (month + 1) 0.
Definition grid_start (year month : Z) : Z :=
  grid_first year month - week_day (grid_first year month).
Definition grid_end (year month : Z) : Z :=
  grid_last year month + (6 - week_day (grid_last year month)).
Definition grid_size (year month : Z) : nat :=
  Z.to_nat (grid_end year month - grid_start year month + 1).
Definition grid_days (year month : Z) : list Z :=
  zseq (grid_start year month) (grid_size year month).

Lemma grid_first_def year month : MakeDay (full_year year) month 1 = grid_first year month.
Proof. reflexivity. Qed.

Lemma grid_last_def year month : MakeDay (full_year year) (month + 1) 0 = grid_last year month.
Proof. reflexivity. Qed.

Lemma grid_start_def year month :
  grid_first year month + - week_day (grid_first year month) = grid_start year month.
Proof. unfold grid_start. lia. Qed.

Lemma grid_end_def year month :
  grid_last year month + (6 - week_day (grid_last year month)) = grid_end year month.
Proof. reflexivity. Qed.

Lemma grid_days_eq year month :
  grid_days year month = zseq (grid_start year month) (grid_size year month).
Proof. reflexivity. Qed.

(** The number of days of the displayed month. *)
Definition month_length (year month : Z) : Z :=
  days_in_month month (leap_of_year (full_year year)).

Section Days.

Variables (year month : Z).
Hypothesis Hmonth : 0 <= month < 12.

Lemma grid_first_fields :
  year_of_day (grid_first year month) = full_year year /\
  month_of_day (grid_first year month) = month /\ date_of_day (grid_first year month) = 1.
Proof.
  unfold grid_first. destruct (fields_of_MakeDay_1 (full_year year) month) as (A & B & C).
  rewrite Z.div_small, Z.mod_small in * by exact Hmonth. rewrite Z.add_0_r in A. auto.
Qed.

Lemma grid_last_eq :
  grid_last year month = grid_first year month + month_length year month - 1.
Proof.
  unfold grid_last, grid_first, month_length.
  rewrite MakeDay_date, MakeDay_next_month.
  rewrite Z.div_small, Z.mod_small by exact Hmonth. rewrite Z.add_0_r. lia.
Qed.

Lemma month_length_range : 28 <= month_length year month <= 31.
Proof.
  unfold month_length. rewrite <- (Z.mod_small month 12) by exact Hmonth.
  apply days_in_month_bounds.
Qed.

Lemma grid_last_fields :
  year_of_day (grid_last year month) = full_year year /\
  month_of_day (grid_last year month) = month /\
  date_of_day (grid_last year month) = month_length year month.
Proof.
  pose proof month_length_range.
  assert (E : grid_last year month = MakeDay (full_year year) month (month_length year month)).
  { rewrite grid_last_eq. unfold grid_first. rewrite (MakeDay_date _ _ (month_length _ _)). lia. }
  rewrite E. apply fields_of_MakeDay; [exact Hmonth|]. unfold month_length in *. lia.
Qed.

Lemma grid_span :
  grid_end year month - grid_start year month + 1 =
  week_day (grid_first year month) + month_length year month +
  (6 - week_day (grid_last year month)).
Proof. unfold grid_end, grid_start. rewrite grid_last_eq. lia. Qed.

Lemma grid_size_bounds :
  28 <= Z.of_nat (grid_size year month) <= 43 /\
  Z.of_nat (grid_size year month) = grid_end year month - grid_start year month + 1.
Proof.
  unfold grid_size. rewrite grid_span. pose proof month_length_range.
  pose proof (week_day_range (grid_first year month)).
  pose proof (week_day_range (grid_last year month)). lia.
Qed.

Lemma grid_start_sunday : week_day (grid_start year month) = 0.
Proof. apply week_day_sunday. Qed.

Lemma grid_end_saturday : week_day (grid_end year month) = 6.
Proof. apply week_day_saturday. Qed.

Lemma grid_size_weeks : Z.of_nat (grid_size year month) mod 7 = 0.
Proof.
  destruct grid_size_bounds as [_ ->].
  pose proof grid_start_sunday. pose proof grid_end_saturday.
  unfold week_day in *. Z.div_mod_to_equations. lia.
Qed.

(** The grid is the trailing days of the previous month, the whole month,
    and the leading days of the next month. *)
Lemma grid_split :
  grid_days year month =
  zseq (grid_start year month) (Z.to_nat (week_day (grid_first year month))) ++
  zseq (grid_first year month) (Z.to_nat (month_length year month)) ++
  zseq (grid_first year month + month_length year month)
       (Z.to_nat (6 - week_day (grid_last year month))).
Proof.
  pose proof month_length_range. pose proof (week_day_range (grid_first year month)).
  pose proof (week_day_range (grid_last year month)).
  unfold grid_days, grid_size. rewrite grid_span.
  rewrite Z2Nat.inj_add, Z2Nat.inj_add, !zseq_app by lia.
  rewrite <- app_assoc. f_equal. f_equal; f_equal; unfold grid_start; lia.
Qed.

Lemma grid_next_month :
  MakeDay (full_year year) (month + 1) 1 = grid_first year month + month_length year month.
Proof.
  unfold grid_first, month_length. rewrite MakeDay_next_month.
  now rewrite Z.div_small, Z.mod_small, Z.add_0_r by exact Hmonth.
Qed.

(** Which grid days lie in the displayed month. *)
Lemma grid_day_month d :
  In d (grid_days year month) ->
  (month_of_day d =? month) =
  (grid_first year month <=? d) && (d <? grid_first year month + month_length year month).
Proof.
  intros Hd. pose proof month_length_range.
  pose proof grid_size_bounds as [_ Hn]. unfold grid_days in Hd. apply in_zseq in Hd.
  rewrite Hn in Hd. pose proof grid_span as Hs. pose proof grid_next_month as Hnx.
  pose proof (week_day_range (grid_first year month)).
  pose proof (week_day_range (grid_last year month)). unfold grid_start in *.
  destruct (Z.ltb_spec d (grid_first year month)) as [Hlt|Hge].
  - (* the previous month *)
    pose proof (MakeDay_next_month (full_year year) (month - 1)) as Hp.
    replace (month - 1 + 1) with month in Hp by lia. fold (grid_first year month) in Hp.
    pose proof (days_in_month_bounds (full_year year + (month - 1) / 12) (month - 1)).
    destruct (fields_in_month (full_year year) (month - 1) d) as (_ & Hm & _).
    { replace (month - 1 + 1) with month by lia. unfold grid_first in *. lia. }
    rewrite Hm. replace (grid_first year month <=? d) with false
      by (symmetry; apply Z.leb_gt; exact Hlt). cbn [andb].
    apply Z.eqb_neq. Z.div_mod_to_equations. lia.
  - destruct (Z.ltb_spec d (grid_first year month + month_length year month)) as [Hin|Hout].
    + destruct (fields_in_month (full_year year) month d) as (_ & Hm & _);
        [rewrite Hnx; unfold grid_first in *; lia|].
      rewrite Hm, Z.mod_small by exact Hmonth. rewrite Z.eqb_refl.
      symmetry. apply andb_true_iff. split; [apply Z.leb_le|]; lia.
    + pose proof (MakeDay_next_month (full_year year) (month + 1)) as Hp.
      replace (month + 1 + 1) with (month + 2) in Hp by lia.
      pose proof (days_in_month_bounds (full_year year + (month + 1) / 12) (month + 1)).
      destruct (fields_in_month (full_year year) (month + 1) d) as (_ & Hm & _).
      { replace (month + 1 + 1) with (month + 2) by lia. unfold grid_start in *. lia. }
      rewrite Hm. rewrite andb_false_r.
      apply Z.eqb_neq. Z.div_mod_to_equations. lia.
Qed.

Lemma grid_day_date d :
  grid_first year month <= d < grid_first year month + month_length year month ->
  date_of_day d = d - grid_first year month + 1.
Proof.
  intros Hd. pose proof grid_next_month.
  destruct (fields_in_month (full_year year) month d) as (_ & _ & Hdt); [unfold grid_first in *; lia|].
  exact Hdt.
Qed.

(** Every grid day lies between the first day of the previous year and
    the first day of the year after the next. *)
Lemma grid_days_years d :
  In d (grid_days year month) ->
  DayFromYear (full_year year - 1) <= d - 1 /\ d < DayFromYear (full_year year + 2).
Proof.
  intros Hd. unfold grid_days in Hd. apply in_zseq in Hd.
  destruct grid_size_bounds as [_ Hn]. rewrite Hn in Hd.
  pose proof grid_next_month as Hnx. pose proof grid_span as Hs.
  pose proof (week_day_range (grid_first year month)).
  pose proof (week_day_range (grid_last year month)).
  pose proof (leap_of_year_range (full_year year)) as Hl.
  pose proof (month_lengths _ _ Hl Hmonth) as Hml.
  pose proof (DayFromYear_succ (full_year year - 1)) as Y0.
  pose proof (DayFromYear_succ (full_year year)) as Y1.
  pose proof (DayFromYear_succ (full_year year + 1)) as Y2.
  pose proof (DaysInYear_cases (full_year year - 1)).
  pose proof (DaysInYear_cases (full_year year + 1)).
  rewrite DaysInYear_leap in Y1.
  replace (full_year year - 1 + 1) with (full_year year) in Y0 by lia.
  replace (full_year year + 1 + 1) with (full_year year + 2) in Y2 by lia.
  assert (Hf : grid_first year month =
               DayFromYear (full_year year) + month_start month (leap_of_year (full_year year)))
    by (unfold grid_first; rewrite MakeDay_small by exact Hmonth; lia).
  unfold month_length, days_in_month, grid_start in *. lia.
Qed.

End Days.

Section Render.

Context (tz : Z) {M : Type} `{MemoStore M}.

(** [dateIterator.toISOString().slice(0, 10)]. *)
Definition formatted_date (dateIterator : Z) : jsstr :=
  JsString.slice 0 10 (toISOString dateIterator).

(** [dateIterator.setDate(dateIterator.getDate() + 1)]: the next value of
    the iterator, NaN ([None]) past the range of time values, since
    [setDate] ends with [TimeClip]. *)
Definition next_day (dateIterator : Z) : option Z :=
  TimeClip (setDate tz dateIterator (getDate tz dateIterator + 1)).

(** The body of the [while] loop for the current [dateIterator]. *)
Definition make_cell (month : Z) (selectedDate : option jsstr) (memos : M)
    (dateIterator : Z) : cell :=
  let formattedDate := formatted_date dateIterator in
  let isSunday := getDay tz dateIterator =? 0 in
  let isSaturday := getDay tz dateIterator =? 6 in
  {| cell_key := formattedDate;
     cell_day := getDate tz dateIterator;
     cell_other_month := negb (getMonth tz dateIterator =? month);
     cell_selected := strict_eq_opt selectedDate formattedDate;
     cell_has_memo := truthy (ms_get memos formattedDate);
     cell_sun := isSunday;
     cell_sat := isSaturday |}.

(** [while (dateIterator <= endDate) { calendar.push(...);
    dateIterator.setDate(dateIterator.getDate() + 1); }]; [None] when the
    fuel runs out.  A comparison with NaN is false, so the loop stops as
    soon as the iterator or [endDate] is an Invalid Date. *)
Fixpoint calendar_loop (fuel : nat) (month : Z) (selectedDate : option jsstr)
    (memos : M) (dateIterator endDate : option Z) : option (list cell) :=
  match fuel with
  | O => None
  | S fuel' =>
      match dateIterator, endDate with
      | Some it, Some e =>
          if it <=? e then
            match calendar_loop fuel' month selectedDate memos (next_day it) endDate with
            | Some rest => Some (make_cell month selectedDate memos it :: rest)
            | None => None
            end
          else Some []
      | _, _ => Some []
      end
  end.

Definition calendar_fuel : nat := 64.

Definition renderCalendar (currentDate : Z) (selectedDate : option jsstr) (memos : M)
    : option (list cell) :=
  let year := getFullYear tz currentDate in
  let month := getMonth tz currentDate in
  let firstDay := TimeClip (new_date tz year month 1) in
  let lastDay := TimeClip (new_date tz year (month + 1) 0) in
  let startDate :=
    match firstDay with
    | Some firstDay =>
        TimeClip (new_date tz (getFullYear tz firstDay) (getMonth tz firstDay)
                    (getDate tz firstDay - getDay tz firstDay))
    | None => None
    end in
  let endDate :=
    match lastDay with
    | Some lastDay =>
        TimeClip (new_date tz (getFullYear tz lastDay) (getMonth tz lastDay)
                    (getDate tz lastDay + (6 - getDay tz lastDay)))
    | None => None
    end in
  calendar_loop calendar_fuel month selectedDate memos startDate endDate.

(** The cell [renderCalendar] builds for the day numbered [d]: the one
    whose [dateIterator] is local midnight of [d]. *)
Definition cell_of_day (month : Z) (sel : option jsstr) (memos : M) (d : Z) : cell :=
  make_cell month sel memos (UTC tz (MakeDate d 0)).

(** Whether local midnight of the day numbered [d] is a valid time
    value, which [TimeClip] keeps. *)
Definition day_valid (d : Z) : bool := Z.abs (UTC tz (MakeDate d 0)) <=? maxTime.

(** Whether the four dates [renderCalendar] builds for the month of
    [currentDate] ([firstDay], [lastDay], [startDate], [endDate]) are valid
    time values. *)
Definition grid_valid (currentDate : Z) : bool :=
  let year := getFullYear tz currentDate in
  let month := getMonth tz currentDate in
  day_valid (grid_first year month) && day_valid (grid_last year month) &&
  day_valid (grid_start year month) && day_valid (grid_end year month).

(** Whether the displayed month lies between May of the year -271821 and
    August of the year 275760, by month index. *)
Definition grid_in_range (currentDate : Z) : bool :=
  let i := full_year (getFullYear tz currentDate) * 12 + getMonth tz currentDate in
  (first_index <=? i) && (i <? last_index).

Lemma day_valid_spec d : day_valid d = true <-> Z.abs (UTC tz (MakeDate d 0)) <= maxTime.
Proof. apply Z.leb_le. Qed.

Lemma TimeClip_day d :
  TimeClip (UTC tz (MakeDate d 0)) = if day_valid d then Some (UTC tz (MakeDate d 0)) else None.
Proof. reflexivity. Qed.

(** ** The loop *)

Lemma calendar_loop_nan fuel month sel memos endDate :
  calendar_loop (S fuel) month sel memos None endDate = Some [].
Proof. reflexivity. Qed.

Lemma calendar_loop_nan_end fuel month sel memos it :
  calendar_loop (S fuel) month sel memos it None = Some [].
Proof. destruct it; reflexivity. Qed.

(** With enough fuel, the loop visits [n] consecutive days when [endDate]
    lies in the [n]-th day from [dateIterator] and both are valid time
    values; the step past [endDate] may leave the range and give NaN,
    which ends the loop just as well. *)
Lemma calendar_loop_run fuel n month sel memos it endDate :
  (n < fuel)%nat -> - maxTime <= it -> endDate <= maxTime ->
  it + (Z.of_nat n - 1) * msPerDay <= endDate < it + Z.of_nat n * msPerDay ->
  calendar_loop fuel month sel memos (Some it) (Some endDate) =
  Some (map (fun i => make_cell month sel memos (it + i * msPerDay)) (zseq 0 n)).
Proof.
  revert fuel it. induction n as [|n IH]; intros fuel it Hf Hlo Hhi Hend;
    destruct fuel as [|fuel]; try lia; cbn [calendar_loop]; unfold msPerDay in *.
  - replace (it <=? endDate) with false by (symmetry; apply Z.leb_gt; lia). reflexivity.
  - replace (it <=? endDate) with true by (symmetry; apply Z.leb_le; lia).
    unfold next_day. rewrite setDate_next.
    destruct (TimeClip _) as [it'|] eqn:Hc.
    + apply TimeClip_some in Hc as ->. rewrite (IH fuel) by (unfold msPerDay in *; lia).
      rewrite zseq_S. cbn [map]. f_equal. f_equal; [f_equal; lia|].
      rewrite map_zseq_shift. apply map_ext. intros i. f_equal. unfold msPerDay. lia.
    + assert (n = 0%nat) as ->.
      { unfold TimeClip in Hc. destruct (Z.leb_spec (Z.abs (it + msPerDay)) maxTime); [discriminate|].
        unfold msPerDay in *. lia. }
      destruct fuel as [|fuel]; [lia|]. rewrite calendar_loop_nan. cbn. do 3 f_equal. lia.
Qed.

(** ** What [renderCalendar] computes *)

Lemma getMonth_range t : 0 <= getMonth tz t < 12.
Proof. apply month_of_day_range. Qed.

(** [renderCalendar] terminates; when the four dates it builds are valid
    it produces one cell per day of [grid_days], in increasing order, each
    built at local midnight, and otherwise no cell. *)
Lemma renderCalendar_cases currentDate sel memos :
  renderCalendar currentDate sel memos =
  if grid_valid currentDate
  then Some (map (cell_of_day (getMonth tz currentDate) sel memos)
                 (grid_days (getFullYear tz currentDate) (getMonth tz currentDate)))
  else Some [].
Proof.
  unfold renderCalendar, grid_valid. cbv zeta.
  set (year := getFullYear tz currentDate). set (month := getMonth tz currentDate).
  pose proof (getMonth_range currentDate) as Hm. fold month in Hm.
  rewrite (new_date_eq tz year month 1), (new_date_eq tz year (month + 1) 0).
  rewrite grid_first_def, grid_last_def, !TimeClip_day.
  destruct (day_valid (grid_first year month)) eqn:F; [|reflexivity].
  destruct (day_valid (grid_last year month)) eqn:L; lazy beta iota;
    [|cbn [andb]; apply calendar_loop_nan_end].
  autorewrite with js_rw.
  destruct (grid_first_fields year month Hm) as (Fy & _ & _).
  destruct (grid_last_fields year month Hm) as (Ly & _ & _).
  rewrite <- Z.add_opp_r.
  rewrite !new_date_fields by (rewrite ?Fy, ?Ly; apply full_year_large).
  rewrite grid_end_def, grid_start_def, !TimeClip_day.
  destruct (day_valid (grid_start year month)) eqn:S; [|apply calendar_loop_nan].
  destruct (day_valid (grid_end year month)) eqn:E; [|apply calendar_loop_nan_end].
  cbn [andb]. apply day_valid_spec in S, E.
  destruct (grid_size_bounds year month Hm) as [Hb Hn].
  rewrite (calendar_loop_run _ (grid_size year month))
    by (unfold calendar_fuel; try lia; unfold UTC, MakeDate, msPerDay in *; lia).
  f_equal. unfold grid_days. rewrite (map_zseq_0 _ (grid_start year month)).
  apply map_ext. intros i. unfold cell_of_day. f_equal. unfold UTC, MakeDate. lia.
Qed.

(** A grid has either no cell or the cells of [grid_days]. *)
Lemma render_cells currentDate sel memos cells :
  renderCalendar currentDate sel memos = Some cells ->
  cells = [] \/
  map (cell_of_day (getMonth tz currentDate) sel memos)
    (grid_days (getFullYear tz currentDate) (getMonth tz currentDate)) = cells.
Proof. rewrite renderCalendar_cases. destruct (grid_valid currentDate); intros [= <-]; auto. Qed.

Ltac render_cells Hr := apply render_cells in Hr as [->|<-].

(** ** The range of the grid *)

Lemma day_valid_in d :
  - msPerDay < tz < msPerDay -> -100000000 < d < 100000000 -> day_valid d = true.
Proof. intros. unfold day_valid, UTC, MakeDate, maxTime, msPerDay in *. apply Z.leb_le. lia. Qed.

Lemma day_valid_out d :
  - msPerDay < tz < msPerDay -> 100000000 < Z.abs d -> day_valid d = false.
Proof. intros. unfold day_valid, UTC, MakeDate, maxTime, msPerDay in *. apply Z.leb_gt. lia. Qed.

Lemma grid_first_index year month :
  grid_first year month = first_day (full_year year * 12 + month).
Proof. apply MakeDay_index. Qed.

Lemma grid_last_index year month :
  0 <= month < 12 -> grid_last year month = first_day (full_year year * 12 + month + 1) - 1.
Proof.
  intros Hm. rewrite grid_last_eq by exact Hm. rewrite <- (grid_next_month year month Hm).
  rewrite MakeDay_index, Z.add_assoc. lia.
Qed.

(** For an offset within one day, the four dates are valid exactly for
    the months from May -271821 to August 275760: below, [firstDay] is an
    Invalid Date; from September 275760 on, [lastDay] is. *)
Lemma grid_valid_range currentDate :
  - msPerDay < tz < msPerDay -> grid_valid currentDate = grid_in_range currentDate.
Proof.
  intros Htz. unfold grid_valid, grid_in_range. cbv zeta.
  set (year := getFullYear tz currentDate). set (month := getMonth tz currentDate).
  pose proof (getMonth_range currentDate) as Hm. fold month in Hm.
  pose proof (grid_first_index year month) as GF. pose proof (grid_last_index year month Hm) as GL.
  pose proof (week_day_range (grid_first year month)). pose proof (week_day_range (grid_last year month)).
  unfold grid_start, grid_end.
  set (i := full_year year * 12 + month) in *. destruct first_day_ends as (A & B & C & D).
  destruct (Z.leb_spec first_index i), (Z.ltb_spec i last_index); cbn [andb].
  - pose proof (first_day_le first_index i ltac:(lia)). pose proof (first_day_le (i + 1) last_index ltac:(lia)).
    pose proof (first_day_le i (i + 1) ltac:(lia)).
    rewrite !day_valid_in by lia. reflexivity.
  - pose proof (first_day_le (last_index + 1) (i + 1) ltac:(lia)).
    rewrite (day_valid_out (grid_last year month)) by lia. now rewrite andb_false_r.
  - pose proof (first_day_le i (first_index - 1) ltac:(lia)).
    rewrite (day_valid_out (grid_first year month)) by lia. reflexivity.
  - unfold first_index, last_index in *. lia.
Qed.

(** Within the range, the grid is the cells of [grid_days]. *)
Lemma render_cells_range currentDate sel memos cells :
  - msPerDay < tz < msPerDay -> grid_in_range currentDate = true ->
  renderCalendar currentDate sel memos = Some cells ->
  map (cell_of_day (getMonth tz currentDate) sel memos)
    (grid_days (getFullYear tz currentDate) (getMonth tz currentDate)) = cells.
Proof.
  intros Htz Hin. rewrite renderCalendar_cases, grid_valid_range, Hin by exact Htz. congruence.
Qed.

Lemma formatted_date_key t : formatted_date t = day_key (Day t).
Proof. apply slice_toISOString. Qed.

(** The keys on the page depend only on [currentDate]. *)
Lemma render_calendar_keys currentDate sel memos :
  option_map (map cell_key) (renderCalendar currentDate sel memos) =
  Some (if grid_valid currentDate
        then map (fun d => formatted_date (UTC tz (MakeDate d 0)))
                 (grid_days (getFullYear tz currentDate) (getMonth tz currentDate))
        else []).
Proof.
  rewrite renderCalendar_cases. destruct (grid_valid currentDate); cbn [option_map]; [|reflexivity].
  now rewrite map_map.
Qed.

(** Every key on the page is the ISO date of some day. *)
Lemma render_cell_keys currentDate sel memos cells c :
  renderCalendar currentDate sel memos = Some cells -> In c cells -> exists d, cell_key c = day_key d.
Proof.
  intros Hr Hc. render_cells Hr; [destruct Hc|]. apply in_map_iff in Hc as (d & <- & _).
  exists (Day (UTC tz (MakeDate d 0))). unfold cell_of_day, make_cell, formatted_date.
  cbn [cell_key]. apply slice_toISOString.
Qed.

(** C1: [renderCalendar] always returns (the [while] loop never exhausts its
    fuel).  For an offset within one day and a displayed month from May
    -271821 to August 275760, its cells are those of the days of
    [grid_days], from the Sunday on or before the first of the month to the
    Saturday on or after its last day, in increasing order, each built from
    its local midnight; outside these months one of the dates it builds is
    an Invalid Date and the grid is empty. *)
Theorem render_calendar_days currentDate sel memos :
  - msPerDay < tz < msPerDay ->
  renderCalendar currentDate sel memos =
  if grid_in_range currentDate
  then Some (map (cell_of_day (getMonth tz currentDate) sel memos)
                 (grid_days (getFullYear tz currentDate) (getMonth tz currentDate)))
  else Some [].
Proof. intros Htz. rewrite renderCalendar_cases, grid_valid_range by exact Htz. reflexivity. Qed.

(** One step of the loop moves the iterator by exactly one day (86,400,000
    milliseconds), whatever its time of day and month, as long as the
    next day is a valid time value. *)
Theorem next_day_advances dateIterator :
  - maxTime <= dateIterator + msPerDay <= maxTime ->
  next_day dateIterator = Some (dateIterator + msPerDay).
Proof.
  intros Hr. unfold next_day. rewrite setDate_next. unfold TimeClip.
  now rewrite (proj2 (Z.leb_le _ _)) by lia.
Qed.

(** For UTC years [0] to [9999], two time values get the same
    [formattedDate] exactly when they fall on the same UTC day. *)
Theorem formatted_date_same_day t1 t2 :
  0 <= YearFromTime t1 <= 9999 -> 0 <= YearFromTime t2 <= 9999 ->
  formatted_date t1 = formatted_date t2 <-> Day t1 = Day t2.
Proof.
  intros H1 H2. unfold formatted_date. rewrite !slice_toISOString.
  split; [|now intros ->]. apply day_key_inj; assumption.
Qed.

(** The key of a cell is the ISO date of the UTC day its local midnight
    falls in. *)
Lemma cell_key_of_day month sel memos d :
  - msPerDay < tz < msPerDay ->
  cell_key (cell_of_day month sel memos d) = day_key (d - utc_shift tz).
Proof.
  intros Htz. unfold cell_of_day, make_cell, formatted_date. cbn [cell_key].
  now rewrite slice_toISOString, day_utc_midnight.
Qed.

Lemma cell_month_of_day month sel memos d :
  cell_other_month (cell_of_day month sel memos d) = negb (month_of_day d =? month).
Proof. unfold cell_of_day, make_cell. cbn [cell_other_month]. now rewrite getMonth_midnight. Qed.

Lemma cell_day_of_day month sel memos d :
  cell_day (cell_of_day month sel memos d) = date_of_day d.
Proof. unfold cell_of_day, make_cell. cbn [cell_day]. now rewrite getDate_midnight. Qed.

Lemma cell_sun_of_day month sel memos d :
  cell_sun (cell_of_day month sel memos d) = (week_day d =? 0).
Proof. unfold cell_of_day, make_cell. cbn [cell_sun]. now rewrite getDay_midnight. Qed.

Lemma cell_sat_of_day month sel memos d :
  cell_sat (cell_of_day month sel memos d) = (week_day d =? 6).
Proof. unfold cell_of_day, make_cell. cbn [cell_sat]. now rewrite getDay_midnight. Qed.

(** C18: For an offset within one day and a displayed month from May
    -271821 to August 275760, [renderCalendar] returns whole weeks: a
    multiple of seven cells, between four and six weeks. *)
Theorem grid_whole_weeks currentDate sel memos cells :
  - msPerDay < tz < msPerDay -> grid_in_range currentDate = true ->
  renderCalendar currentDate sel memos = Some cells ->
  Z.of_nat (length cells) mod 7 = 0 /\ 28 <= Z.of_nat (length cells) <= 42.
Proof.
  intros Htz Hin Hr. apply render_cells_range in Hr as <-; [|exact Htz|exact Hin]. rewrite length_map, grid_days_eq, length_zseq.
  pose proof (getMonth_range currentDate) as Hm.
  pose proof (grid_size_weeks (getFullYear tz currentDate) _ Hm).
  destruct (grid_size_bounds (getFullYear tz currentDate) _ Hm) as [Hb _].
  split; [assumption|]. Z.div_mod_to_equations. lia.
Qed.

(** C4: For an offset within one day and a displayed month from May
    -271821 to August 275760, the cells not marked [other-month] are
    exactly the days of the displayed month, once each and in order: their
    day numbers are [1, 2, ..., month_length]. *)
Theorem grid_month_days currentDate sel memos cells :
  - msPerDay < tz < msPerDay -> grid_in_range currentDate = true ->
  renderCalendar currentDate sel memos = Some cells ->
  map cell_day (filter (fun c => negb (cell_other_month c)) cells) =
  zseq 1 (Z.to_nat (month_length (getFullYear tz currentDate) (getMonth tz currentDate))).
Proof.
  intros Htz Hin Hr. apply render_cells_range in Hr as <-; [|exact Htz|exact Hin].
  pose proof (getMonth_range currentDate) as Hm.
  remember (getFullYear tz currentDate) as year eqn:Ey.
  remember (getMonth tz currentDate) as month eqn:Em.
  rewrite filter_map_comm, map_map.
  rewrite (filter_ext_in _ (fun d => (grid_first year month <=? d) &&
                                     (d <? grid_first year month + month_length year month)))
    by (intros d Hd; rewrite cell_month_of_day, Bool.negb_involutive;
        exact (grid_day_month year month Hm d Hd)).
  pose proof (month_length_range year month Hm).
  pose proof (week_day_range (grid_first year month)).
  rewrite grid_split by exact Hm. rewrite !filter_app.
  rewrite (filter_all_false _ (zseq (grid_start _ _) _)), (filter_all_true _ (zseq (grid_first _ _) _)),
    (filter_all_false _ (zseq (_ + _) _));
    try (intros d Hd; apply in_zseq in Hd; rewrite <- ?grid_start_def in Hd;
         rewrite ?andb_true_iff, ?andb_false_iff, ?Z.leb_le, ?Z.ltb_lt, ?Z.leb_gt, ?Z.ltb_ge; lia).
  rewrite app_nil_l, app_nil_r.
  rewrite (map_ext_in _ (fun d => d - grid_first year month + 1)).
  - rewrite map_zseq_0, (zseq_shift_0 1). apply map_ext. intros i. lia.
  - intros d Hd. apply in_zseq in Hd. rewrite cell_day_of_day.
    apply grid_day_date; [exact Hm|lia].
Qed.


(** The weekday of the [i]-th cell is [i mod 7]. *)
Lemma weekday_columns currentDate sel memos cells :
  renderCalendar currentDate sel memos = Some cells ->
  forall i c, nth_error cells i = Some c ->
  cell_sun c = (Z.of_nat i mod 7 =? 0) /\ cell_sat c = (Z.of_nat i mod 7 =? 6).
Proof.
  intros Hr i c Hc. render_cells Hr; [destruct i; discriminate|]. rewrite grid_days_eq, nth_error_map in Hc.
  destruct (Nat.lt_ge_cases i (grid_size (getFullYear tz currentDate) (getMonth tz currentDate)))
    as [Hi|Hi]; [|rewrite (proj2 (nth_error_None _ _)) in Hc by (rewrite length_zseq; lia);
                  discriminate].
  rewrite nth_error_zseq in Hc by exact Hi. injection Hc as <-.
  rewrite cell_sun_of_day, cell_sat_of_day.
  rewrite week_day_offset by (apply grid_start_sunday; apply getMonth_range). auto.
Qed.

(** C19: The grid's columns line up with the header row [일 월 화 수 목 금 토]:
    the [i]-th cell is a Sunday exactly when [i] is a multiple of seven and
    a Saturday exactly when [i mod 7 = 6]. *)
Theorem grid_weekday_columns currentDate sel memos cells :
  renderCalendar currentDate sel memos = Some cells ->
  forall i c, nth_error cells i = Some c ->
  cell_sun c = (Z.of_nat i mod 7 =? 0) /\ cell_sat c = (Z.of_nat i mod 7 =? 6).
Proof. exact (weekday_columns currentDate sel memos cells). Qed.

(** C5: For a displayed month from May -271821 to August 275760, east of
    Greenwich ([tz > 0]) every cell carries the key of the day before it;
    at Greenwich and west of it the key of its own day. *)
Theorem grid_keys currentDate sel memos cells :
  - msPerDay < tz < msPerDay -> grid_in_range currentDate = true ->
  renderCalendar currentDate sel memos = Some cells ->
  map cell_key cells =
  map (fun d => day_key (d - utc_shift tz))
      (grid_days (getFullYear tz currentDate) (getMonth tz currentDate)).
Proof.
  intros Htz Hin Hr. apply render_cells_range in Hr as <-; [|exact Htz|exact Hin]. rewrite map_map. apply map_ext. intros d.
  now apply cell_key_of_day.
Qed.

(** The keys of the page are pairwise distinct for years [1] to [9998]. *)
Lemma cell_keys_NoDup currentDate sel memos cells :
  - msPerDay < tz < msPerDay ->
  1 <= full_year (getFullYear tz currentDate) <= 9998 ->
  renderCalendar currentDate sel memos = Some cells ->
  NoDup (map cell_key cells).
Proof.
  intros Htz Hy Hr. render_cells Hr; [constructor|]. rewrite map_map.
  apply NoDup_map_NoDup_ForallPairs; [|apply NoDup_zseq].
  intros d1 d2 H1 H2 E. rewrite !cell_key_of_day in E by exact Htz.
  pose proof (getMonth_range currentDate) as Hm.
  destruct (grid_days_years _ _ Hm d1 H1), (grid_days_years _ _ Hm d2 H2).
  assert (Hs : 0 <= utc_shift tz <= 1) by (unfold utc_shift; destruct (0 <? tz); lia).
  pose proof (year_of_day_bounds (full_year (getFullYear tz currentDate) - 1)
                (full_year (getFullYear tz currentDate) + 2) (d1 - utc_shift tz)).
  pose proof (year_of_day_bounds (full_year (getFullYear tz currentDate) - 1)
                (full_year (getFullYear tz currentDate) + 2) (d2 - utc_shift tz)).
  pose proof (DayFromYear_lt (full_year (getFullYear tz currentDate) - 1)).
  apply day_key_inj in E; lia.
Qed.

(** C6: For displayed years [1] to [9998] no two cells share a key (React's
    [key] of the pushed [div]s is unique), whatever the offset. *)
Theorem grid_keys_distinct currentDate sel memos cells :
  - msPerDay < tz < msPerDay ->
  1 <= full_year (getFullYear tz currentDate) <= 9998 ->
  renderCalendar currentDate sel memos = Some cells ->
  NoDup (map cell_key cells).
Proof. exact (cell_keys_NoDup currentDate sel memos cells). Qed.

(** C33: Outside years [0] to [9999] (at Greenwich or west of it) every cell of
    the displayed month carries the same key, so the whole month is
    selected together and shares one memo. *)
Theorem grid_keys_collide currentDate sel memos cells :
  - msPerDay < tz <= 0 ->
  ~ (0 <= full_year (getFullYear tz currentDate) <= 9999) ->
  renderCalendar currentDate sel memos = Some cells ->
  forall c1 c2, In c1 cells -> In c2 cells ->
  cell_other_month c1 = false -> cell_other_month c2 = false ->
  cell_key c1 = cell_key c2.
Proof.
  intros Htz Hy Hr c1 c2 H1 H2 O1 O2. render_cells Hr; [destruct H1|].
  apply in_map_iff in H1 as (d1 & <- & H1). apply in_map_iff in H2 as (d2 & <- & H2).
  pose proof (getMonth_range currentDate) as Hm.
  assert (Hs : utc_shift tz = 0) by (unfold utc_shift; destruct (Z.ltb_spec 0 tz); lia).
  rewrite !cell_key_of_day, Hs, !Z.sub_0_r by (unfold msPerDay in *; lia).
  rewrite cell_month_of_day in O1, O2.
  apply negb_false_iff in O1, O2.
  rewrite (grid_day_month (getFullYear tz currentDate) _ Hm d1 H1) in O1.
  rewrite (grid_day_month (getFullYear tz currentDate) _ Hm d2 H2) in O2.
  apply andb_true_iff in O1 as [O1 O1']. apply andb_true_iff in O2 as [O2 O2'].
  rewrite Z.leb_le in O1, O2. rewrite Z.ltb_lt in O1', O2'.
  pose proof (grid_next_month (getFullYear tz currentDate) _ Hm) as Hnx.
  rewrite <- grid_first_def in O1, O1', O2, O2'.
  destruct (fields_in_month (full_year (getFullYear tz currentDate)) (getMonth tz currentDate) d1)
    as (Y1 & M1 & _); [rewrite Hnx, <- grid_first_def; lia|].
  destruct (fields_in_month (full_year (getFullYear tz currentDate)) (getMonth tz currentDate) d2)
    as (Y2 & M2 & _); [rewrite Hnx, <- grid_first_def; lia|].
  rewrite Z.div_small, Z.add_0_r in Y1, Y2 by exact Hm.
  rewrite !day_key_expanded by lia. rewrite Y1, Y2, M1, M2. reflexivity.
Qed.

(** C7: For displayed years [1] to [9998], at most one cell of the page is
    highlighted as [selected], whatever the selection and the offset. *)
Theorem selected_cell_unique currentDate k memos cells :
  - msPerDay < tz < msPerDay ->
  1 <= full_year (getFullYear tz currentDate) <= 9998 ->
  renderCalendar currentDate (Some k) memos = Some cells ->
  (length (filter cell_selected cells) <= 1)%nat.
Proof.
  intros Htz Hy Hr. pose proof (cell_keys_NoDup _ _ _ _ Htz Hy Hr) as Hd.
  rewrite (filter_ext_in _ (fun c => str_eqb k (cell_key c))); [exact (NoDup_filter_key _ k _ Hd)|].
  intros c Hc. render_cells Hr; [destruct Hc|]. apply in_map_iff in Hc as (d & <- & _). reflexivity.
Qed.

End Render.

(** ** Concrete grids *)

(** Offsets of two time zones, in milliseconds: Greenwich and Seoul
    (UTC+9, where the component's Korean labels point). *)
Definition tz_utc : Z := 0.
Definition tz_seoul : Z := 9 * msPerHour.

(** [currentDate] on 14 February 2024 (month index 1), local midnight. *)
Definition feb_2024 (tz : Z) : Z := new_date tz 2024 1 14.

(** A summary of a grid: its size, first and last keys, and the number of
    cells of the displayed month. *)
Definition grid_summary (cells : list cell) : nat * list jsstr * list jsstr * nat :=
  (length cells, map cell_key (firstn 1 cells), map cell_key (skipn (length cells - 1) cells),
   length (filter (fun c => negb (cell_other_month c)) cells)).

(** The scenario of the specification, at Greenwich: February 2024 starts on Sunday
    28 January and ends on Saturday 2 March, with 29 cells of the month. *)
Example grid_feb_2024_utc :
  option_map grid_summary (renderCalendar tz_utc (feb_2024 tz_utc) None JsObject.empty) =
  Some (35%nat, [JsString.of_ascii "2024-01-28"%string], [JsString.of_ascii "2024-03-02"%string], 29%nat).
Proof. vm_compute. reflexivity. Qed.

(** The same grid in Seoul: the cells are the same days, but every key is
    the ISO date of the day before. *)
Example grid_feb_2024_seoul :
  option_map grid_summary (renderCalendar tz_seoul (feb_2024 tz_seoul) None JsObject.empty) =
  Some (35%nat, [JsString.of_ascii "2024-01-27"%string], [JsString.of_ascii "2024-03-01"%string], 29%nat).
Proof. vm_compute. reflexivity. Qed.

Ltac grid_sel_at tz t sel :=
  match eval vm_compute in (renderCalendar tz t sel JsObject.empty) with
  | Some ?c =>
      exists c;
      assert (Hr : renderCalendar tz t sel JsObject.empty = Some c) by (vm_compute; reflexivity)
  end.

Ltac grid_at tz t := grid_sel_at tz t (@None jsstr).

Lemma tz_utc_bound : - msPerDay < tz_utc < msPerDay.
Proof. unfold tz_utc, msPerDay. lia. Qed.

Lemma tz_seoul_bound : - msPerDay < tz_seoul < msPerDay.
Proof. unfold tz_seoul, msPerHour, msPerDay. lia. Qed.

Lemma render_calendar_days_witness :
  - msPerDay < tz_utc < msPerDay /\
  renderCalendar tz_utc (feb_2024 tz_utc) None JsObject.empty =
  if grid_in_range tz_utc (feb_2024 tz_utc)
  then Some (map (cell_of_day tz_utc (getMonth tz_utc (feb_2024 tz_utc)) None JsObject.empty)
                 (grid_days (getFullYear tz_utc (feb_2024 tz_utc)) (getMonth tz_utc (feb_2024 tz_utc))))
  else Some [].
Proof. exact (conj tz_utc_bound (render_calendar_days tz_utc (feb_2024 tz_utc) None JsObject.empty tz_utc_bound)). Defined.

Lemma next_day_advances_witness :
  - maxTime <= feb_2024 tz_utc + msPerDay <= maxTime /\
  next_day tz_utc (feb_2024 tz_utc) = Some (feb_2024 tz_utc + msPerDay).
Proof.
  assert (H : - maxTime <= feb_2024 tz_utc + msPerDay <= maxTime) by (vm_compute; split; discriminate).
  exact (conj H (next_day_advances tz_utc _ H)).
Defined.

Lemma grid_whole_weeks_witness :
  exists cells, renderCalendar tz_utc (feb_2024 tz_utc) None JsObject.empty = Some cells /\
  - msPerDay < tz_utc < msPerDay /\ grid_in_range tz_utc (feb_2024 tz_utc) = true /\
  Z.of_nat (length cells) mod 7 = 0 /\ 28 <= Z.of_nat (length cells) <= 42.
Proof.
  grid_at tz_utc (feb_2024 tz_utc). split; [exact Hr|].
  assert (Hin : grid_in_range tz_utc (feb_2024 tz_utc) = true) by (vm_compute; reflexivity).
  exact (conj tz_utc_bound (conj Hin (grid_whole_weeks tz_utc (feb_2024 tz_utc) None JsObject.empty _ tz_utc_bound Hin Hr))).
Defined.

Lemma grid_month_days_witness :
  exists cells, renderCalendar tz_seoul (feb_2024 tz_seoul) None JsObject.empty = Some cells /\
  grid_in_range tz_seoul (feb_2024 tz_seoul) = true /\
  map cell_day (filter (fun c => negb (cell_other_month c)) cells) =
  zseq 1 (Z.to_nat (month_length (getFullYear tz_seoul (feb_2024 tz_seoul))
                                 (getMonth tz_seoul (feb_2024 tz_seoul)))).
Proof.
  grid_at tz_seoul (feb_2024 tz_seoul). split; [exact Hr|].
  assert (Hin : grid_in_range tz_seoul (feb_2024 tz_seoul) = true) by (vm_compute; reflexivity).
  exact (conj Hin (grid_month_days tz_seoul (feb_2024 tz_seoul) None JsObject.empty _ tz_seoul_bound Hin Hr)).
Defined.

Lemma grid_weekday_columns_witness :
  exists cells, renderCalendar tz_utc (feb_2024 tz_utc) None JsObject.empty = Some cells /\
  forall i c, nth_error cells i = Some c ->
  cell_sun c = (Z.of_nat i mod 7 =? 0) /\ cell_sat c = (Z.of_nat i mod 7 =? 6).
Proof.
  grid_at tz_utc (feb_2024 tz_utc). split; [exact Hr|].
  exact (grid_weekday_columns tz_utc (feb_2024 tz_utc) None JsObject.empty _ Hr).
Defined.

Lemma grid_keys_witness :
  exists cells, renderCalendar tz_seoul (feb_2024 tz_seoul) None JsObject.empty = Some cells /\
  grid_in_range tz_seoul (feb_2024 tz_seoul) = true /\
  map cell_key cells =
  map (fun d => day_key (d - utc_shift tz_seoul))
      (grid_days (getFullYear tz_seoul (feb_2024 tz_seoul)) (getMonth tz_seoul (feb_2024 tz_seoul))).
Proof.
  grid_at tz_seoul (feb_2024 tz_seoul). split; [exact Hr|].
  assert (Hin : grid_in_range tz_seoul (feb_2024 tz_seoul) = true) by (vm_compute; reflexivity).
  exact (conj Hin (grid_keys tz_seoul (feb_2024 tz_seoul) None JsObject.empty _ tz_seoul_bound Hin Hr)).
Defined.

Lemma grid_keys_distinct_witness :
  exists cells, renderCalendar tz_seoul (feb_2024 tz_seoul) None JsObject.empty = Some cells /\
  NoDup (map cell_key cells).
Proof.
  grid_at tz_seoul (feb_2024 tz_seoul). split; [exact Hr|].
  apply (grid_keys_distinct tz_seoul (feb_2024 tz_seoul) None JsObject.empty _);
    [unfold tz_seoul, msPerHour, msPerDay; lia|vm_compute; split; discriminate|exact Hr].
Defined.

Lemma formatted_date_same_day_witness :
  0 <= YearFromTime (feb_2024 tz_utc) <= 9999 /\ 0 <= YearFromTime (feb_2024 tz_seoul) <= 9999 /\
  (formatted_date (feb_2024 tz_utc) = formatted_date (feb_2024 tz_seoul) <->
   Day (feb_2024 tz_utc) = Day (feb_2024 tz_seoul)).
Proof.
  assert (H1 : 0 <= YearFromTime (feb_2024 tz_utc) <= 9999) by (vm_compute; split; discriminate).
  assert (H2 : 0 <= YearFromTime (feb_2024 tz_seoul) <= 9999) by (vm_compute; split; discriminate).
  exact (conj H1 (conj H2 (formatted_date_same_day _ _ H1 H2))).
Defined.

(** [currentDate] in January of the year 10000. *)
Definition jan_10000 : Z := new_date tz_utc 10000 0 1.

(** The first two days of January 10000 get the same key ["+010000-01"]. *)
Example grid_jan_10000_keys :
  option_map (fun cells => map cell_key (firstn 2 (filter (fun c => negb (cell_other_month c)) cells)))
    (renderCalendar tz_utc jan_10000 None JsObject.empty) =
  Some [JsString.of_ascii "+010000-01"%string; JsString.of_ascii "+010000-01"%string].
Proof. vm_compute. reflexivity. Qed.

Lemma grid_keys_collide_witness :
  exists cells, renderCalendar tz_utc jan_10000 None JsObject.empty = Some cells /\
  forall c1 c2, In c1 cells -> In c2 cells ->
  cell_other_month c1 = false -> cell_other_month c2 = false -> cell_key c1 = cell_key c2.
Proof.
  grid_at tz_utc jan_10000. split; [exact Hr|].
  apply (grid_keys_collide tz_utc jan_10000 None JsObject.empty _);
    [unfold tz_utc, msPerDay; lia| |exact Hr].
  replace (full_year (getFullYear tz_utc jan_10000)) with 10000 by (vm_compute; reflexivity).
  lia.
Defined.

(** The two ends of the range at Greenwich.  August 275760 and May
    -271821 have full grids of six weeks.  From September 275760 on,
    [lastDay] is past the last valid time value and the grid is empty.
    On 30 April -271821, a valid date, [firstDay] is before the first
    valid time value and the grid is empty too. *)
Example grid_range_ends :
  option_map (@length cell) (renderCalendar tz_utc (new_date tz_utc 275760 7 1) None JsObject.empty) = Some 42%nat /\
  renderCalendar tz_utc (new_date tz_utc 275760 8 1) None JsObject.empty = Some [] /\
  option_map (@length cell) (renderCalendar tz_utc (new_date tz_utc (-271821) 4 1) None JsObject.empty) = Some 42%nat /\
  TimeClip (new_date tz_utc (-271821) 3 30) = Some (new_date tz_utc (-271821) 3 30) /\
  renderCalendar tz_utc (new_date tz_utc (-271821) 3 30) None JsObject.empty = Some [].
Proof. repeat split; vm_compute; reflexivity. Qed.

(** The key of 14 February 2024. *)
Definition key_2024_02_14 : jsstr := JsString.of_ascii "2024-02-14"%string.

Lemma selected_cell_unique_witness :
  exists cells, renderCalendar tz_seoul (feb_2024 tz_seoul) (Some key_2024_02_14) JsObject.empty = Some cells /\
  (length (filter cell_selected cells) <= 1)%nat.
Proof.
  grid_sel_at tz_seoul (feb_2024 tz_seoul) (Some key_2024_02_14). split; [exact Hr|].
  apply (selected_cell_unique tz_seoul (feb_2024 tz_seoul) key_2024_02_14 JsObject.empty _);
    [unfold tz_seoul, msPerHour, msPerDay; lia|vm_compute; split; discriminate|exact Hr].
Defined.

(** In January 10000, selecting one day highlights all 31 days of the
    month. *)
Example grid_jan_10000_selected :
  option_map (fun cells => length (filter cell_selected cells))
    (renderCalendar tz_utc jan_10000 (Some (JsString.of_ascii "+010000-01"%string)) JsObject.empty) =
  Some 31%nat.
Proof. vm_compute. reflexivity. Qed.

End Grid.
