(* ===== verification/App.v ===== *)
(** * The [Calendar] component: state, handlers and persistence

    [Calendar] (src/src/App.jsx) keeps four [useState] hooks
    ([currentDate], [selectedDate], [memo], [memos]); the [localStorage]
    entry ['memos'] is part of the modelled state ([stored]).  Each user
    event runs one handler to completion; React applies the state updates
    of a handler in order and then runs the effect of lines 19-21, which
    serialises [memos] whenever a handler gave it a new identity (only
    [handleSaveMemo] and [handleDeleteMemo] do).

    An event is possible only when the rendered page offers it: the month
    buttons always, a date cell when its key is in the grid, the editor
    (textarea and save button) when [selectedDate] is truthy, the viewer
    (edit and delete buttons) when the selected date has a truthy memo.
    [dispatch] combines these guards with the handlers and the effect;
    [mount] is the state after mounting with a given stored entry (both
    effects), and [reachable s0] is the closure of [dispatch] from a start
    state [s0]: a session is a run from a state [mount] produced.

    [currentDate] is kept as a time value without [TimeClip]; the month
    buttons make it an Invalid Date only past September 275760, which
    [DateRange] models with the clipping and relates to this state.  The
    grid the guards read is the clipped [Grid.renderCalendar]. *)

From Stdlib Require Import ZArith Lia List Bool.
From Stdlib Require String.
Import String.StringSyntax.
From S2P Require Import Prelude JsString JsDate DateFacts MemoStore Json JsonParse Grid.
Import ListNotations JsDate DateFacts Grid.

Delimit Scope string_scope with string.
Open Scope Z_scope.

Module App.

(** The hooks of [Calendar] and the persisted entry. *)
Record state := mk_state {
  currentDate : Z;
  selectedDate : option jsstr;
  memo : jsstr;
  memos : JsObject.t;
  stored : option jsstr
}.

(** The user events the rendered page can emit. *)
Inductive event :=
| PreviousMonth
| NextMonth
| DateClick (date : jsstr)
| MemoChange (value : jsstr)
| SaveMemo
| EditMemo
| DeleteMemo.

Section Component.

Variable tz : Z.

(** [ToPropertyKey(selectedDate)]: [null] becomes the key ["null"]. *)
Definition property_key (sel : option jsstr) : jsstr :=
  match sel with
  | Some k => k
  | None => JsString.of_ascii "null"
  end.

Definition handlePreviousMonth (s : state) : state :=
  let newDate := new_date tz (getFullYear tz (currentDate s)) (getMonth tz (currentDate s) - 1) 1 in
  mk_state newDate (selectedDate s) (memo s) (memos s) (stored s).

Definition handleNextMonth (s : state) : state :=
  let newDate := new_date tz (getFullYear tz (currentDate s)) (getMonth tz (currentDate s) + 1) 1 in
  mk_state newDate (selectedDate s) (memo s) (memos s) (stored s).

(** [setSelectedDate(prev => prev === date ? null : date)]. *)
Definition handleDateClick (date : jsstr) (s : state) : state :=
  let sel := if strict_eq_opt (selectedDate s) date then None else Some date in
  mk_state (currentDate s) sel (memo s) (memos s) (stored s).

Definition handleMemoChange (value : jsstr) (s : state) : state :=
  mk_state (currentDate s) (selectedDate s) value (memos s) (stored s).

(** [setMemos(prev => ({ ...prev, [selectedDate]: memo })); setMemo('')]. *)
Definition handleSaveMemo (s : state) : state :=
  let newMemos := JsObject.set (JsObject.spread (memos s)) (property_key (selectedDate s)) (memo s) in
  mk_state (currentDate s) (selectedDate s) [] newMemos (stored s).

(** [setMemo(memos[selectedDate])]; [None] when the memo is [undefined],
    a value outside the modelled strings. *)
Definition handleEditMemo (s : state) : option state :=
  match JsObject.get (memos s) (property_key (selectedDate s)) with
  | Some v => Some (mk_state (currentDate s) (selectedDate s) v (memos s) (stored s))
  | None => None
  end.

(** A copy without the selected key; then no selection and an empty
    draft. *)
Definition handleDeleteMemo (s : state) : state :=
  let newMemos := JsObject.del (JsObject.spread (memos s)) (property_key (selectedDate s)) in
  mk_state (currentDate s) None [] newMemos (stored s).

(** [useEffect(() => localStorage.setItem('memos', JSON.stringify(memos)),
    [memos])]. *)
Definition persist_memos (s : state) : state :=
  mk_state (currentDate s) (selectedDate s) (memo s) (memos s) (Some (Json.stringify (memos s))).

(** [{selectedDate && memos[selectedDate] && <div className="memo-viewer">}]. *)
Definition viewer_shown (s : state) : bool :=
  truthy (selectedDate s) && truthy (JsObject.get (memos s) (property_key (selectedDate s))).

(** [{selectedDate && <div className="memo-title">}]. *)
Definition editor_shown (s : state) : bool := truthy (selectedDate s).

(** A date cell with key [date] is on the page. *)
Definition date_clickable (s : state) (date : jsstr) : bool :=
  match renderCalendar tz (currentDate s) (selectedDate s) (memos s) with
  | Some cells => existsb (fun c => str_eqb (cell_key c) date) cells
  | None => false
  end.

(** One event, when the page offers it: the handler, then the effect. *)
Definition dispatch (ev : event) (s : state) : option state :=
  match ev with
  | PreviousMonth => Some (handlePreviousMonth s)
  | NextMonth => Some (handleNextMonth s)
  | DateClick d => if date_clickable s d then Some (handleDateClick d s) else None
  | MemoChange v => if editor_shown s then Some (handleMemoChange v s) else None
  | SaveMemo => if editor_shown s then Some (persist_memos (handleSaveMemo s)) else None
  | EditMemo => if viewer_shown s then handleEditMemo s else None
  | DeleteMemo => if viewer_shown s then Some (persist_memos (handleDeleteMemo s)) else None
  end.

(** The state after mounting at time [now] with nothing in storage: the
    loading effect finds no entry, the saving effect writes ["{}"]. *)
Definition initial (now : Z) : state :=
  persist_memos (mk_state now None [] JsObject.empty None).

(** Mounting at time [now] with the entry [entry] in storage. *)
Inductive mount_result :=
| Mounted (s : state)
| Crashed
| Unmodelled.

(** The loading effect reads the entry and, when it is truthy, replaces
    [memos] by [JSON.parse(entry)]; the saving effect then writes the
    memos back (it first runs with the initial [{}] and runs again once
    the loaded object is in the state, so the entry ends as the
    serialisation of the loaded memos).  [JSON.parse] throwing a
    [SyntaxError] in the effect, or rendering with [memos = null] (where
    [memos[formattedDate]] throws a [TypeError]), crash the component; a
    value that is not an object of strings leaves the modelled states. *)
Definition mount (now : Z) (entry : option jsstr) : mount_result :=
  match entry with
  | Some ((_ :: _) as text) =>
      match JsonParse.parse text with
      | JsonParse.Parsed JsonParse.JNull => Crashed
      | JsonParse.Parsed v =>
          match JsonParse.to_memos v with
          | Some o => Mounted (persist_memos (mk_state now None [] o entry))
          | None => Unmodelled
          end
      | JsonParse.SyntaxError => Crashed
      | JsonParse.OutOfFuel => Crashed
      end
  | _ => Mounted (persist_memos (mk_state now None [] JsObject.empty entry))
  end.

(** States reachable from [s0] by a sequence of events. *)
Inductive reachable (s0 : state) : state -> Prop :=
| reachable_start : reachable s0 s0
| reachable_step s ev s' : reachable s0 s -> dispatch ev s = Some s' -> reachable s0 s'.

(** Running a list of events from a state. *)
Fixpoint run (evs : list event) (s : state) : option state :=
  match evs with
  | [] => Some s
  | ev :: evs' =>
      match dispatch ev s with
      | Some s' => run evs' s'
      | None => None
      end
  end.

End Component.

(** ** Inversion of [dispatch] *)

Section Dispatch.

Variable tz : Z.

Lemma dispatch_DateClick d s s' :
  dispatch tz (DateClick d) s = Some s' -> date_clickable tz s d = true /\ s' = handleDateClick d s.
Proof. cbn [dispatch]. destruct (date_clickable tz s d); [intros [= <-]; auto|discriminate]. Qed.

Lemma dispatch_MemoChange v s s' :
  dispatch tz (MemoChange v) s = Some s' -> editor_shown s = true /\ s' = handleMemoChange v s.
Proof. cbn [dispatch]. destruct (editor_shown s); [intros [= <-]; auto|discriminate]. Qed.

Lemma dispatch_SaveMemo s s' :
  dispatch tz SaveMemo s = Some s' -> editor_shown s = true /\ s' = persist_memos (handleSaveMemo s).
Proof. cbn [dispatch]. destruct (editor_shown s); [intros [= <-]; auto|discriminate]. Qed.

Lemma dispatch_EditMemo s s' :
  dispatch tz EditMemo s = Some s' -> viewer_shown s = true /\ handleEditMemo s = Some s'.
Proof. cbn [dispatch]. destruct (viewer_shown s); [auto|discriminate]. Qed.

Lemma dispatch_DeleteMemo s s' :
  dispatch tz DeleteMemo s = Some s' -> viewer_shown s = true /\ s' = persist_memos (handleDeleteMemo s).
Proof. cbn [dispatch]. destruct (viewer_shown s); [intros [= <-]; auto|discriminate]. Qed.

Lemma editor_selected s : editor_shown s = true -> exists k, selectedDate s = Some k /\ k <> [].
Proof.
  unfold editor_shown, truthy. destruct (selectedDate s) as [[|c k]|]; try discriminate.
  intros _. exists (c :: k). split; [reflexivity|discriminate].
Qed.

Lemma viewer_selected s :
  viewer_shown s = true ->
  exists k v, selectedDate s = Some k /\ JsObject.get (memos s) k = Some v /\ v <> [].
Proof.
  unfold viewer_shown. intros H. apply andb_true_iff in H as [H1 H2].
  destruct (editor_selected s H1) as (k & Hk & _). rewrite Hk in H2. cbn [property_key] in H2.
  unfold truthy in H2. destruct (JsObject.get (memos s) k) as [[|c v]|] eqn:E; try discriminate.
  exists k, (c :: v). repeat split; try assumption; discriminate.
Qed.

(** What an event does to the memos and the stored entry: nothing, a
    write of the draft under the selected key, or a deletion of the
    selected key, each followed by the serialisation. *)
Lemma dispatch_memos ev s s' :
  dispatch tz ev s = Some s' ->
  (memos s' = memos s /\ stored s' = stored s) \/
  (exists k, selectedDate s = Some k /\ memos s' = JsObject.set (memos s) k (memo s) /\
             stored s' = Some (Json.stringify (memos s'))) \/
  (exists k, selectedDate s = Some k /\ memos s' = JsObject.del (memos s) k /\
             stored s' = Some (Json.stringify (memos s'))).
Proof.
  intros Hd. destruct ev.
  - cbn [dispatch] in Hd. injection Hd as <-. now left.
  - cbn [dispatch] in Hd. injection Hd as <-. now left.
  - apply dispatch_DateClick in Hd as [_ ->]. now left.
  - apply dispatch_MemoChange in Hd as [_ ->]. now left.
  - apply dispatch_SaveMemo in Hd as [He ->]. destruct (editor_selected s He) as (k & Hk & _).
    right; left. exists k. unfold persist_memos, handleSaveMemo. cbn. now rewrite Hk.
  - apply dispatch_EditMemo in Hd as [_ Hd]. unfold handleEditMemo in Hd.
    destruct (JsObject.get _ _); [injection Hd as <-; now left|discriminate].
  - apply dispatch_DeleteMemo in Hd as [Hv ->]. destruct (viewer_selected s Hv) as (k & _ & Hk & _).
    right; right. exists k. unfold persist_memos, handleDeleteMemo. cbn. now rewrite Hk.
Qed.

End Dispatch.

(** ** Properties of the memo object kept by every event *)

Section MemoInvariant.

Variable tz : Z.
Variable P : JsObject.t -> Prop.
Hypothesis P_set : forall o k v, P o -> P (JsObject.set o k v).
Hypothesis P_del : forall o k, P o -> P (JsObject.del o k).

Lemma reachable_memos s0 s : P (memos s0) -> reachable tz s0 s -> P (memos s).
Proof.
  intros H0. induction 1 as [|s ev s' _ IH Hd]; [exact H0|].
  destruct (dispatch_memos tz ev s s' Hd) as [[-> _]|[(k & _ & -> & _)|(k & _ & -> & _)]]; auto.
Qed.

End MemoInvariant.

(** ** The state after mounting *)

Lemma mount_none now : mount now None = Mounted (initial now).
Proof. reflexivity. Qed.

(** A mounted state has its memos in storage, in property order, and no
    selection or draft. *)
Lemma mount_start now e s0 :
  mount now e = Mounted s0 ->
  stored s0 = Some (Json.stringify (memos s0)) /\ JsObject.ordered (memos s0) = true /\
  selectedDate s0 = None /\ memo s0 = [] /\ currentDate s0 = now.
Proof.
  unfold mount. destruct e as [[|c t]|]; try (intros [= <-]; repeat split; reflexivity).
  destruct (JsonParse.parse (c :: t)) as [v| |]; try discriminate.
  destruct v; try discriminate;
    (destruct (JsonParse.to_memos _) as [o|] eqn:E; [intros [= <-]|discriminate]);
    repeat split; cbn; exact (JsonParse.to_memos_ordered _ _ E).
Qed.

(** The keys of the grid for [currentDate]: none when one of the dates
    [renderCalendar] builds is an Invalid Date. *)
Definition page_keys (tz cur : Z) : list jsstr :=
  if grid_valid tz cur
  then map (fun d => formatted_date (UTC tz (MakeDate d 0))) (grid_days (getFullYear tz cur) (getMonth tz cur))
  else [].

Lemma page_keys_eq tz cur :
  page_keys tz cur =
  if grid_valid tz cur
  then map (fun d => formatted_date (UTC tz (MakeDate d 0))) (grid_days (getFullYear tz cur) (getMonth tz cur))
  else [].
Proof. reflexivity. Qed.

Lemma date_clickable_keys tz s d :
  date_clickable tz s d = existsb (fun k => str_eqb k d) (page_keys tz (currentDate s)).
Proof.
  unfold date_clickable. rewrite page_keys_eq.
  pose proof (render_calendar_keys tz (currentDate s) (selectedDate s) (memos s)) as E.
  destruct (renderCalendar tz _ _ _); cbn [option_map] in E; [|discriminate].
  apply some_inj in E. rewrite <- E. now rewrite existsb_map.
Qed.

(** ** Selecting a date *)

Section Selection.

Variable tz : Z.

(** The toggle of the specification: clicking a date twice from no
    selection selects it and then clears the selection again; the second
    click is possible because the first changes neither the month nor the
    memos. *)
Theorem click_twice_toggles d s s1 :
  selectedDate s = None -> dispatch tz (DateClick d) s = Some s1 ->
  selectedDate s1 = Some d /\
  exists s2, dispatch tz (DateClick d) s1 = Some s2 /\ selectedDate s2 = None.
Proof.
  intros Hn H1. apply dispatch_DateClick in H1 as [Hc ->].
  unfold handleDateClick. rewrite Hn. cbn. split; [reflexivity|].
  eexists. split.
  - cbn [dispatch]. rewrite date_clickable_keys in *. cbn [currentDate handleDateClick].
    rewrite Hc. reflexivity.
  - cbn. now rewrite str_eqb_refl.
Qed.

(** C17: Clicking another date keeps the draft: the text typed for one date
    stays in the editor and is saved under the next date clicked.  The
    memos and the displayed month do not change either. *)
Theorem click_keeps_draft d s s' :
  dispatch tz (DateClick d) s = Some s' ->
  memo s' = memo s /\ memos s' = memos s /\ currentDate s' = currentDate s /\ stored s' = stored s.
Proof. intros H. apply dispatch_DateClick in H as [_ ->]. repeat split. Qed.

End Selection.

(** ** Saving, editing and deleting a memo *)

Section Memos.

Variable tz : Z.

(** C2: Saving writes the draft under the selected date, leaves the other
    dates alone, empties the draft, keeps the selection, and writes the
    whole object to storage. *)
Theorem save_memo_spec s s' :
  dispatch tz SaveMemo s = Some s' ->
  exists k, selectedDate s = Some k /\ selectedDate s' = Some k /\ memo s' = [] /\
  (forall k', JsObject.get (memos s') k' = if str_eqb k k' then Some (memo s) else JsObject.get (memos s) k') /\
  stored s' = Some (Json.stringify (memos s')).
Proof.
  intros H. apply dispatch_SaveMemo in H as [He ->].
  destruct (editor_selected s He) as (k & Hk & _). exists k.
  unfold persist_memos, handleSaveMemo. cbn. rewrite Hk. cbn [property_key].
  repeat split. intros k'. apply JsObject.get_set.
Qed.

(** C32: An empty draft is saved too: the date then holds [""], which is
    falsy, so the page shows neither the memo dot nor the viewer for it,
    although the entry is stored. *)
Theorem save_empty_memo_hidden s s' :
  dispatch tz SaveMemo s = Some s' -> memo s = [] ->
  exists k, selectedDate s' = Some k /\ JsObject.get (memos s') k = Some [] /\
  viewer_shown s' = false.
Proof.
  intros H Hm. apply dispatch_SaveMemo in H as [He ->].
  destruct (editor_selected s He) as (k & Hk & _). exists k.
  unfold viewer_shown, persist_memos, handleSaveMemo. cbn. rewrite Hk. cbn [property_key].
  rewrite JsObject.get_set_eq, Hm. repeat split. apply andb_false_r.
Qed.

(** C3: Deleting removes the selected date's memo and nothing else, clears the
    selection and the draft, and writes the object to storage. *)
Theorem delete_memo_spec s s' :
  dispatch tz DeleteMemo s = Some s' ->
  exists k, selectedDate s = Some k /\ selectedDate s' = None /\ memo s' = [] /\
  (forall k', JsObject.get (memos s') k' = if str_eqb k k' then None else JsObject.get (memos s) k') /\
  stored s' = Some (Json.stringify (memos s')).
Proof.
  intros H. apply dispatch_DeleteMemo in H as [Hv ->].
  destruct (viewer_selected s Hv) as (k & v & Hk & _). exists k.
  unfold persist_memos, handleDeleteMemo. cbn. rewrite Hk. cbn [property_key].
  repeat split. intros k'. apply JsObject.get_del.
Qed.

(** C29: Saving a non-empty memo for a date that had none and deleting it again
    gives back the very same object (property order included) and no
    selection. *)
Theorem save_then_delete_restores s s1 :
  dispatch tz SaveMemo s = Some s1 -> memo s <> [] ->
  JsObject.has (memos s) (property_key (selectedDate s)) = false ->
  exists s2, dispatch tz DeleteMemo s1 = Some s2 /\ memos s2 = memos s /\ selectedDate s2 = None.
Proof.
  intros H Hm Hn. apply dispatch_SaveMemo in H as [He ->].
  destruct (editor_selected s He) as (k & Hk & Hk0).
  assert (Hv : viewer_shown (persist_memos (handleSaveMemo s)) = true).
  { unfold viewer_shown, persist_memos, handleSaveMemo. cbn. rewrite Hk. cbn [property_key].
    rewrite JsObject.get_set_eq. unfold truthy.
    destruct k as [|c k]; [congruence|]. destruct (memo s) as [|c' m]; [congruence|]. reflexivity. }
  eexists. split; [cbn [dispatch]; rewrite Hv; reflexivity|].
  unfold persist_memos, handleDeleteMemo, handleSaveMemo. cbn.
  split; [|reflexivity]. unfold JsObject.spread. now apply JsObject.del_set_fresh.
Qed.

(** C30: Editing is possible whenever the viewer is shown, and loads the stored
    memo into the draft. *)
Theorem edit_loads_memo s :
  viewer_shown s = true ->
  exists s', dispatch tz EditMemo s = Some s' /\
  JsObject.get (memos s) (property_key (selectedDate s)) = Some (memo s') /\
  memos s' = memos s /\ selectedDate s' = selectedDate s.
Proof.
  intros Hv. destruct (viewer_selected s Hv) as (k & v & Hk & Hg & _).
  cbn [dispatch]. rewrite Hv. unfold handleEditMemo. rewrite Hk. cbn [property_key]. rewrite Hg.
  eexists. repeat split.
Qed.

End Memos.

(** ** Changing the month *)

Section Navigation.

Variable tz : Z.

Lemma prev_month_div m :
  0 <= m < 12 ->
  (m - 1) / 12 = (if m =? 0 then -1 else 0) /\ (m - 1) mod 12 = (if m =? 0 then 11 else m - 1).
Proof. intros Hm. destruct (Z.eqb_spec m 0); Z.div_mod_to_equations; lia. Qed.

Lemma next_month_div m :
  0 <= m < 12 ->
  (m + 1) / 12 = (if m =? 11 then 1 else 0) /\ (m + 1) mod 12 = (if m =? 11 then 0 else m + 1).
Proof. intros Hm. destruct (Z.eqb_spec m 11); Z.div_mod_to_equations; lia. Qed.

(** The date built by [new Date(y, m)] from the displayed year and a month
    index: its fields, with the year read as [1900 + y] when [y] is in
    [0, 99]. *)
Lemma month_start_fields y m :
  getFullYear tz (new_date tz y m 1) = full_year y + m / 12 /\
  getMonth tz (new_date tz y m 1) = m mod 12 /\ getDate tz (new_date tz y m 1) = 1.
Proof.
  rewrite new_date_eq, getFullYear_midnight, getMonth_midnight, getDate_midnight.
  apply fields_of_MakeDay_1.
Qed.

(** C20: The "<" button shows the previous month, going back a year from
    January, and keeps the selection and the draft.  The year is passed
    through [new Date(y, m)], so a displayed year [y] in [0, 99] becomes
    [1900 + y] ([full_year]); every other year is kept. *)
Theorem previous_month_steps s s' :
  dispatch tz PreviousMonth s = Some s' ->
  getFullYear tz (currentDate s') =
    (if getMonth tz (currentDate s) =? 0 then full_year (getFullYear tz (currentDate s)) - 1
     else full_year (getFullYear tz (currentDate s))) /\
  getMonth tz (currentDate s') =
    (if getMonth tz (currentDate s) =? 0 then 11 else getMonth tz (currentDate s) - 1) /\
  getDate tz (currentDate s') = 1 /\ selectedDate s' = selectedDate s /\ memo s' = memo s.
Proof.
  cbn [dispatch]. intros [= <-]. unfold handlePreviousMonth. cbn [currentDate selectedDate memo].
  destruct (month_start_fields (getFullYear tz (currentDate s)) (getMonth tz (currentDate s) - 1))
    as (A & B & C).
  rewrite A, B, C. pose proof (getMonth_range tz (currentDate s)) as Hm.
  destruct (prev_month_div _ Hm) as [-> ->].
  destruct (_ =? 0); repeat split; lia.
Qed.

End Navigation.

(** ** Invariants of the reachable states *)

Section Invariants.

Variable tz : Z.

Lemma clickable_day_key s d : date_clickable tz s d = true -> exists day, d = day_key day.
Proof.
  rewrite date_clickable_keys. intros H. apply existsb_exists in H as (k & Hk & E).
  apply str_eqb_eq in E as <-. rewrite page_keys_eq in Hk. destruct (grid_valid tz _); [|destruct Hk].
  apply in_map_iff in Hk as (x & <- & _).
  eexists. apply formatted_date_key.
Qed.

Lemma stored_sync s0 s :
  stored s0 = Some (Json.stringify (memos s0)) -> reachable tz s0 s ->
  stored s = Some (Json.stringify (memos s)).
Proof.
  intros H0. induction 1 as [|s ev s' _ IH Hd]; [exact H0|].
  destruct (dispatch_memos tz ev s s' Hd) as [[E1 E2]|[(k & _ & _ & E)|(k & _ & _ & E)]];
    [rewrite E2, E1; exact IH|exact E|exact E].
Qed.

(** C9: In every session, whatever the storage held when the page was
    mounted, storage holds the serialisation of the current memos. *)
Theorem stored_in_sync now entry s0 s :
  mount now entry = Mounted s0 -> reachable tz s0 s -> stored s = Some (Json.stringify (memos s)).
Proof. intros M. exact (stored_sync s0 s (proj1 (mount_start now entry s0 M))). Qed.

Definition keys_are_dates (s : state) : Prop :=
  (forall k, selectedDate s = Some k -> exists d, k = day_key d) /\
  (forall k, In k (JsObject.keys (memos s)) -> exists d, k = day_key d).

(** C31: Starting from an empty storage, the selection and every memo key are
    ISO dates of days: keys only come from clicked cells. *)
Theorem memo_keys_are_dates now s : reachable tz (initial now) s -> keys_are_dates s.
Proof.
  induction 1 as [|s ev s' _ [IHs IHm] Hd].
  - split; [discriminate|intros k []].
  - destruct ev.
    + cbn [dispatch] in Hd. injection Hd as <-. split; assumption.
    + cbn [dispatch] in Hd. injection Hd as <-. split; assumption.
    + apply dispatch_DateClick in Hd as [Hc ->]. split; [|exact IHm].
      unfold handleDateClick. cbn [selectedDate]. destruct (strict_eq_opt _ _); [discriminate|].
      intros k [= <-]. exact (clickable_day_key s date Hc).
    + apply dispatch_MemoChange in Hd as [_ ->]. split; assumption.
    + apply dispatch_SaveMemo in Hd as [He ->]. split; [exact IHs|].
      destruct (editor_selected s He) as (k0 & Hk0 & _).
      unfold persist_memos, handleSaveMemo. cbn [memos]. rewrite Hk0. cbn [property_key].
      intros k Hk. apply JsObject.in_keys_set in Hk as [->|Hk]; [apply IHs; exact Hk0|apply IHm, Hk].
    + apply dispatch_EditMemo in Hd as [_ Hd]. unfold handleEditMemo in Hd.
      destruct (JsObject.get _ _); [injection Hd as <-; split; assumption|discriminate].
    + apply dispatch_DeleteMemo in Hd as [_ ->]. split; [discriminate|].
      intros k Hk. apply IHm. exact (JsObject.in_keys_del _ _ _ Hk).
Qed.

(** The object stays in property-creation order. *)
Lemma memos_ordered now entry s0 s :
  mount now entry = Mounted s0 -> reachable tz s0 s -> JsObject.ordered (memos s) = true.
Proof.
  intros M. apply (reachable_memos tz (fun o => JsObject.ordered o = true)).
  - intros o k v. apply JsObject.ordered_set.
  - intros o k. apply JsObject.ordered_del.
  - exact (proj1 (proj2 (mount_start now entry s0 M))).
Qed.

End Invariants.


(** ** Reloading the page *)

Section Reload.

Variable tz : Z.

(** The state after mounting again with the entry of a state of a session. *)
Lemma reload_memos now entry s0 s now' :
  mount now entry = Mounted s0 -> reachable tz s0 s -> JsObject.valid (memos s) = true ->
  exists s', mount now' (stored s) = Mounted s' /\ memos s' = memos s /\ stored s' = stored s /\
             selectedDate s' = None /\ memo s' = [].
Proof.
  intros M R V. rewrite (stored_sync tz s0 s (proj1 (mount_start now entry s0 M)) R).
  destruct (JsonParse.to_memos_stringify (memos s) V (memos_ordered tz now entry s0 s M R)) as [Hp Hm].
  destruct (JsonParse.stringify_cons (memos s)) as [t Ht].
  exists (persist_memos (mk_state now' None [] (memos s) (Some (Json.stringify (memos s))))).
  split; [|repeat split].
  unfold mount. rewrite Ht. rewrite <- Ht, Hp. cbn match. rewrite Hm. reflexivity.
Qed.

(** C10: Reloading the page brings the memos back: mounting again, at any
    time, with the entry a reachable state left in storage yields exactly
    that state's memos (property order included) and the same entry, with
    no selection and an empty draft.  The memo texts and keys are UTF-16
    strings. *)
Theorem reload_restores_memos now entry s0 s now' :
  mount now entry = Mounted s0 -> reachable tz s0 s -> JsObject.valid (memos s) = true ->
  exists s', mount now' (stored s) = Mounted s' /\ memos s' = memos s /\ stored s' = stored s /\
             selectedDate s' = None /\ memo s' = [].
Proof. exact (reload_memos now entry s0 s now'). Qed.

(** C11: Mounting with a non-empty entry crashes exactly when
    [JSON.parse] throws a [SyntaxError] on it or returns [null]: the
    loading effect has no [try]/[catch] and no check of the parsed value. *)
Theorem mount_crash now text :
  text <> [] ->
  (mount now (Some text) = Crashed <->
   JsonParse.parse text = JsonParse.SyntaxError \/ JsonParse.parse text = JsonParse.Parsed JsonParse.JNull).
Proof.
  intros Hne. destruct text as [|c t]; [congruence|]. unfold mount.
  pose proof (JsonParse.parse_terminates (c :: t)) as Ht.
  destruct (JsonParse.parse (c :: t)) as [v| |]; [|tauto|congruence].
  destruct v; try (split; [|intros [H|H]; discriminate]);
    try (destruct (JsonParse.to_memos _); discriminate); tauto.
Qed.

End Reload.

(** ** Concrete runs *)

(** Reachability is closed under running events. *)
Lemma run_reachable tz s0 evs s s' :
  reachable tz s0 s -> run tz evs s = Some s' -> reachable tz s0 s'.
Proof.
  revert s. induction evs as [|ev evs IH]; intros s Hs Hr; cbn [run] in Hr.
  - injection Hr as <-. exact Hs.
  - destruct (dispatch tz ev s) as [s1|] eqn:E; [|discriminate].
    exact (IH s1 (reachable_step tz s0 s ev s1 Hs E) Hr).
Qed.

Definition key_feb_14 : jsstr := JsString.of_ascii "2024-02-14".
Definition key_feb_15 : jsstr := JsString.of_ascii "2024-02-15".
Definition dentist : jsstr := JsString.of_ascii "Dentist".

(** The memo of a key and the selection after running events from the
    state mounted on 14 February 2024. *)
Definition observe (tz : Z) (evs : list event) (k : jsstr) : option (option jsstr * option jsstr) :=
  option_map (fun s => (JsObject.get (memos s) k, selectedDate s)) (run tz evs (initial (feb_2024 tz))).

(** The scenario of the specification, at Greenwich: selecting
    14 February 2024, typing "Dentist" and saving stores "Dentist" under
    "2024-02-14" and keeps the selection. *)
Example dentist_saved :
  observe tz_utc [DateClick key_feb_14; MemoChange dentist; SaveMemo] key_feb_14 =
  Some (Some dentist, Some key_feb_14).
Proof. vm_compute. reflexivity. Qed.

(** Deleting it afterwards removes the key and clears the selection. *)
Example dentist_deleted :
  observe tz_utc [DateClick key_feb_14; MemoChange dentist; SaveMemo; DeleteMemo] key_feb_14 =
  Some (None, None).
Proof. vm_compute. reflexivity. Qed.

(** A draft typed for 14 February and saved after clicking 15 February is
    stored under 15 February. *)
Example draft_follows_click :
  option_map (fun s => (JsObject.get (memos s) key_feb_14, JsObject.get (memos s) key_feb_15))
    (run tz_utc [DateClick key_feb_14; MemoChange dentist; DateClick key_feb_15; SaveMemo]
         (initial (feb_2024 tz_utc))) =
  Some (None, Some dentist).
Proof. vm_compute. reflexivity. Qed.

(** In Seoul the cell showing the 14th of February carries the key of the
    13th, so a memo written on it is stored under "2024-02-13". *)
Example seoul_cell_14_key :
  option_map (fun cells => map cell_key
                (filter (fun c => (cell_day c =? 14) && negb (cell_other_month c)) cells))
    (renderCalendar tz_seoul (feb_2024 tz_seoul) None JsObject.empty) =
  Some [JsString.of_ascii "2024-02-13"].
Proof. vm_compute. reflexivity. Qed.

(** [currentDate] on 1 January of the year 100. *)
Definition jan_100 : Z := new_date tz_utc 100 0 1.

(** The displayed year and month after some clicks on the month buttons. *)
Definition shown (evs : list event) : option (Z * Z) :=
  option_map (fun s => (getFullYear tz_utc (currentDate s), getMonth tz_utc (currentDate s)))
    (run tz_utc evs (initial jan_100)).

(** Going back from January 100 reaches December 99. *)
Example two_digit_year_back : shown [PreviousMonth] = Some (99, 11).
Proof. vm_compute. reflexivity. Qed.

(** From December 99, one more step back jumps to November 1999 and one
    step forward to January 2000, because [new Date(99, m)] reads 99 as
    1999. *)
Example two_digit_year_jump :
  shown [PreviousMonth; PreviousMonth] = Some (1999, 10) /\
  shown [PreviousMonth; NextMonth] = Some (2000, 0).
Proof. split; vm_compute; reflexivity. Qed.

(** A truncated entry, such as [{"2024-02-14":], and the entry
    [null] both crash the component on mounting, where the specification
    asks for an empty memo map. *)
Example storage_crashes :
  mount 0 (Some ([123] ++ Json.quote key_feb_14 ++ [58])) = Crashed /\
  mount 0 (Some (JsString.of_ascii "null")) = Crashed.
Proof. split; vm_compute; reflexivity. Qed.

(** ** Witnesses *)

(** The state mounted on 14 February 2024 at Greenwich, and the states
    after some events. *)
Definition start : state := initial (feb_2024 tz_utc).

Definition after (evs : list event) : state :=
  match run tz_utc evs start with Some s => s | None => start end.

Ltac step_to tz ev s :=
  match eval vm_compute in (dispatch tz ev s) with
  | Some ?x => exists x; assert (Hd : dispatch tz ev s = Some x) by (vm_compute; reflexivity)
  end.

Lemma click_twice_toggles_witness :
  exists s1, dispatch tz_utc (DateClick key_feb_14) start = Some s1 /\
  selectedDate s1 = Some key_feb_14 /\
  exists s2, dispatch tz_utc (DateClick key_feb_14) s1 = Some s2 /\ selectedDate s2 = None.
Proof.
  step_to tz_utc (DateClick key_feb_14) start. split; [exact Hd|].
  exact (click_twice_toggles tz_utc key_feb_14 start _ eq_refl Hd).
Defined.

Lemma click_keeps_draft_witness :
  exists s', dispatch tz_utc (DateClick key_feb_15) (after [DateClick key_feb_14; MemoChange dentist]) = Some s' /\
  memo s' = memo (after [DateClick key_feb_14; MemoChange dentist]) /\
  memos s' = memos (after [DateClick key_feb_14; MemoChange dentist]) /\
  currentDate s' = currentDate (after [DateClick key_feb_14; MemoChange dentist]) /\
  stored s' = stored (after [DateClick key_feb_14; MemoChange dentist]).
Proof.
  step_to tz_utc (DateClick key_feb_15) (after [DateClick key_feb_14; MemoChange dentist]).
  split; [exact Hd|]. exact (click_keeps_draft tz_utc _ _ _ Hd).
Defined.

Lemma save_memo_spec_witness :
  exists s', dispatch tz_utc SaveMemo (after [DateClick key_feb_14; MemoChange dentist]) = Some s' /\
  exists k, selectedDate (after [DateClick key_feb_14; MemoChange dentist]) = Some k /\
  selectedDate s' = Some k /\ memo s' = [] /\
  (forall k', JsObject.get (memos s') k' =
     if str_eqb k k' then Some (memo (after [DateClick key_feb_14; MemoChange dentist]))
     else JsObject.get (memos (after [DateClick key_feb_14; MemoChange dentist])) k') /\
  stored s' = Some (Json.stringify (memos s')).
Proof.
  step_to tz_utc SaveMemo (after [DateClick key_feb_14; MemoChange dentist]).
  split; [exact Hd|]. exact (save_memo_spec tz_utc _ _ Hd).
Defined.

Lemma save_empty_memo_hidden_witness :
  exists s', dispatch tz_utc SaveMemo (after [DateClick key_feb_14]) = Some s' /\
  memo (after [DateClick key_feb_14]) = [] /\
  exists k, selectedDate s' = Some k /\ JsObject.get (memos s') k = Some [] /\ viewer_shown s' = false.
Proof.
  step_to tz_utc SaveMemo (after [DateClick key_feb_14]).
  assert (Hm : memo (after [DateClick key_feb_14]) = []) by (vm_compute; reflexivity).
  split; [exact Hd|]. split; [exact Hm|]. exact (save_empty_memo_hidden tz_utc _ _ Hd Hm).
Defined.

Lemma delete_memo_spec_witness :
  exists s', dispatch tz_utc DeleteMemo (after [DateClick key_feb_14; MemoChange dentist; SaveMemo]) = Some s' /\
  exists k, selectedDate (after [DateClick key_feb_14; MemoChange dentist; SaveMemo]) = Some k /\
  selectedDate s' = None /\ memo s' = [] /\
  (forall k', JsObject.get (memos s') k' =
     if str_eqb k k' then None
     else JsObject.get (memos (after [DateClick key_feb_14; MemoChange dentist; SaveMemo])) k') /\
  stored s' = Some (Json.stringify (memos s')).
Proof.
  step_to tz_utc DeleteMemo (after [DateClick key_feb_14; MemoChange dentist; SaveMemo]).
  split; [exact Hd|]. exact (delete_memo_spec tz_utc _ _ Hd).
Defined.

Lemma save_then_delete_restores_witness :
  exists s1, dispatch tz_utc SaveMemo (after [DateClick key_feb_14; MemoChange dentist]) = Some s1 /\
  exists s2, dispatch tz_utc DeleteMemo s1 = Some s2 /\
  memos s2 = memos (after [DateClick key_feb_14; MemoChange dentist]) /\ selectedDate s2 = None.
Proof.
  step_to tz_utc SaveMemo (after [DateClick key_feb_14; MemoChange dentist]).
  split; [exact Hd|].
  apply (save_then_delete_restores tz_utc _ _ Hd); [vm_compute; discriminate|vm_compute; reflexivity].
Defined.

Lemma edit_loads_memo_witness :
  viewer_shown (after [DateClick key_feb_14; MemoChange dentist; SaveMemo]) = true /\
  exists s', dispatch tz_utc EditMemo (after [DateClick key_feb_14; MemoChange dentist; SaveMemo]) = Some s' /\
  JsObject.get (memos (after [DateClick key_feb_14; MemoChange dentist; SaveMemo]))
    (property_key (selectedDate (after [DateClick key_feb_14; MemoChange dentist; SaveMemo]))) = Some (memo s') /\
  memos s' = memos (after [DateClick key_feb_14; MemoChange dentist; SaveMemo]) /\
  selectedDate s' = selectedDate (after [DateClick key_feb_14; MemoChange dentist; SaveMemo]).
Proof.
  assert (Hv : viewer_shown (after [DateClick key_feb_14; MemoChange dentist; SaveMemo]) = true)
    by (vm_compute; reflexivity).
  split; [exact Hv|]. exact (edit_loads_memo tz_utc _ Hv).
Defined.

Lemma previous_month_steps_witness :
  exists s', dispatch tz_utc PreviousMonth start = Some s' /\
  getFullYear tz_utc (currentDate s') =
    (if getMonth tz_utc (currentDate start) =? 0 then full_year (getFullYear tz_utc (currentDate start)) - 1
     else full_year (getFullYear tz_utc (currentDate start))) /\
  getMonth tz_utc (currentDate s') =
    (if getMonth tz_utc (currentDate start) =? 0 then 11 else getMonth tz_utc (currentDate start) - 1) /\
  getDate tz_utc (currentDate s') = 1 /\ selectedDate s' = selectedDate start /\ memo s' = memo start.
Proof.
  step_to tz_utc PreviousMonth start. split; [exact Hd|]. exact (previous_month_steps tz_utc _ _ Hd).
Defined.

Lemma after_reachable evs :
  run tz_utc evs start = Some (after evs) -> reachable tz_utc start (after evs).
Proof. intros H. exact (run_reachable _ _ evs start _ (reachable_start _ _) H). Qed.

(** The session of the witnesses: mounted on 14 February 2024 with an
    empty storage, then a memo saved for that day. *)
Definition saved : state := after [DateClick key_feb_14; MemoChange dentist; SaveMemo].

Lemma mount_start_feb : mount (feb_2024 tz_utc) None = Mounted start.
Proof. reflexivity. Qed.

Lemma saved_reachable : reachable tz_utc start saved.
Proof. apply after_reachable. vm_compute. reflexivity. Qed.

Lemma stored_in_sync_witness :
  mount (feb_2024 tz_utc) None = Mounted start /\ reachable tz_utc start saved /\
  stored saved = Some (Json.stringify (memos saved)).
Proof.
  exact (conj mount_start_feb (conj saved_reachable
    (stored_in_sync tz_utc _ _ _ _ mount_start_feb saved_reachable))).
Defined.

Lemma memo_keys_are_dates_witness :
  reachable tz_utc (initial (feb_2024 tz_utc)) saved /\ keys_are_dates saved.
Proof. exact (conj saved_reachable (memo_keys_are_dates tz_utc _ _ saved_reachable)). Defined.


Lemma reload_restores_memos_witness :
  mount (feb_2024 tz_utc) None = Mounted start /\ reachable tz_utc start saved /\
  JsObject.valid (memos saved) = true /\
  exists s', mount 0 (stored saved) = Mounted s' /\ memos s' = memos saved /\
             stored s' = stored saved /\ selectedDate s' = None /\ memo s' = [].
Proof.
  assert (V : JsObject.valid (memos saved) = true) by (vm_compute; reflexivity).
  exact (conj mount_start_feb (conj saved_reachable (conj V
    (reload_restores_memos tz_utc _ _ _ _ 0 mount_start_feb saved_reachable V)))).
Defined.

Lemma mount_crash_witness :
  JsString.of_ascii "{" <> [] /\
  (mount 0 (Some (JsString.of_ascii "{")) = Crashed <->
   JsonParse.parse (JsString.of_ascii "{") = JsonParse.SyntaxError \/
   JsonParse.parse (JsString.of_ascii "{") = JsonParse.Parsed JsonParse.JNull).
Proof.
  assert (H : JsString.of_ascii "{" <> []) by discriminate.
  exact (conj H (mount_crash 0 _ H)).
Defined.

End App.
