(* ===== verification/Navigation.v ===== *)
(** * Navigating between months over a session

    The "<" and ">" buttons ([handlePreviousMonth], [handleNextMonth],
    src/src/App.jsx lines 23-31) rebuild [currentDate] with
    [new Date(getFullYear(), getMonth() -/+ 1)].  Counting months as
    [month_index = 12 * year + month], one click moves the index of
    [full_year year] by one: an ordinary year moves by one month, a
    displayed year [y] in [0, 99] jumps to [1900 + y].

    - [run_next], [run_prev]: [n] clicks on ">" or "<" move the month
      index by [n] and keep the selection, the draft, the memos and the
      storage; [DateRange.navigation_reaches] adds the clipping.
    - [year_floor]: in a session mounted in a year from 100 on, the
      displayed year never goes below 99, and 99 is only ever shown as
      December 99: the years 0 to 98 cannot be reached. *)

From Stdlib Require Import ZArith Lia List Bool.
From S2P Require Import Prelude JsString JsDate DateFacts MemoStore Grid App.
Import ListNotations JsDate DateFacts Grid App.

Open Scope Z_scope.

Module Navigation.

Section Index.

Variable tz : Z.

(** The months since year 0 of the local date of [t]. *)
Definition month_index (t : Z) : Z := getFullYear tz t * 12 + getMonth tz t.

Definition displayed_year (s : state) : Z := getFullYear tz (currentDate s).
Definition displayed_month (s : state) : Z := getMonth tz (currentDate s).

(** The parts of the state the month buttons leave alone. *)
Definition same_page_state (s s' : state) : Prop :=
  selectedDate s' = selectedDate s /\ memo s' = memo s /\ memos s' = memos s /\ stored s' = stored s.

Lemma same_page_state_refl s : same_page_state s s.
Proof. repeat split. Qed.

Lemma same_page_state_trans s1 s2 s3 :
  same_page_state s1 s2 -> same_page_state s2 s3 -> same_page_state s1 s3.
Proof. unfold same_page_state. intros (A & B & C & D) (E & F & G & H). repeat split; congruence. Qed.

Lemma month_index_fields t :
  getFullYear tz t = month_index t / 12 /\ getMonth tz t = month_index t mod 12.
Proof.
  unfold month_index. pose proof (getMonth_range tz t). split.
  - rewrite Z.div_add_l, Z.div_small by lia. lia.
  - rewrite Z.add_comm, Z.mod_add, Z.mod_small by lia. reflexivity.
Qed.

(** [new Date(y, m)] in month-index form. *)
Lemma new_month_index y m : month_index (new_date tz y m 1) = full_year y * 12 + m.
Proof.
  unfold month_index. destruct (month_start_fields tz y m) as (A & B & _). rewrite A, B.
  pose proof (Z.div_mod m 12 ltac:(lia)). lia.
Qed.

Lemma next_index s :
  month_index (currentDate (handleNextMonth tz s)) =
  full_year (displayed_year s) * 12 + displayed_month s + 1.
Proof. unfold handleNextMonth. cbn [currentDate]. rewrite new_month_index. unfold displayed_year, displayed_month. lia. Qed.

Lemma prev_index s :
  month_index (currentDate (handlePreviousMonth tz s)) =
  full_year (displayed_year s) * 12 + displayed_month s - 1.
Proof. unfold handlePreviousMonth. cbn [currentDate]. rewrite new_month_index. unfold displayed_year, displayed_month. lia. Qed.

Lemma handleNextMonth_page s : same_page_state s (handleNextMonth tz s).
Proof. repeat split. Qed.

Lemma handlePreviousMonth_page s : same_page_state s (handlePreviousMonth tz s).
Proof. repeat split. Qed.

(** An ordinary displayed year is not read as a two-digit year. *)
Lemma full_year_index s :
  100 <= displayed_year s ->
  full_year (displayed_year s) * 12 + displayed_month s = month_index (currentDate s).
Proof. intros H. rewrite full_year_id by lia. reflexivity. Qed.

Lemma displayed_year_index s : displayed_year s = month_index (currentDate s) / 12.
Proof. exact (proj1 (month_index_fields (currentDate s))). Qed.

(** A later month of a displayed year from 100 on is also from 100 on. *)
Lemma displayed_year_mono s s' :
  100 <= displayed_year s -> month_index (currentDate s) <= month_index (currentDate s') ->
  100 <= displayed_year s'.
Proof.
  rewrite !displayed_year_index. intros Hy Hi. apply Z.div_le_lower_bound; [lia|].
  pose proof (Z.mul_div_le (month_index (currentDate s)) 12). lia.
Qed.

(** [n] clicks on ">" move [n] months forward. *)
Lemma run_next n s :
  100 <= displayed_year s ->
  exists s', run tz (repeat NextMonth n) s = Some s' /\ same_page_state s s' /\
             month_index (currentDate s') = month_index (currentDate s) + Z.of_nat n.
Proof.
  revert s. induction n as [|n IH]; intros s Hy.
  - exists s. split; [reflexivity|]. split; [apply same_page_state_refl|lia].
  - cbn [repeat run dispatch].
    assert (Hi : month_index (currentDate (handleNextMonth tz s)) = month_index (currentDate s) + 1)
      by (rewrite next_index, <- (full_year_index s Hy); lia).
    destruct (IH (handleNextMonth tz s)) as (s' & Hr & Hp & Hn).
    { apply (displayed_year_mono s); lia. }
    exists s'. split; [exact Hr|]. split; [exact (same_page_state_trans _ _ _ (handleNextMonth_page s) Hp)|].
    lia.
Qed.

(** [n] clicks on "<" move [n] months back, as long as they stay in the
    years from 100 on. *)
Lemma run_prev n s :
  1200 + Z.of_nat n <= month_index (currentDate s) ->
  exists s', run tz (repeat PreviousMonth n) s = Some s' /\ same_page_state s s' /\
             month_index (currentDate s') = month_index (currentDate s) - Z.of_nat n.
Proof.
  revert s. induction n as [|n IH]; intros s Hi0.
  - exists s. split; [reflexivity|]. split; [apply same_page_state_refl|lia].
  - cbn [repeat run dispatch].
    assert (Hy : 100 <= displayed_year s).
    { rewrite displayed_year_index. apply Z.div_le_lower_bound; lia. }
    assert (Hi : month_index (currentDate (handlePreviousMonth tz s)) = month_index (currentDate s) - 1)
      by (rewrite prev_index, <- (full_year_index s Hy); lia).
    destruct (IH (handlePreviousMonth tz s)) as (s' & Hr & Hp & Hn); [lia|].
    exists s'. split; [exact Hr|].
    split; [exact (same_page_state_trans _ _ _ (handlePreviousMonth_page s) Hp)|]. lia.
Qed.

Lemma index_fields t y m :
  0 <= m < 12 -> month_index t = y * 12 + m -> getFullYear tz t = y /\ getMonth tz t = m.
Proof.
  intros Hm E. destruct (month_index_fields t) as [A B]. rewrite A, B, E.
  split; [rewrite Z.div_add_l, Z.div_small by lia; lia|].
  rewrite Z.add_comm, Z.mod_add, Z.mod_small by lia. reflexivity.
Qed.

(** ** The lowest displayed year *)

(** What an event does to [currentDate]: the month buttons rebuild it,
    every other event keeps it. *)
Definition step_date (ev : event) (t : Z) : Z :=
  match ev with
  | PreviousMonth => new_date tz (getFullYear tz t) (getMonth tz t - 1) 1
  | NextMonth => new_date tz (getFullYear tz t) (getMonth tz t + 1) 1
  | _ => t
  end.

Lemma step_date_prev s :
  step_date PreviousMonth (currentDate s) = currentDate (handlePreviousMonth tz s).
Proof. unfold step_date, handlePreviousMonth. cbn [currentDate]. reflexivity. Qed.

Lemma step_date_next s :
  step_date NextMonth (currentDate s) = currentDate (handleNextMonth tz s).
Proof. unfold step_date, handleNextMonth. cbn [currentDate]. reflexivity. Qed.

Lemma dispatch_date ev s s' :
  dispatch tz ev s = Some s' -> currentDate s' = step_date ev (currentDate s).
Proof.
  intros Hd. destruct ev.
  - cbn [dispatch] in Hd. apply some_inj in Hd as <-. symmetry. apply step_date_prev.
  - cbn [dispatch] in Hd. apply some_inj in Hd as <-. symmetry. apply step_date_next.
  - now apply dispatch_DateClick in Hd as [_ ->].
  - now apply dispatch_MemoChange in Hd as [_ ->].
  - now apply dispatch_SaveMemo in Hd as [_ ->].
  - apply dispatch_EditMemo in Hd as [_ Hd]. unfold handleEditMemo in Hd.
    destruct (JsObject.get _ _); [now injection Hd as <-|discriminate].
  - now apply dispatch_DeleteMemo in Hd as [_ ->].
Qed.

(** December 99 is month 1199: from there on, a month button never goes
    below it. *)
Lemma floor_step s :
  1199 <= month_index (currentDate s) ->
  1199 <= month_index (currentDate (handlePreviousMonth tz s)) /\
  1199 <= month_index (currentDate (handleNextMonth tz s)).
Proof.
  intros Hi. rewrite prev_index, next_index.
  pose proof (displayed_year_index s) as Y. pose proof (month_index_fields (currentDate s)) as [_ M].
  fold (displayed_month s) in M.
  assert (99 <= displayed_year s) by (rewrite Y; apply Z.div_le_lower_bound; lia).
  destruct (Z.le_gt_cases (displayed_year s) 99) as [H99|H100].
  - replace (displayed_year s) with 99 by lia. replace (full_year 99) with 1999 by reflexivity. pose proof (getMonth_range tz (currentDate s)).
    unfold displayed_month. lia.
  - rewrite (full_year_index s ltac:(lia)).
    pose proof (Z.mul_div_le (month_index (currentDate s)) 12 ltac:(lia)). lia.
Qed.

(** C23: In a session mounted in a year from 100 on, whatever the events,
    the displayed year is at least 99, and 99 is only shown as December:
    going back from January 100 shows December 99 and then November 1999,
    so the years 0 to 98 can never be displayed. *)
Theorem year_floor now entry s0 s :
  mount now entry = Mounted s0 -> 100 <= getFullYear tz now -> reachable tz s0 s ->
  99 <= displayed_year s /\ (displayed_year s = 99 -> displayed_month s = 11).
Proof.
  intros M Hnow R.
  assert (Hi : 1199 <= month_index (currentDate s)).
  { induction R as [|s ev s' R IH Hd].
    - destruct (mount_start now entry s0 M) as (_ & _ & _ & _ & ->).
      unfold month_index. pose proof (getMonth_range tz now). lia.
    - destruct (floor_step s IH) as [Hp Hn].
      rewrite (dispatch_date ev s s' Hd).
      destruct ev; [rewrite step_date_prev; exact Hp|rewrite step_date_next; exact Hn|exact IH..]. }
  pose proof (displayed_year_index s) as Y. pose proof (month_index_fields (currentDate s)) as [_ Mo].
  fold (displayed_month s) in Mo.
  split; [rewrite Y; apply Z.div_le_lower_bound; lia|].
  intros E. rewrite Y in E. rewrite Mo.
  assert (month_index (currentDate s) < 1200) by (pose proof (Z.mod_pos_bound (month_index (currentDate s)) 12); pose proof (Z.div_mod (month_index (currentDate s)) 12); lia).
  replace (month_index (currentDate s)) with 1199 by lia. reflexivity.
Qed.

End Index.

(** ** Witnesses *)

Lemma year_floor_witness :
  mount (feb_2024 tz_utc) None = Mounted start /\ 100 <= getFullYear tz_utc (feb_2024 tz_utc) /\
  reachable tz_utc start saved /\
  (99 <= displayed_year tz_utc saved /\ (displayed_year tz_utc saved = 99 -> displayed_month tz_utc saved = 11)).
Proof.
  assert (H : 100 <= getFullYear tz_utc (feb_2024 tz_utc)) by (vm_compute; discriminate).
  exact (conj mount_start_feb (conj H (conj saved_reachable
    (year_floor tz_utc _ _ _ _ mount_start_feb H saved_reachable)))).
Defined.

End Navigation.
