(* ===== verification/Page.v ===== *)
(** * What the page shows: memo dots and the memo viewer

    The date cells of the page a state renders ([page_cells], the
    [{renderCalendar()}] of src/src/App.jsx line 121) meet the controller's
    view of the memos here.  The memo dot of a cell (line 95) and the memo
    viewer shown after selecting it (lines 124-130) read the same entry of
    [memos], so they agree ([dot_iff_viewer]), on every page, the empty
    page of an out-of-range month included. *)

From Stdlib Require Import ZArith Lia List Bool.
From S2P Require Import Prelude JsString JsDate DateFacts MemoStore Json Grid App.
Import ListNotations JsDate DateFacts Grid App.

Open Scope Z_scope.

Module Page.

(** The date cells of the page a state renders: [{renderCalendar()}]
    (line 121) with the state's hooks. *)
Definition page_cells (tz : Z) (s : state) : option (list cell) :=
  renderCalendar tz (currentDate s) (selectedDate s) (memos s).

Lemma page_cells_eq tz s :
  page_cells tz s = renderCalendar tz (currentDate s) (selectedDate s) (memos s).
Proof. reflexivity. Qed.

Lemma length_day_key d : length (day_key d) = 10%nat.
Proof.
  unfold day_key. rewrite length_firstn, !length_app. cbn [length].
  pose proof (length_iso_year (year_of_day d)).
  pose proof (JsString.length_zero_padded (month_of_day d + 1) 2).
  pose proof (JsString.length_zero_padded (date_of_day d) 2). lia.
Qed.

(** C8: The memo dot of a cell and the memo viewer agree: when the cell
    is the selected date, the viewer is shown exactly when the cell has
    its [has-memo] class and dot. *)
Theorem dot_iff_viewer tz s cells c :
  page_cells tz s = Some cells -> In c cells ->
  selectedDate s = Some (cell_key c) ->
  viewer_shown s = cell_has_memo c.
Proof.
  intros Hr Hc Hs. rewrite page_cells_eq in Hr. apply render_cells in Hr as [->|<-]; [destruct Hc|].
  apply in_map_iff in Hc as (d & <- & _).
  unfold viewer_shown. rewrite Hs. cbn [property_key].
  unfold cell_of_day, make_cell. cbn [cell_key cell_has_memo].
  rewrite formatted_date_key. unfold truthy at 1.
  destruct (day_key (Day (UTC tz (MakeDate d 0)))) eqn:E;
    [pose proof (length_day_key (Day (UTC tz (MakeDate d 0)))) as L; rewrite E in L; discriminate|].
  reflexivity.
Qed.

(** ** Witnesses *)

Ltac grid_of tz s :=
  match eval vm_compute in (page_cells tz s) with
  | Some ?c =>
      exists c;
      assert (Hr : page_cells tz s = Some c) by (vm_compute; reflexivity)
  end.

Lemma dot_iff_viewer_witness :
  exists cells c, page_cells tz_utc saved = Some cells /\
  In c cells /\ selectedDate saved = Some (cell_key c) /\ viewer_shown saved = cell_has_memo c.
Proof.
  grid_of tz_utc saved.
  match type of Hr with
  | _ = Some ?cs =>
      match eval vm_compute in (List.find (fun c => str_eqb (cell_key c) key_feb_14) cs) with
      | Some ?c0 =>
          exists c0;
          assert (Hin : In c0 cs) by (vm_compute; tauto);
          assert (Hs : selectedDate saved = Some (cell_key c0)) by (vm_compute; reflexivity);
          exact (conj Hr (conj Hin (conj Hs (dot_iff_viewer tz_utc saved _ c0 Hr Hin Hs))))
      end
  end.
Defined.

End Page.
