(* ===== verification/Title.v ===== *)
(** * The memo title: [formatDate]

    While a date is selected the page shows
    [`${formatDate(selectedDate)} 메모`] (src/src/App.jsx, line 133), where
    [formatDate] (lines 63-69) rebuilds a [Date] from the key and prints
    its local year, month and day as [`${year}년 ${month}월 ${day}일`].
    The key is a UTC date ([Grid.grid_keys]) and [new Date(key)] reads a
    date-only string as UTC midnight ([DateParse]), but the getters read
    local time: away from Greenwich the title names the day before the
    clicked cell ([title_of_cell]). *)

From Stdlib Require Import ZArith Lia List Bool.
From Stdlib Require String.
Import String.StringSyntax.
From S2P Require Import Prelude JsString JsDate DateFacts DateParse MemoStore Grid App.
Import ListNotations JsDate DateFacts DateParse Grid App.

Delimit Scope string_scope with string.
Open Scope Z_scope.

Module Title.

(** [`${year}년 ${month}월 ${day}일`] with the three substitutions already
    converted to strings (년 U+B144, 월 U+C6D4, 일 U+C77C). *)
Definition date_label (year month day : jsstr) : jsstr :=
  year ++ [45380; 32] ++ month ++ [50900; 32] ++ day ++ [51068].

(** [String(NaN)]. *)
Definition nan_string : jsstr := JsString.of_ascii "NaN".

Section Format.

Variable tz : Z.

(** [formatDate(dateString)]; [None] for a string outside the date-only
    forms, whose parse is implementation-specific. *)
Definition formatDate (dateString : jsstr) : option jsstr :=
  match date_parse dateString with
  | PTime t =>
      Some (date_label (JsString.number_to_string (getFullYear tz t))
                       (JsString.number_to_string (getMonth tz t + 1))
                       (JsString.number_to_string (getDate tz t)))
  | PNaN => Some (date_label nan_string nan_string nan_string)
  | PUnknown => None
  end.

(** The title of the memo editor, when it is shown:
    [`${formatDate(selectedDate)} 메모`] (메 U+BA54, 모 U+BAA8). *)
Definition memo_title (s : state) : option jsstr :=
  if editor_shown s then
    option_map (fun t => t ++ [32; 47700; 47784]) (formatDate (property_key (selectedDate s)))
  else None.

End Format.

(** The label of the day numbered [x]. *)
Definition day_label (x : Z) : jsstr :=
  date_label (JsString.number_to_string (year_of_day x))
             (JsString.number_to_string (month_of_day x + 1))
             (JsString.number_to_string (date_of_day x)).

(** How many days the title is behind the cell: none at Greenwich, one
    anywhere else. *)
Definition title_shift (tz : Z) : Z := if tz =? 0 then 0 else 1.

Lemma day_local_shift tz d :
  - msPerDay < tz < msPerDay ->
  Day ((d - utc_shift tz) * msPerDay + tz) = d - title_shift tz.
Proof.
  intros Htz. unfold Day, utc_shift, title_shift. unfold msPerDay in *.
  destruct (Z.ltb_spec 0 tz), (Z.eqb_spec tz 0); Z.div_mod_to_equations; lia.
Qed.

(** The title of the date with key [day_key x], for the years 0 to 9999:
    the local date of UTC midnight of [x]. *)
Lemma formatDate_day_key tz x :
  0 <= year_of_day x <= 9999 ->
  formatDate tz (day_key x) = Some (day_label (Day (x * msPerDay + tz))).
Proof. intros Hy. unfold formatDate. now rewrite date_parse_day_key. Qed.

(** C16: Selecting the cell of the day [d] titles the editor with the date
    of [d] at Greenwich and with the date of the day before anywhere else
    (for an offset within one day and the years 0 to 9999): east of
    Greenwich because the key is already the previous UTC date, west of it
    because [new Date(key)] is UTC midnight, which is the previous evening
    locally. *)
Theorem title_of_cell tz month sel memos d :
  - msPerDay < tz < msPerDay -> 0 <= year_of_day (d - utc_shift tz) <= 9999 ->
  formatDate tz (cell_key (cell_of_day tz month sel memos d)) = Some (day_label (d - title_shift tz)).
Proof.
  intros Htz Hy. rewrite cell_key_of_day, formatDate_day_key by assumption.
  now rewrite day_local_shift.
Qed.

(** ** Concrete titles *)

(** New York in winter, UTC-5. *)
Definition tz_new_york : Z := -5 * msPerHour.

(** The title after selecting the cell that shows the 14th of February
    2024. *)
Definition title_of_14 (tz : Z) : option jsstr :=
  match renderCalendar tz (feb_2024 tz) None JsObject.empty with
  | Some cells =>
      match List.filter (fun c => (cell_day c =? 14) && negb (cell_other_month c)) cells with
      | [c] => formatDate tz (cell_key c)
      | _ => None
      end
  | None => None
  end.

Definition label_2024_02 (day : String.string) : jsstr :=
  date_label (JsString.of_ascii "2024") (JsString.of_ascii "2") (JsString.of_ascii day).

(** Selecting the 14th of February 2024 titles the editor "2024년 2월
    14일" at Greenwich, but "2024년 2월 13일" in Seoul and in New York. *)
Example titles_of_14 :
  title_of_14 tz_utc = Some (label_2024_02 "14"%string) /\
  title_of_14 tz_seoul = Some (label_2024_02 "13"%string) /\
  title_of_14 tz_new_york = Some (label_2024_02 "13"%string).
Proof. split; [|split]; vm_compute; reflexivity. Qed.

Lemma title_of_cell_witness :
  - msPerDay < tz_seoul < msPerDay /\
  0 <= year_of_day (MakeDay 2024 1 14 - utc_shift tz_seoul) <= 9999 /\
  formatDate tz_seoul (cell_key (cell_of_day tz_seoul 1 None JsObject.empty (MakeDay 2024 1 14))) =
  Some (day_label (MakeDay 2024 1 14 - title_shift tz_seoul)).
Proof.
  assert (H1 : - msPerDay < tz_seoul < msPerDay) by (unfold tz_seoul, msPerHour, msPerDay; lia).
  assert (H2 : 0 <= year_of_day (MakeDay 2024 1 14 - utc_shift tz_seoul) <= 9999)
    by (vm_compute; split; discriminate).
  exact (conj H1 (conj H2 (title_of_cell tz_seoul 1 None JsObject.empty _ H1 H2))).
Defined.

End Title.
