(* ===== verification/Header.v ===== *)
(** * The month header: [toLocaleString]

    The header between the month buttons shows
    [currentDate.toLocaleString('default', { month: 'long', year: 'numeric' })]
    (src/src/App.jsx, line 109).  ECMA-402 formats a date by a pattern of
    the locale's data ([FormatDateTimePattern]): the pattern for a long
    month and a numeric year is a list of literals and fields, the year
    field prints the year of the era ([1 - y] for the years [y <= 0]) and
    the month field prints the locale's long name of the month, both read
    in local time.  The locale is the host's default one, so its data is a
    parameter [loc] of the model; [en_US] and [ko_KR] are two instances
    with the data of CLDR ("February 2024", "2024년 2월").

    [header_identifies_month]: for a locale whose pattern puts one literal
    between the year and the month, and whose month names are distinct
    (checked by [locale_wf]), two dates of the years from 1 on show the
    same header exactly when they have the same month index; so every
    click on a month button changes the header. *)

From Stdlib Require Import ZArith Lia List Bool.
From Stdlib Require String.
Import String.StringSyntax.
From S2P Require Import Prelude JsString JsDate DateFacts MemoStore Grid App Navigation.
Import ListNotations JsDate DateFacts Grid App Navigation.

Delimit Scope string_scope with string.
Open Scope Z_scope.

Module Header.

(** The parts of a date-time pattern used by the header. *)
Inductive pattern_part :=
| Literal (s : jsstr)
| YearField
| MonthField.

(** The locale data [toLocaleString] reads for [{month: 'long', year:
    'numeric'}]: the year-month pattern and the twelve long month names. *)
Record locale := mk_locale {
  year_month_pattern : list pattern_part;
  month_names_long : list jsstr
}.

(** The year field with [year: 'numeric']: the year of the era. *)
Definition format_year (y : Z) : jsstr :=
  JsString.number_to_string (if y <=? 0 then 1 - y else y).

Definition format_part (loc : locale) (y m : Z) (p : pattern_part) : jsstr :=
  match p with
  | Literal s => s
  | YearField => format_year y
  | MonthField => nth (Z.to_nat m) (month_names_long loc) []
  end.

(** [FormatDateTimePattern]: the parts of the pattern, each field
    replaced by its formatted value, concatenated. *)
Definition format_year_month (loc : locale) (y m : Z) : jsstr :=
  concat (map (format_part loc y m) (year_month_pattern loc)).

(** [Date.prototype.toLocaleString] with the header's options, in the
    local time of offset [tz]. *)
Definition toLocaleString (tz : Z) (loc : locale) (t : Z) : jsstr :=
  format_year_month loc (YearFromTime (LocalTime tz t)) (MonthFromTime (LocalTime tz t)).

(** The [<h2>] of the calendar header. *)
Definition month_header (tz : Z) (loc : locale) (s : state) : jsstr :=
  toLocaleString tz loc (currentDate s).

(** ** Locale data *)

Definition en_US : locale :=
  mk_locale [MonthField; Literal [32]; YearField]
    (map JsString.of_ascii
       ["January"; "February"; "March"; "April"; "May"; "June"; "July";
        "August"; "September"; "October"; "November"; "December"]%string).

(** Korean month names are the month number followed by 월 (U+C6D4);
    the pattern is [y년 MMMM] (년 U+B144). *)
Definition ko_KR : locale :=
  mk_locale [YearField; Literal [45380; 32]; MonthField]
    (map (fun i => JsString.number_to_string (Z.of_nat i) ++ [50900]) (seq 1 12)).

(** A locale whose pattern is a year and a month separated by one literal
    that cannot be read as part of the year, with twelve distinct month
    names. *)
Definition separated (loc : locale) : bool :=
  match year_month_pattern loc with
  | [YearField; Literal l; MonthField] => JsString.head_nondigit l && negb (length l =? 0)%nat
  | [MonthField; Literal l; YearField] => JsString.head_nondigit (rev l) && negb (length l =? 0)%nat
  | _ => false
  end.

Definition names_distinct (names : list jsstr) : bool :=
  forallb (fun i => forallb (fun j => (i =? j)%nat || negb (str_eqb (nth i names []) (nth j names [])))
                            (seq 0 12)) (seq 0 12).

Definition locale_wf (loc : locale) : bool :=
  separated loc && names_distinct (month_names_long loc).

(** ** Reading the year and the month back from the header *)

Lemma forallb_rev {A} (p : A -> bool) l : forallb p (rev l) = forallb p l.
Proof.
  induction l as [|x l IH]; cbn [rev forallb]; [reflexivity|].
  rewrite forallb_app, IH. cbn [forallb]. now rewrite andb_true_r, andb_comm.
Qed.

Lemma rev_inj {A} (a b : list A) : rev a = rev b -> a = b.
Proof. intros E. rewrite <- (rev_involutive a), <- (rev_involutive b). now f_equal. Qed.

Lemma head_nondigit_app l r :
  l <> [] -> JsString.head_nondigit (l ++ r) = JsString.head_nondigit l.
Proof. destruct l; [contradiction|reflexivity]. Qed.

Lemma format_year_pos y : 1 <= y -> format_year y = JsString.number_to_string y.
Proof. intros Hy. unfold format_year. now replace (y <=? 0) with false by (symmetry; apply Z.leb_gt; lia). Qed.

Lemma format_year_digits y : 1 <= y -> forallb JsString.is_digit (format_year y) = true.
Proof. intros Hy. rewrite format_year_pos by exact Hy. apply JsString.number_to_string_digits. lia. Qed.

Lemma format_year_inj y y' : 1 <= y -> 1 <= y' -> format_year y = format_year y' -> y = y'.
Proof.
  intros Hy Hy'. rewrite !format_year_pos by assumption.
  apply JsString.number_to_string_inj; lia.
Qed.

Lemma separated_cases loc :
  separated loc = true ->
  exists l, l <> [] /\
    ((year_month_pattern loc = [YearField; Literal l; MonthField] /\ JsString.head_nondigit l = true) \/
     (year_month_pattern loc = [MonthField; Literal l; YearField] /\ JsString.head_nondigit (rev l) = true)).
Proof.
  unfold separated. destruct (year_month_pattern loc) as [|[l1| |] [|[l2| |] [|[l3| |] [|]]]];
    try discriminate; intros H; apply andb_true_iff in H as [H L];
    (exists l2; split; [destruct l2; discriminate|]); auto.
Qed.

Lemma names_distinct_spec names i j :
  names_distinct names = true -> (i < 12)%nat -> (j < 12)%nat ->
  nth i names [] = nth j names [] -> i = j.
Proof.
  unfold names_distinct. rewrite forallb_forall. intros H Hi Hj E.
  specialize (H i (proj2 (in_seq 12 0 i) ltac:(lia))). rewrite forallb_forall in H.
  specialize (H j (proj2 (in_seq 12 0 j) ltac:(lia))). rewrite E, str_eqb_refl, orb_false_r in H.
  now apply Nat.eqb_eq.
Qed.

Lemma month_name_inj loc m m' :
  names_distinct (month_names_long loc) = true -> 0 <= m < 12 -> 0 <= m' < 12 ->
  format_part loc 0 m MonthField = format_part loc 0 m' MonthField -> m = m'.
Proof.
  intros D Hm Hm' E. cbn [format_part] in E.
  apply names_distinct_spec in E; [|exact D|lia|lia]. lia.
Qed.

(** The header determines the year and the month, for the years from 1
    on: the year is the digit string the literal ends (or starts). *)
Lemma year_month_inj loc y m y' m' :
  locale_wf loc = true -> 1 <= y -> 1 <= y' -> 0 <= m < 12 -> 0 <= m' < 12 ->
  format_year_month loc y m = format_year_month loc y' m' -> y = y' /\ m = m'.
Proof.
  unfold locale_wf. intros W Hy Hy' Hm Hm'. apply andb_true_iff in W as [S D].
  destruct (separated_cases loc S) as (l & Hl & [[P H] | [P H]]);
    unfold format_year_month; rewrite P; cbn [map concat format_part]; rewrite !app_nil_r; intros E.
  - apply JsString.digits_prefix_inj in E as [Ey En];
      try apply format_year_digits; try rewrite head_nondigit_app; auto.
    apply app_inv_head in En.
    split; [exact (format_year_inj y y' Hy Hy' Ey)|exact (month_name_inj loc m m' D Hm Hm' En)].
  - apply (f_equal (@rev Z)) in E. rewrite !rev_app_distr, <- !app_assoc in E.
    assert (Hr : rev l <> []) by (intros Hr; apply Hl, (rev_inj l []), Hr).
    apply JsString.digits_prefix_inj in E as [Ey En];
      try (rewrite forallb_rev; apply format_year_digits); try rewrite head_nondigit_app; auto.
    apply app_inv_head, rev_inj in En. apply rev_inj in Ey.
    split; [exact (format_year_inj y y' Hy Hy' Ey)|exact (month_name_inj loc m m' D Hm Hm' En)].
Qed.

Lemma month_header_fields tz loc s :
  month_header tz loc s = format_year_month loc (displayed_year tz s) (displayed_month tz s).
Proof. reflexivity. Qed.

Lemma header_index tz loc s s' :
  locale_wf loc = true -> 1 <= displayed_year tz s -> 1 <= displayed_year tz s' ->
  month_header tz loc s = month_header tz loc s' <->
  month_index tz (currentDate s) = month_index tz (currentDate s').
Proof.
  intros W Hy Hy'. rewrite !month_header_fields.
  pose proof (getMonth_range tz (currentDate s)). pose proof (getMonth_range tz (currentDate s')).
  destruct (month_index_fields tz (currentDate s)) as [A B], (month_index_fields tz (currentDate s')) as [A' B'].
  unfold displayed_year, displayed_month in *. split.
  - intros E. apply year_month_inj in E as [Ey Em]; auto. unfold month_index. lia.
  - intros E. rewrite A, B, A', B', E. reflexivity.
Qed.

(** C24: The header identifies the displayed month: for a locale whose
    year-month pattern separates the year from the month by a literal and
    whose month names are distinct, two states whose displayed years are
    from 1 on show the same header exactly when they display the same
    month of the same year. *)
Theorem header_identifies_month tz loc s s' :
  locale_wf loc = true -> 1 <= displayed_year tz s -> 1 <= displayed_year tz s' ->
  (month_header tz loc s = month_header tz loc s' <->
   month_index tz (currentDate s) = month_index tz (currentDate s')).
Proof. exact (header_index tz loc s s'). Qed.

(** Clicking ">" [n] times from a displayed year from 100 on shows a
    new header, unless [n] is zero: the header never repeats while moving
    forward. *)
Theorem next_presses_header tz loc n s s' :
  locale_wf loc = true -> 100 <= displayed_year tz s ->
  run tz (repeat NextMonth n) s = Some s' ->
  (month_header tz loc s' = month_header tz loc s <-> n = O).
Proof.
  intros W Hy Hr. destruct (run_next tz n s Hy) as (s2 & Hr2 & _ & Hi). rewrite Hr in Hr2. injection Hr2 as <-.
  assert (100 <= displayed_year tz s') by (apply (displayed_year_mono tz s); lia).
  rewrite header_index by (auto; lia). lia.
Qed.

(** ** Concrete headers *)

(** On the page of February 2024, the header reads "February 2024"
    in the [en-US] locale and "2024년 2월" in the [ko-KR] locale, and both
    locales satisfy [locale_wf]. *)
Example headers_feb_2024 :
  month_header tz_utc en_US (initial (feb_2024 tz_utc)) = JsString.of_ascii "February 2024"%string /\
  month_header tz_seoul ko_KR (initial (feb_2024 tz_seoul)) = [50; 48; 50; 52; 45380; 32; 50; 50900] /\
  locale_wf en_US = true /\ locale_wf ko_KR = true.
Proof. repeat split; vm_compute; reflexivity. Qed.

Lemma header_identifies_month_witness :
  locale_wf ko_KR = true /\ 1 <= displayed_year tz_utc start /\ 1 <= displayed_year tz_utc saved /\
  (month_header tz_utc ko_KR start = month_header tz_utc ko_KR saved <->
   month_index tz_utc (currentDate start) = month_index tz_utc (currentDate saved)).
Proof.
  assert (W : locale_wf ko_KR = true) by (vm_compute; reflexivity).
  assert (H1 : 1 <= displayed_year tz_utc start) by (vm_compute; discriminate).
  assert (H2 : 1 <= displayed_year tz_utc saved) by (vm_compute; discriminate).
  exact (conj W (conj H1 (conj H2 (header_identifies_month tz_utc ko_KR start saved W H1 H2)))).
Defined.

Lemma next_presses_header_witness :
  locale_wf en_US = true /\ 100 <= displayed_year tz_utc start /\
  exists s', run tz_utc (repeat NextMonth 3) start = Some s' /\
             (month_header tz_utc en_US s' = month_header tz_utc en_US start <-> 3%nat = O).
Proof.
  assert (W : locale_wf en_US = true) by (vm_compute; reflexivity).
  assert (H : 100 <= displayed_year tz_utc start) by (vm_compute; discriminate).
  split; [exact W|]. split; [exact H|].
  destruct (run_next tz_utc 3 start H) as (s' & Hr & _).
  exists s'. exact (conj Hr (next_presses_header tz_utc en_US 3 start s' W H Hr)).
Defined.

End Header.
