(* ===== verification/DateRange.v ===== *)
(** * The range of time values along a session: Invalid Date

    The [Date] constructor ends with [TimeClip] (ECMA-262 21.4.1.31,
    [JsDate.TimeClip]): a time value farther than 8.64e15 ms from the epoch
    becomes NaN, an Invalid Date.  The component's model ([App]) keeps
    [currentDate] as an unbounded integer.  Here the date value the code
    holds is an [option Z], [None] for NaN, and the month buttons
    (src/src/App.jsx lines 23-31) are translated with the clipping and
    with NaN propagating through [getFullYear], [getMonth] and [+ 1].

    - [buttons_clip]: for an offset within one day, "<" and ">" give a
      valid date exactly when the month they build lies between May
      -271821 and September 275760 ([DateFacts.month_start_clip]).
    - [next_month_steps]: when the date ">" builds is valid, it is the
      first of the next month and the model's [currentDate].
    - [next_presses_clip]: clicking ">" [n] times keeps a valid date, the
      model's, exactly while the month index stays at most September
      275760.  After that the date is Invalid Date for good, the header
      reads "Invalid Date" and the grid is empty ([invalid_date_page]).
    - [navigation_reaches]: within the years from 100 to 275760 the
      buttons reach every month, and the date the code holds stays valid
      all the way and equal to the model's. *)

From Stdlib Require Import ZArith Lia List Bool.
From Stdlib Require String.
Import String.StringSyntax.
From S2P Require Import Prelude JsString JsDate DateFacts MemoStore Grid App Navigation Header.
Import ListNotations JsDate DateFacts Grid App Navigation Header.

Delimit Scope string_scope with string.
Open Scope Z_scope.

Module DateRange.

(** A date value: a time value, or [None] for an Invalid Date. *)
Definition date_value := option Z.

Section Value.

Variable tz : Z.

(** [new Date(y, m)] on numbers that may be NaN. *)
Definition new_date_value (y m : option Z) : date_value :=
  match y, m with
  | Some y, Some m => TimeClip (new_date tz y m 1)
  | _, _ => None
  end.

(** [handlePreviousMonth] and [handleNextMonth] on the date value:
    [getFullYear], [getMonth] and [+ 1] give NaN on NaN. *)
Definition handlePreviousMonth_value (cd : date_value) : date_value :=
  new_date_value (option_map (getFullYear tz) cd) (option_map (fun t => getMonth tz t - 1) cd).

Definition handleNextMonth_value (cd : date_value) : date_value :=
  new_date_value (option_map (getFullYear tz) cd) (option_map (fun t => getMonth tz t + 1) cd).

Lemma handleNextMonth_value_eq t :
  handleNextMonth_value (Some t) = TimeClip (new_date tz (getFullYear tz t) (getMonth tz t + 1) 1).
Proof. unfold handleNextMonth_value, new_date_value. cbn [option_map]. reflexivity. Qed.

(** What an event does to the date value: only the month buttons change
    it. *)
Definition step_value (ev : event) (cd : date_value) : date_value :=
  match ev with
  | PreviousMonth => handlePreviousMonth_value cd
  | NextMonth => handleNextMonth_value cd
  | _ => cd
  end.

Fixpoint run_value (evs : list event) (cd : date_value) : date_value :=
  match evs with
  | [] => cd
  | ev :: evs' => run_value evs' (step_value ev cd)
  end.

(** The header on a date value: [toLocaleString] returns "Invalid Date"
    on NaN (ECMA-402, [Date.prototype.toLocaleString] step 2). *)
Definition header_value (loc : locale) (cd : date_value) : jsstr :=
  match cd with
  | Some t => toLocaleString tz loc t
  | None => JsString.of_ascii "Invalid Date"%string
  end.

(** [renderCalendar] on a date value: on NaN every date of the function
    is NaN and [NaN <= NaN] is false, so the loop pushes nothing. *)
Definition renderCalendar_value (cd : date_value) (selectedDate : option jsstr)
  (memos : JsObject.t) : option (list cell) :=
  match cd with
  | Some t => renderCalendar tz t selectedDate memos
  | None => Some []
  end.

End Value.

(** C25: Bounds of the month buttons: for an offset within one day, the
    "<" and ">" buttons give a valid date exactly when the month they
    build (the displayed year, read as [1900 + y] for [y] in [0, 99],
    and the displayed month minus or plus one) is between May of the
    year -271821 and September of the year 275760; outside, the [Date]
    constructor's [TimeClip] makes it an Invalid Date. *)
Theorem buttons_clip tz t :
  - msPerDay < tz < msPerDay ->
  let i := full_year (getFullYear tz t) * 12 + getMonth tz t in
  handlePreviousMonth_value tz (Some t) =
    (if (first_index <=? i - 1) && (i - 1 <=? last_index)
     then Some (new_date tz (getFullYear tz t) (getMonth tz t - 1) 1) else None) /\
  handleNextMonth_value tz (Some t) =
    (if (first_index <=? i + 1) && (i + 1 <=? last_index)
     then Some (new_date tz (getFullYear tz t) (getMonth tz t + 1) 1) else None).
Proof.
  intros Htz i. unfold handlePreviousMonth_value, handleNextMonth_value. cbn [option_map new_date_value].
  rewrite !month_start_clip by exact Htz. subst i.
  rewrite !Z.add_assoc, !Z.add_sub_assoc. split; reflexivity.
Qed.

(** ** The date value along a session *)

Section Runs.

Variable tz : Z.

Lemma run_value_none evs : run_value tz evs None = None.
Proof. induction evs as [|ev evs IH]; [reflexivity|]. destruct ev; exact IH. Qed.

Lemma run_next_cons n s : run tz (repeat NextMonth (S n)) s = run tz (repeat NextMonth n) (handleNextMonth tz s).
Proof. reflexivity. Qed.

Lemma run_value_next_cons n cd :
  run_value tz (repeat NextMonth (S n)) cd = run_value tz (repeat NextMonth n) (handleNextMonth_value tz cd).
Proof. reflexivity. Qed.

Lemma next_index_step s :
  100 <= displayed_year tz s ->
  month_index tz (currentDate (handleNextMonth tz s)) = month_index tz (currentDate s) + 1.
Proof. intros Hy. rewrite next_index, <- (full_year_index tz s Hy). lia. Qed.

(** One click on ">" from a displayed year from 100 on: a valid date
    exactly up to September 275760. *)
Lemma next_value_step s :
  - msPerDay < tz < msPerDay -> 100 <= displayed_year tz s ->
  handleNextMonth_value tz (Some (currentDate s)) =
  if month_index tz (currentDate s) + 1 <=? last_index
  then Some (currentDate (handleNextMonth tz s)) else None.
Proof.
  intros Htz Hy. unfold handleNextMonth_value, handleNextMonth.
  cbn [option_map new_date_value currentDate].
  rewrite month_start_clip by exact Htz.
  pose proof (full_year_index tz s Hy) as E. unfold displayed_year, displayed_month in E.
  assert (F : full_year (getFullYear tz (currentDate s)) * 12 + (getMonth tz (currentDate s) + 1) =
              month_index tz (currentDate s) + 1) by lia.
  assert (G : (first_index <=? month_index tz (currentDate s) + 1) = true).
  { apply Z.leb_le. rewrite <- E. unfold first_index. pose proof (getMonth_range tz (currentDate s)).
    unfold displayed_year in Hy. rewrite full_year_id by lia. lia. }
  rewrite F, G. reflexivity.
Qed.

Lemma next_presses_value n s s' :
  - msPerDay < tz < msPerDay -> 100 <= displayed_year tz s ->
  month_index tz (currentDate s) <= last_index ->
  run tz (repeat NextMonth n) s = Some s' ->
  run_value tz (repeat NextMonth n) (Some (currentDate s)) =
  if month_index tz (currentDate s) + Z.of_nat n <=? last_index then Some (currentDate s') else None.
Proof.
  revert s. induction n as [|n IH]; intros s Htz Hy Hl Hr.
  - injection Hr as <-. cbn [repeat run_value].
    rewrite (proj2 (Z.leb_le _ _)) by lia. reflexivity.
  - rewrite run_next_cons in Hr. rewrite run_value_next_cons, (next_value_step s Htz Hy).
    pose proof (next_index_step s Hy) as Hi1.
    destruct (Z.leb_spec (month_index tz (currentDate s) + 1) last_index).
    + rewrite (IH (handleNextMonth tz s) Htz); [|apply (displayed_year_mono tz s); lia|lia|exact Hr].
      now replace (month_index tz (currentDate (handleNextMonth tz s)) + Z.of_nat n)
        with (month_index tz (currentDate s) + Z.of_nat (S n)) by lia.
    + rewrite run_value_none, (proj2 (Z.leb_gt _ _)) by lia. reflexivity.
Qed.

(** C26: Clicking ">" [n] times from a valid date of a year from 100 on
    keeps a valid date, the model's, exactly while the month index stays
    at most September 275760; after that the date is an Invalid Date. *)
Theorem next_presses_clip n s s' :
  - msPerDay < tz < msPerDay -> 100 <= displayed_year tz s ->
  month_index tz (currentDate s) <= last_index ->
  run tz (repeat NextMonth n) s = Some s' ->
  run_value tz (repeat NextMonth n) (Some (currentDate s)) =
  if month_index tz (currentDate s) + Z.of_nat n <=? last_index then Some (currentDate s') else None.
Proof. exact (next_presses_value n s s'). Qed.

Lemma run_prev_cons n s :
  run tz (repeat PreviousMonth (S n)) s = run tz (repeat PreviousMonth n) (handlePreviousMonth tz s).
Proof. reflexivity. Qed.

Lemma run_value_prev_cons n cd :
  run_value tz (repeat PreviousMonth (S n)) cd =
  run_value tz (repeat PreviousMonth n) (handlePreviousMonth_value tz cd).
Proof. reflexivity. Qed.

(** One click on "<" from a valid date of a year from 100 on stays a
    valid date. *)
Lemma prev_value_step s :
  - msPerDay < tz < msPerDay -> 100 <= displayed_year tz s ->
  month_index tz (currentDate s) <= last_index ->
  handlePreviousMonth_value tz (Some (currentDate s)) = Some (currentDate (handlePreviousMonth tz s)).
Proof.
  intros Htz Hy Hl. unfold handlePreviousMonth_value, handlePreviousMonth.
  cbn [option_map new_date_value currentDate].
  rewrite month_start_clip by exact Htz.
  pose proof (full_year_index tz s Hy) as E. unfold displayed_year, displayed_month in E.
  pose proof (getMonth_range tz (currentDate s)). unfold displayed_year in Hy.
  rewrite full_year_id in E |- * by lia.
  replace ((first_index <=? _) && _) with true
    by (symmetry; apply andb_true_iff; rewrite !Z.leb_le; unfold first_index; lia).
  reflexivity.
Qed.

(** [n] clicks on "<" that stay in the years from 100 on keep a valid
    date, the model's. *)
Lemma prev_presses_value n s s' :
  - msPerDay < tz < msPerDay -> 1200 + Z.of_nat n <= month_index tz (currentDate s) <= last_index ->
  run tz (repeat PreviousMonth n) s = Some s' ->
  run_value tz (repeat PreviousMonth n) (Some (currentDate s)) = Some (currentDate s').
Proof.
  revert s. induction n as [|n IH]; intros s Htz Hi Hr.
  - injection Hr as <-. reflexivity.
  - assert (Hy : 100 <= displayed_year tz s).
    { rewrite displayed_year_index. apply Z.div_le_lower_bound; lia. }
    rewrite run_prev_cons in Hr. rewrite run_value_prev_cons, (prev_value_step s Htz Hy) by lia.
    apply (IH _ Htz); [|exact Hr].
    rewrite prev_index, (full_year_index tz s Hy). lia.
Qed.

(** C21: The ">" button shows the next month, going forward a year from
    December, and keeps the selection and the draft; the year is read
    through [full_year] as for "<".  When the date the code builds is
    valid, it is the model's [currentDate]. *)
Theorem next_month_steps s s' t' :
  dispatch tz NextMonth s = Some s' ->
  handleNextMonth_value tz (Some (currentDate s)) = Some t' ->
  t' = currentDate s' /\
  getFullYear tz t' =
    (if getMonth tz (currentDate s) =? 11 then full_year (getFullYear tz (currentDate s)) + 1
     else full_year (getFullYear tz (currentDate s))) /\
  getMonth tz t' = (if getMonth tz (currentDate s) =? 11 then 0 else getMonth tz (currentDate s) + 1) /\
  getDate tz t' = 1 /\ selectedDate s' = selectedDate s /\ memo s' = memo s.
Proof.
  cbn [dispatch]. intros Hd Hv. apply some_inj in Hd as <-.
  rewrite handleNextMonth_value_eq in Hv. apply TimeClip_some in Hv as ->.
  assert (E : new_date tz (getFullYear tz (currentDate s)) (getMonth tz (currentDate s) + 1) 1 =
              currentDate (handleNextMonth tz s))
    by (unfold handleNextMonth; cbn [currentDate]; reflexivity).
  destruct (handleNextMonth_page tz s) as (Sel & Memo & _).
  destruct (month_start_fields tz (getFullYear tz (currentDate s)) (getMonth tz (currentDate s) + 1))
    as (A & B & C).
  rewrite A, B, C. pose proof (getMonth_range tz (currentDate s)) as Hm.
  destruct (next_month_div _ Hm) as [-> ->].
  split; [exact E|]. destruct (_ =? 11); (split; [lia|]); (split; [lia|]); (split; [lia|]);
    exact (conj Sel Memo).
Qed.

(** C22: Liveness of navigation within the range of dates: from a valid
    date of a displayed year from 100 on, clicking one of the month
    buttons repeatedly reaches any month of a year from 100 on up to
    September 275760; the date the code holds stays valid all the way and
    is the model's, and the selection, the draft, the memos and the
    storage are kept. *)
Theorem navigation_reaches s y m :
  - msPerDay < tz < msPerDay ->
  100 <= displayed_year tz s -> month_index tz (currentDate s) <= last_index ->
  100 <= y -> 0 <= m < 12 -> y * 12 + m <= last_index ->
  exists n s',
    ((run tz (repeat NextMonth n) s = Some s' /\
      run_value tz (repeat NextMonth n) (Some (currentDate s)) = Some (currentDate s')) \/
     (run tz (repeat PreviousMonth n) s = Some s' /\
      run_value tz (repeat PreviousMonth n) (Some (currentDate s)) = Some (currentDate s'))) /\
    displayed_year tz s' = y /\ displayed_month tz s' = m /\ same_page_state s s'.
Proof.
  intros Htz Hy Hl Hy' Hm Hyl. pose proof (month_index_fields tz (currentDate s)) as [A B].
  pose proof Hy as Hy0. unfold displayed_year in Hy0. rewrite A in Hy0.
  assert (1200 <= month_index tz (currentDate s))
    by (pose proof (Z.mul_div_le (month_index tz (currentDate s)) 12); lia).
  destruct (Z.le_gt_cases (month_index tz (currentDate s)) (y * 12 + m)) as [Hle|Hgt].
  - set (n := Z.to_nat (y * 12 + m - month_index tz (currentDate s))).
    destruct (run_next tz n s Hy) as (s' & Hr & Hp & Hi). exists n, s'.
    pose proof (next_presses_value n s s' Htz Hy Hl Hr) as Hv. subst n.
    rewrite Z2Nat.id in Hi, Hv by lia. rewrite (proj2 (Z.leb_le _ _)) in Hv by lia.
    destruct (index_fields tz (currentDate s') y m Hm ltac:(lia)) as [Y M]. auto.
  - set (n := Z.to_nat (month_index tz (currentDate s) - (y * 12 + m))).
    destruct (run_prev tz n s) as (s' & Hr & Hp & Hi); [subst n; rewrite Z2Nat.id; lia|].
    exists n, s'. pose proof (prev_presses_value n s s' Htz ltac:(subst n; rewrite Z2Nat.id; lia) Hr) as Hv.
    subst n. rewrite Z2Nat.id in Hi by lia.
    destruct (index_fields tz (currentDate s') y m Hm ltac:(lia)) as [Y M]. auto.
Qed.

(** An Invalid Date stays invalid whatever the events, the header reads
    "Invalid Date" and the grid has no cell: no date can be clicked. *)
Lemma invalid_date_page loc evs sel memos :
  run_value tz evs None = None /\
  header_value tz loc None = JsString.of_ascii "Invalid Date"%string /\
  renderCalendar_value tz None sel memos = Some [].
Proof. split; [apply run_value_none|split; reflexivity]. Qed.

End Runs.

(** ** The end of the range *)

(** The first of September 275760 at Greenwich, the last first of a
    month that is a valid date. *)
Definition sept_275760 : Z := new_date tz_utc 275760 8 1.

(** At Greenwich, from September 275760 the ">" button gives an
    Invalid Date, which "<" cannot undo and whose header reads "Invalid
    Date", while the unclipped model moves to October and back. *)
Example overflow_275760 :
  TimeClip sept_275760 = Some sept_275760 /\
  run_value tz_utc [NextMonth] (Some sept_275760) = None /\
  run_value tz_utc [NextMonth; PreviousMonth] (Some sept_275760) = None /\
  option_map currentDate (run tz_utc [NextMonth; PreviousMonth] (initial sept_275760)) = Some sept_275760 /\
  header_value tz_utc en_US (run_value tz_utc [NextMonth] (Some sept_275760)) =
    JsString.of_ascii "Invalid Date"%string.
Proof. repeat split; vm_compute; reflexivity. Qed.

(** ** Witnesses *)

Lemma buttons_clip_witness :
  - msPerDay < tz_utc < msPerDay /\
  (let i := full_year (getFullYear tz_utc sept_275760) * 12 + getMonth tz_utc sept_275760 in
   handlePreviousMonth_value tz_utc (Some sept_275760) =
     (if (first_index <=? i - 1) && (i - 1 <=? last_index)
      then Some (new_date tz_utc (getFullYear tz_utc sept_275760) (getMonth tz_utc sept_275760 - 1) 1) else None) /\
   handleNextMonth_value tz_utc (Some sept_275760) =
     (if (first_index <=? i + 1) && (i + 1 <=? last_index)
      then Some (new_date tz_utc (getFullYear tz_utc sept_275760) (getMonth tz_utc sept_275760 + 1) 1) else None)).
Proof.
  assert (H : - msPerDay < tz_utc < msPerDay) by (unfold tz_utc, msPerDay; lia).
  exact (conj H (buttons_clip tz_utc sept_275760 H)).
Defined.

Lemma next_month_steps_witness :
  exists s' t', dispatch tz_utc NextMonth start = Some s' /\
  handleNextMonth_value tz_utc (Some (currentDate start)) = Some t' /\
  (t' = currentDate s' /\
   getFullYear tz_utc t' =
     (if getMonth tz_utc (currentDate start) =? 11 then full_year (getFullYear tz_utc (currentDate start)) + 1
      else full_year (getFullYear tz_utc (currentDate start))) /\
   getMonth tz_utc t' =
     (if getMonth tz_utc (currentDate start) =? 11 then 0 else getMonth tz_utc (currentDate start) + 1) /\
   getDate tz_utc t' = 1 /\ selectedDate s' = selectedDate start /\ memo s' = memo start).
Proof.
  match eval vm_compute in (dispatch tz_utc NextMonth start) with
  | Some ?s1 =>
      match eval vm_compute in (handleNextMonth_value tz_utc (Some (currentDate start))) with
      | Some ?t1 =>
          assert (Hd : dispatch tz_utc NextMonth start = Some s1) by (vm_compute; reflexivity);
          assert (Hv : handleNextMonth_value tz_utc (Some (currentDate start)) = Some t1)
            by (vm_compute; reflexivity);
          exists s1, t1; exact (conj Hd (conj Hv (next_month_steps tz_utc _ _ _ Hd Hv)))
      end
  end.
Defined.

Lemma navigation_reaches_witness :
  - msPerDay < tz_utc < msPerDay /\ 100 <= displayed_year tz_utc start /\
  month_index tz_utc (currentDate start) <= last_index /\
  100 <= 2025 /\ 0 <= 0 < 12 /\ 2025 * 12 + 0 <= last_index /\
  exists n s',
    ((run tz_utc (repeat NextMonth n) start = Some s' /\
      run_value tz_utc (repeat NextMonth n) (Some (currentDate start)) = Some (currentDate s')) \/
     (run tz_utc (repeat PreviousMonth n) start = Some s' /\
      run_value tz_utc (repeat PreviousMonth n) (Some (currentDate start)) = Some (currentDate s'))) /\
    displayed_year tz_utc s' = 2025 /\ displayed_month tz_utc s' = 0 /\ same_page_state start s'.
Proof.
  assert (H2 : 100 <= displayed_year tz_utc start) by (vm_compute; discriminate).
  assert (H3 : month_index tz_utc (currentDate start) <= last_index) by (vm_compute; discriminate).
  assert (H4 : 100 <= 2025) by lia. assert (H5 : 0 <= 0 < 12) by lia.
  assert (H6 : 2025 * 12 + 0 <= last_index) by (unfold last_index; lia).
  exact (conj tz_utc_bound (conj H2 (conj H3 (conj H4 (conj H5 (conj H6
    (navigation_reaches tz_utc start 2025 0 tz_utc_bound H2 H3 H4 H5 H6))))))).
Defined.

Lemma next_presses_clip_witness :
  - msPerDay < tz_utc < msPerDay /\ 100 <= displayed_year tz_utc start /\
  month_index tz_utc (currentDate start) <= last_index /\
  exists s', run tz_utc (repeat NextMonth 3) start = Some s' /\
  run_value tz_utc (repeat NextMonth 3) (Some (currentDate start)) =
  if month_index tz_utc (currentDate start) + Z.of_nat 3 <=? last_index then Some (currentDate s') else None.
Proof.
  assert (H1 : - msPerDay < tz_utc < msPerDay) by (unfold tz_utc, msPerDay; lia).
  assert (H2 : 100 <= displayed_year tz_utc start) by (vm_compute; discriminate).
  assert (H3 : month_index tz_utc (currentDate start) <= last_index) by (vm_compute; discriminate).
  split; [exact H1|]. split; [exact H2|]. split; [exact H3|].
  destruct (run_next tz_utc 3 start H2) as (s' & Hr & _).
  exists s'. exact (conj Hr (next_presses_clip tz_utc 3 start s' H1 H2 H3 Hr)).
Defined.

End DateRange.
