(* ===== verification/Markup.v ===== *)
(** * The markup of the calendar grid

    The children of [<div className="calendar-grid">] (src/src/App.jsx
    lines 113-122) are the seven static weekday headers (lines 114-120,
    [일 월 화 수 목 금 토]) followed by the date cells [renderCalendar]
    pushes (lines 88-97).  A date cell's [className] is the template of
    line 91: ["calendar-date"] and five optional classes, each replaced by
    the empty string when it does not apply, all joined by single spaces.
    The browser reads the [class] attribute with the DOM's ordered-set
    parser: split on ASCII whitespace, duplicates dropped.

    - [class_list_of_cell]: the template and the parser round-trip: the
      class list of a cell is ["calendar-date"] followed by exactly the
      classes whose flag is set, in the template's order, whatever the
      empty substitutions leave as runs of spaces.
    - [header_columns]: the [n]-th date cell carries the [sun] and [sat]
      classes exactly when the header at the same position modulo seven
      does, so a seven-column layout puts every date under its weekday. *)

From Stdlib Require Import ZArith Lia List Bool.
From Stdlib Require String.
Import String.StringSyntax.
From S2P Require Import Prelude JsString JsDate MemoStore Grid.
Import ListNotations Grid.

Delimit Scope string_scope with string.
Open Scope Z_scope.

Module Markup.

(** ** The DOM's class-list parser *)

(** ASCII whitespace: TAB, LF, FF, CR and SPACE. *)
Definition is_ascii_whitespace (c : Z) : bool :=
  (c =? 9) || (c =? 10) || (c =? 12) || (c =? 13) || (c =? 32).

(** Splitting on ASCII whitespace; [cur] is the token being read,
    reversed. *)
Fixpoint split_ws_go (cur : jsstr) (s : jsstr) : list jsstr :=
  match s with
  | [] => match cur with [] => [] | _ => [rev cur] end
  | c :: s' =>
      if is_ascii_whitespace c
      then match cur with [] => [] | _ => [rev cur] end ++ split_ws_go [] s'
      else split_ws_go (c :: cur) s'
  end.

(** Appending to an ordered set: nothing when the token is present. *)
Definition set_append (tokens : list jsstr) (t : jsstr) : list jsstr :=
  if existsb (str_eqb t) tokens then tokens else tokens ++ [t].

(** The ordered set parser, which [classList] applies to the attribute. *)
Definition ordered_set_parse (s : jsstr) : list jsstr :=
  fold_left set_append (split_ws_go [] s) [].

(** ** The elements of the grid *)

(** [${cond ? 'name' : ''}]. *)
Definition class_if (b : bool) (name : String.string) : jsstr :=
  if b then JsString.of_ascii name else [].

(** The template literal of line 91. *)
Definition className (c : cell) : jsstr :=
  JsString.of_ascii "calendar-date"%string ++ [32] ++
  class_if (cell_other_month c) "other-month"%string ++ [32] ++
  class_if (cell_selected c) "selected"%string ++ [32] ++
  class_if (cell_has_memo c) "has-memo"%string ++ [32] ++
  class_if (cell_sun c) "sun"%string ++ [32] ++
  class_if (cell_sat c) "sat"%string.

(** An element of the grid: its class attribute, the text of its
    [<span>], and whether it holds a [memo-dot]. *)
Record element := mk_element {
  el_className : jsstr;
  el_text : jsstr;
  el_memo_dot : bool
}.

(** A date cell (lines 89-96): the day number as text (line 94) and the
    memo dot when the memo is truthy (line 95). *)
Definition cell_element (c : cell) : element :=
  mk_element (className c) (JsString.number_to_string (cell_day c)) (cell_has_memo c).

(** The weekday headers of lines 114-120. *)
Definition weekday_header : list element :=
  [mk_element (JsString.of_ascii "calendar-date common-date sun"%string) [51068] false;
   mk_element (JsString.of_ascii "calendar-date common-date mon"%string) [50900] false;
   mk_element (JsString.of_ascii "calendar-date common-date tue"%string) [54868] false;
   mk_element (JsString.of_ascii "calendar-date common-date wed"%string) [49688] false;
   mk_element (JsString.of_ascii "calendar-date common-date thu"%string) [47785] false;
   mk_element (JsString.of_ascii "calendar-date common-date fri"%string) [44552] false;
   mk_element (JsString.of_ascii "calendar-date common-date sat"%string) [53664] false].

(** The children of [.calendar-grid] (lines 113-122). *)
Definition calendar_grid (cells : list cell) : list element :=
  weekday_header ++ map cell_element cells.

Definition has_class (e : element) (name : String.string) : bool :=
  existsb (str_eqb (JsString.of_ascii name)) (ordered_set_parse (el_className e)).

(** The classes a cell's flags call for, in the template's order. *)
Definition cell_classes (c : cell) : list jsstr :=
  JsString.of_ascii "calendar-date"%string ::
  map JsString.of_ascii
    ((if cell_other_month c then ["other-month"%string] else []) ++
     (if cell_selected c then ["selected"%string] else []) ++
     (if cell_has_memo c then ["has-memo"%string] else []) ++
     (if cell_sun c then ["sun"%string] else []) ++
     (if cell_sat c then ["sat"%string] else [])).

(** ** The class list of a cell *)

(** The class list depends on the five flags only; checked on all 32 of
    their combinations. *)
Lemma parse_className c : ordered_set_parse (className c) = cell_classes c.
Proof.
  destruct c as [k d o sl h su sa]. unfold className, cell_classes. cbn [cell_other_month cell_selected cell_has_memo cell_sun cell_sat].
  destruct o, sl, h, su, sa; vm_compute; reflexivity.
Qed.

(** C27: The class template of a date cell and the DOM's class-list
    parser round-trip: the element's classes are ["calendar-date"] and
    exactly the classes [other-month], [selected], [has-memo], [sun] and
    [sat] whose condition holds, in this order, without empty tokens from
    the conditions that do not. *)
Theorem class_list_of_cell c : ordered_set_parse (className c) = cell_classes c.
Proof. exact (parse_className c). Qed.

Lemma cell_has_class c :
  has_class (cell_element c) "sun"%string = cell_sun c /\ has_class (cell_element c) "sat"%string = cell_sat c /\
  has_class (cell_element c) "has-memo"%string = cell_has_memo c /\
  has_class (cell_element c) "selected"%string = cell_selected c /\
  has_class (cell_element c) "other-month"%string = cell_other_month c.
Proof.
  unfold has_class, cell_element. cbn [el_className]. rewrite parse_className. unfold cell_classes.
  destruct (cell_other_month c), (cell_selected c), (cell_has_memo c), (cell_sun c), (cell_sat c);
    vm_compute; repeat split.
Qed.

(** The header of column [j]: [sun] only in column 0, [sat] only in
    column 6. *)
Lemma header_has_class j d :
  (j < 7)%nat ->
  has_class (nth j weekday_header d) "sun"%string = (Z.of_nat j =? 0) /\
  has_class (nth j weekday_header d) "sat"%string = (Z.of_nat j =? 6).
Proof. intros Hj. do 7 (destruct j as [|j]; [vm_compute; split; reflexivity|]). lia. Qed.

Lemma mod_7_sub p : (7 <= p)%nat -> Z.of_nat (p - 7) mod 7 = Z.of_nat (p mod 7).
Proof.
  intros Hp. rewrite Nat2Z.inj_mod, Nat2Z.inj_sub by exact Hp.
  replace (Z.of_nat p - Z.of_nat 7) with (Z.of_nat p + (-1) * 7) by lia. apply Z.mod_add. lia.
Qed.

(** C28: Every date cell lines up with its weekday header: the element
    at position [p >= 7] of the grid's children has the [sun] class
    exactly when the header at position [p mod 7] has it, and likewise
    the [sat] class. *)
Theorem header_columns tz cur sel memos cells p e :
  renderCalendar tz cur sel memos = Some cells -> (7 <= p)%nat ->
  nth_error (calendar_grid cells) p = Some e ->
  has_class e "sun"%string = has_class (nth (p mod 7) weekday_header e) "sun"%string /\
  has_class e "sat"%string = has_class (nth (p mod 7) weekday_header e) "sat"%string.
Proof.
  intros Hr Hp He. unfold calendar_grid in He. rewrite nth_error_app2 in He by (cbn; lia).
  cbn [length weekday_header] in He. rewrite nth_error_map in He.
  destruct (nth_error cells (p - 7)) as [c|] eqn:Hc; [|discriminate]. injection He as <-.
  destruct (weekday_columns tz cur sel memos cells Hr _ _ Hc) as [Su Sa].
  destruct (cell_has_class c) as (A & B & _).
  destruct (header_has_class (p mod 7) (cell_element c) ltac:(apply Nat.mod_upper_bound; lia)) as [C D].
  rewrite A, B, C, D, Su, Sa, mod_7_sub by exact Hp. auto.
Qed.

(** ** Witnesses *)

Lemma header_columns_witness :
  exists cells e, renderCalendar tz_utc (feb_2024 tz_utc) None JsObject.empty = Some cells /\ (7 <= 13)%nat /\
  nth_error (calendar_grid cells) 13 = Some e /\
  has_class e "sun"%string = has_class (nth (13 mod 7) weekday_header e) "sun"%string /\
  has_class e "sat"%string = has_class (nth (13 mod 7) weekday_header e) "sat"%string.
Proof.
  match eval vm_compute in (renderCalendar tz_utc (feb_2024 tz_utc) None JsObject.empty) with
  | Some ?cs =>
      assert (Hr : renderCalendar tz_utc (feb_2024 tz_utc) None JsObject.empty = Some cs) by (vm_compute; reflexivity);
      match eval vm_compute in (nth_error (calendar_grid cs) 13) with
      | Some ?e0 =>
          assert (He : nth_error (calendar_grid cs) 13 = Some e0) by (vm_compute; reflexivity);
          assert (Hp : (7 <= 13)%nat) by lia;
          exists cs, e0; exact (conj Hr (conj Hp (conj He (header_columns _ _ _ _ _ 13 e0 Hr Hp He))))
      end
  end.
Defined.

End Markup.
