(* ===== verification/Commit.v ===== *)
(** * Mounting as React runs it: the two effects, step by step

    [App.mount] gives the state after mounting in one step.  Here the
    mount is the sequence of operations React performs (React 18): the
    first render with [memos = {}], the passive effects of that commit in
    the order they are declared — the loading effect (src/src/App.jsx
    lines 11-16), then the saving effect (lines 19-21), which still sees
    the first render's [memos] — then one re-render with the batched
    [setMemos] update, whose new [memos] makes the saving effect run
    again.  An exception in an effect stops the effects after it and
    unmounts the component; an exception in a render does the same.
    Under [React.StrictMode] in development, React runs the mount effects
    twice (mount, cleanup, mount) before that re-render.

    The effects are written in a state-and-error monad (ExtLib's
    [stateT] over [sum]): the state is the [world] the effects see
    (the ['memos'] entry of [localStorage], the values written to it in
    order, the queued [setMemos] values); an exception carries the world
    at the moment it is thrown.

    - [commit_refines_mount]: without StrictMode the commit ends exactly
      as [App.mount] says: the same state, or a crash.
    - [mount_writes]: the entry is written twice on mount, first with
      ["{}"] (the first render's [memos]), then with the loaded object.
    - [crash_recovery]: after a crash, the entry left in [localStorage]
      crashes every later mount when [JSON.parse] threw on it, and mounts
      normally when it parsed to [null] (it has been overwritten by
      ["{}"]).
    - [strict_mode_erases]: under StrictMode every mount that loads a
      memo object ends with no memos and ["{}"] in [localStorage]. *)

From Stdlib Require Import ZArith Lia List Bool.
From ExtLib Require Import Structures.Monad Structures.MonadState Structures.MonadExc.
From ExtLib Require Import Data.Monads.StateMonad Data.Monads.EitherMonad.
From S2P Require Import Prelude JsString JsDate MemoStore Json JsonParse Grid App.
Import ListNotations Grid App.
Import MonadNotation.

Local Open Scope monad_scope.
#[local] Existing Instance Monad_stateT.

Module Commit.

(** The exceptions the mount can throw. *)
Inductive js_error :=
| SyntaxErrorThrown   (* [JSON.parse] on a malformed entry *)
| TypeErrorThrown.    (* reading [memos[formattedDate]] when [memos] is [null] *)

(** What the effects see outside the hooks. *)
Record world := mk_world {
  entry : option jsstr;          (* [localStorage.getItem('memos')] *)
  writes : list jsstr;           (* the values of [setItem('memos', _)], in order *)
  queue : list JsonParse.json    (* the pending [setMemos] values *)
}.

(** How a mount stops early: an exception with the world at that point,
    or a loaded value that is not an object of strings, which the model
    of the component does not cover. *)
Inductive stop :=
| Throw (e : js_error) (w : world)
| Unsupported (v : JsonParse.json).

Definition eff := stateT world (sum stop).

Definition getItem : eff (option jsstr) :=
  w <- get ;; ret (entry w).

Definition setItem (v : jsstr) : eff unit :=
  w <- get ;; put (mk_world (Some v) (writes w ++ [v]) (queue w)).

Definition setMemos (v : JsonParse.json) : eff unit :=
  w <- get ;; put (mk_world (entry w) (writes w) (queue w ++ [v])).

Definition throw {A} (e : js_error) : eff A :=
  w <- get ;; raise (Throw e w).

(** The loading effect, lines 11-16. *)
Definition load_effect : eff unit :=
  storedMemos <- getItem ;;
  if truthy storedMemos then
    match JsonParse.parse (property_key storedMemos) with
    | JsonParse.Parsed v => setMemos v
    | _ => throw SyntaxErrorThrown
    end
  else ret tt.

(** The saving effect, lines 19-21, with the [memos] of the render it
    belongs to. *)
Definition save_effect (memos : JsObject.t) : eff unit :=
  setItem (Json.stringify memos).

(** The passive effects of the first commit: each effect once, or twice
    under StrictMode; the first render has [memos = {}]. *)
Definition mount_effects (strict : bool) : eff unit :=
  load_effect ;; save_effect JsObject.empty ;;
  if strict then load_effect ;; save_effect JsObject.empty else ret tt.

(** The re-render for the batched updates: the last queued value wins.
    A [null] makes the render throw; a new object makes the saving effect
    run again. *)
Definition rerender (now : Z) : eff state :=
  w <- get ;;
  match last (queue w) JsonParse.JNull, queue w with
  | _, [] => ret (mk_state now None [] JsObject.empty (entry w))
  | JsonParse.JNull, _ => throw TypeErrorThrown
  | v, _ =>
      match JsonParse.to_memos v with
      | Some o => save_effect o ;; w' <- get ;; ret (mk_state now None [] o (entry w'))
      | None => raise (Unsupported v)
      end
  end.

(** The outcome of mounting: the state and world after the commits, or
    the exception that unmounted the component. *)
Inductive outcome :=
| Committed (s : state) (w : world)
| Threw (e : js_error) (w : world)
| Unmodelled_value (v : JsonParse.json).

Definition mount_commit (strict : bool) (now : Z) (stored : option jsstr) : outcome :=
  match runStateT (mount_effects strict ;; rerender now) (mk_world stored [] []) with
  | inr (s, w) => Committed s w
  | inl (Throw e w) => Threw e w
  | inl (Unsupported v) => Unmodelled_value v
  end.

Definition outcome_result (o : outcome) : mount_result :=
  match o with
  | Committed s _ => Mounted s
  | Threw _ _ => Crashed
  | Unmodelled_value _ => Unmodelled
  end.

(** ** The commit, case by case *)

Definition empty_text : jsstr := Json.stringify JsObject.empty.

(** No entry, or the empty string: nothing is loaded, and the first
    render's [{}] is written once. *)
Lemma commit_falsy now stored :
  truthy stored = false ->
  mount_commit false now stored =
  Committed (mk_state now None [] JsObject.empty (Some empty_text)) (mk_world (Some empty_text) [empty_text] []).
Proof. intros H. destruct stored as [[|c t]|]; try discriminate; reflexivity. Qed.

(** Under StrictMode the second loading effect reads the ["{}"] the
    first saving effect wrote. *)
Lemma commit_falsy_strict now stored :
  truthy stored = false ->
  mount_commit true now stored =
  Committed (mk_state now None [] JsObject.empty (Some empty_text))
            (mk_world (Some empty_text) [empty_text; empty_text; empty_text] [JsonParse.JObject []]).
Proof. intros H. destruct stored as [[|c t]|]; try discriminate; reflexivity. Qed.

(** A malformed entry: the loading effect throws before anything is
    written. *)
Lemma commit_syntax strict now text :
  text <> [] -> (forall v, JsonParse.parse text <> JsonParse.Parsed v) ->
  mount_commit strict now (Some text) = Threw SyntaxErrorThrown (mk_world (Some text) [] []).
Proof.
  intros Hne Hp. destruct text as [|c t]; [congruence|].
  unfold mount_commit. cbn -[JsonParse.parse].
  destruct (JsonParse.parse (c :: t)) as [v| |]; [now destruct (Hp v)|reflexivity|reflexivity].
Qed.

(** A parsed entry, without StrictMode: [{}] is written, then the
    re-render reads the loaded value. *)
Lemma commit_parsed now text v :
  text <> [] -> JsonParse.parse text = JsonParse.Parsed v ->
  mount_commit false now (Some text) =
  match v with
  | JsonParse.JNull => Threw TypeErrorThrown (mk_world (Some empty_text) [empty_text] [v])
  | _ =>
      match JsonParse.to_memos v with
      | Some o => Committed (mk_state now None [] o (Some (Json.stringify o)))
                            (mk_world (Some (Json.stringify o)) [empty_text; Json.stringify o] [v])
      | None => Unmodelled_value v
      end
  end.
Proof.
  intros Hne Hp. destruct text as [|c t]; [congruence|].
  unfold mount_commit. cbn -[JsonParse.parse JsonParse.to_memos Json.stringify]. rewrite Hp.
  cbn -[JsonParse.to_memos Json.stringify].
  destruct v; try reflexivity; destruct (JsonParse.to_memos _); reflexivity.
Qed.

(** A parsed entry under StrictMode: the second loading effect reads
    the ["{}"] the first saving effect wrote, and its update comes last. *)
Lemma commit_parsed_strict now text v :
  text <> [] -> JsonParse.parse text = JsonParse.Parsed v ->
  mount_commit true now (Some text) =
  Committed (mk_state now None [] JsObject.empty (Some empty_text))
            (mk_world (Some empty_text) [empty_text; empty_text; empty_text] [v; JsonParse.JObject []]).
Proof.
  intros Hne Hp. destruct text as [|c t]; [congruence|].
  unfold mount_commit. cbn -[JsonParse.parse JsonParse.to_memos Json.stringify]. rewrite Hp.
  reflexivity.
Qed.

(** The parse of a truthy entry decides the commit. *)
Lemma truthy_cases (stored : option jsstr) :
  truthy stored = false \/ exists text, stored = Some text /\ text <> [].
Proof. destruct stored as [[|c t]|]; auto. right. exists (c :: t). split; [reflexivity|discriminate]. Qed.

Lemma parse_cases text :
  (exists v, JsonParse.parse text = JsonParse.Parsed v) \/ (forall v, JsonParse.parse text <> JsonParse.Parsed v).
Proof. destruct (JsonParse.parse text) as [v| |]; [left; eauto|right; discriminate..]. Qed.

Lemma mount_parsed now text v :
  text <> [] -> JsonParse.parse text = JsonParse.Parsed v ->
  mount now (Some text) =
  match v with
  | JsonParse.JNull => Crashed
  | _ => match JsonParse.to_memos v with
         | Some o => Mounted (persist_memos (mk_state now None [] o (Some text)))
         | None => Unmodelled
         end
  end.
Proof. intros Hne Hp. destruct text as [|c t]; [congruence|]. unfold mount. now rewrite Hp. Qed.

Lemma mount_syntax now text :
  text <> [] -> (forall v, JsonParse.parse text <> JsonParse.Parsed v) -> mount now (Some text) = Crashed.
Proof.
  intros Hne Hp. destruct text as [|c t]; [congruence|]. unfold mount.
  destruct (JsonParse.parse (c :: t)) as [v| |]; [now destruct (Hp v)|reflexivity|reflexivity].
Qed.

(** C12: Refinement of the one-step mount: without StrictMode, running
    the mount as React does — first render, the two effects in order,
    the re-render with the batched update and the saving effect it
    triggers — ends with the state [App.mount] gives, or crashes exactly
    when [App.mount] crashes. *)
Theorem commit_refines_mount now stored :
  outcome_result (mount_commit false now stored) = mount now stored.
Proof.
  destruct (truthy_cases stored) as [F|(text & -> & Hne)].
  - rewrite commit_falsy by exact F. destruct stored as [[|c t]|]; [reflexivity|discriminate|reflexivity].
  - destruct (parse_cases text) as [(v & Hp)|Hp].
    + rewrite (commit_parsed now text v Hne Hp), (mount_parsed now text v Hne Hp).
      destruct v; try reflexivity; destruct (JsonParse.to_memos _); reflexivity.
    + now rewrite (commit_syntax false now text Hne Hp), (mount_syntax now text Hne Hp).
Qed.

(** C15: Ordering of the writes: mounting with an entry that loads
    writes ["{}"] to [localStorage] before it writes the loaded memos
    back, so until the re-render commits the entry holds no memos;
    without an entry ["{}"] is written once. *)
Theorem mount_writes now stored s :
  mount now stored = Mounted s ->
  exists w, mount_commit false now stored = Committed s w /\
            writes w = (if truthy stored then [empty_text; Json.stringify (memos s)] else [empty_text]).
Proof.
  intros M. destruct (truthy_cases stored) as [F|(text & -> & Hne)].
  - rewrite commit_falsy by exact F. rewrite F.
    destruct stored as [[|c t]|]; try discriminate; injection M as <-; eexists; split; reflexivity.
  - destruct (parse_cases text) as [(v & Hp)|Hp]; [|now rewrite (mount_syntax now text Hne Hp) in M].
    rewrite (mount_parsed now text v Hne Hp) in M. rewrite (commit_parsed now text v Hne Hp).
    replace (truthy (Some text)) with true by (destruct text; [congruence|reflexivity]).
    destruct v; try discriminate; destruct (JsonParse.to_memos _) as [o|]; try discriminate;
      injection M as <-; eexists; split; reflexivity.
Qed.

(** C13: Error recovery: after a crash on mount, the entry left in
    [localStorage] is the malformed text itself when [JSON.parse] threw,
    and every later mount throws again; when the entry parsed to [null],
    the saving effect has overwritten it with ["{}"] before the render
    crashed, and the next mount succeeds with no memos. *)
Theorem crash_recovery now stored e w now' :
  mount_commit false now stored = Threw e w ->
  (e = SyntaxErrorThrown /\ entry w = stored /\ mount_commit false now' (entry w) = Threw SyntaxErrorThrown w) \/
  (e = TypeErrorThrown /\ entry w = Some empty_text /\
   exists w', mount_commit false now' (entry w) = Committed (initial now') w').
Proof.
  intros T. destruct (truthy_cases stored) as [F|(text & -> & Hne)].
  - rewrite commit_falsy in T by exact F. discriminate.
  - destruct (parse_cases text) as [(v & Hp)|Hp].
    + rewrite (commit_parsed now text v Hne Hp) in T.
      destruct v; try (destruct (JsonParse.to_memos _); discriminate).
      injection T as <- <-. right. split; [reflexivity|]. split; [reflexivity|]. eexists; reflexivity.
    + rewrite (commit_syntax false now text Hne Hp) in T. injection T as <- <-. left.
      split; [reflexivity|]. split; [reflexivity|]. exact (commit_syntax false now' text Hne Hp).
Qed.

(** C14: Under [React.StrictMode] (development builds), the mount
    effects run twice and the second loading effect reads the ["{}"] the
    first saving effect wrote: every mount that would succeed ends with
    the state of a first visit, no memos and ["{}"] in [localStorage],
    whatever memos the entry held. *)
Theorem strict_mode_erases now stored s :
  mount now stored = Mounted s ->
  exists w, mount_commit true now stored = Committed (initial now) w /\ entry w = Some empty_text.
Proof.
  intros M. destruct (truthy_cases stored) as [F|(text & -> & Hne)].
  - rewrite commit_falsy_strict by exact F. eexists; split; reflexivity.
  - destruct (parse_cases text) as [(v & Hp)|Hp]; [|now rewrite (mount_syntax now text Hne Hp) in M].
    rewrite (commit_parsed_strict now text v Hne Hp). eexists; split; reflexivity.
Qed.

(** ** Witnesses *)

(** The entry the dentist session leaves, and a truncated one. *)
Definition dentist_entry : option jsstr := stored saved.
Definition truncated_entry : option jsstr := Some ([123] ++ Json.quote key_feb_14 ++ [58]).

Lemma mount_dentist :
  exists s, mount 0 dentist_entry = Mounted s.
Proof.
  match eval vm_compute in (mount 0 dentist_entry) with
  | Mounted ?s => exists s; vm_compute; reflexivity
  end.
Defined.

Lemma mount_writes_witness :
  exists s, mount 0 dentist_entry = Mounted s /\
  exists w, mount_commit false 0 dentist_entry = Committed s w /\
            writes w = (if truthy dentist_entry then [empty_text; Json.stringify (memos s)] else [empty_text]).
Proof.
  destruct mount_dentist as (s & M). exists s. exact (conj M (mount_writes 0 dentist_entry s M)).
Defined.

Lemma crash_recovery_witness :
  exists e w, mount_commit false 0 truncated_entry = Threw e w /\
  ((e = SyntaxErrorThrown /\ entry w = truncated_entry /\
    mount_commit false 5 (entry w) = Threw SyntaxErrorThrown w) \/
   (e = TypeErrorThrown /\ entry w = Some empty_text /\
    exists w', mount_commit false 5 (entry w) = Committed (initial 5) w')).
Proof.
  match eval vm_compute in (mount_commit false 0 truncated_entry) with
  | Threw ?e ?w =>
      assert (T : mount_commit false 0 truncated_entry = Threw e w) by (vm_compute; reflexivity);
      exists e, w; exact (conj T (crash_recovery 0 truncated_entry e w 5 T))
  end.
Defined.

Lemma strict_mode_erases_witness :
  exists s, mount 0 dentist_entry = Mounted s /\
  exists w, mount_commit true 0 dentist_entry = Committed (initial 0) w /\ entry w = Some empty_text.
Proof.
  destruct mount_dentist as (s & M). exists s. exact (conj M (strict_mode_erases 0 dentist_entry s M)).
Defined.

(** The dentist memo is lost under StrictMode, and kept otherwise. *)
Example dentist_strict :
  outcome_result (mount_commit false 0 dentist_entry) = Mounted (mk_state 0 None [] (memos saved) dentist_entry) /\
  outcome_result (mount_commit true 0 dentist_entry) = Mounted (initial 0) /\
  memos saved <> JsObject.empty.
Proof. split; [|split]; vm_compute; [reflexivity|reflexivity|discriminate]. Qed.

End Commit.
